(** * ZK attendance-terminal client: codec, transports and facade

    A shallow embedding of the TypeScript sources
    ([utils.ts], [zklibtcp.ts], [zklibudp.ts], [zklib.ts], [zkerror.ts])
    and the properties of the written specification checked against it.

    Conventions of the embedding:
    - a Node [Buffer] is a [list Z] of bytes (each in [0, 256));
    - a JavaScript number that the code only uses as an integer is a [Z];
      [%] on numbers is [Z.rem] (truncating, as in JavaScript);
    - a call that may throw returns [Res]: [Ok v] or [Throw e];
    - a promise is observed through its [Outcome]: resolved, rejected or
      still pending;
    - the module [constants.ts] ([USHRT_MAX], [MAX_CHUNK], [COMMANDS]) is
      not part of the sources: its exports are the fields of the class
      [Constants], and every definition is parametric in them. *)

From Stdlib Require Import Ascii String.
From stdpp Require Import base numbers list strings pretty.

Local Open Scope Z_scope.

(** ** Exceptions and fallible calls *)

Inductive exn : Type :=
  | RangeError                    (* ERR_OUT_OF_RANGE / ERR_BUFFER_OUT_OF_BOUNDS *)
  | Error (message : string)      (* [new Error(message)] *)
  | SocketError (code : string).  (* an error object handed over by the socket *)

Inductive Res (A : Type) : Type :=
  | Ok (a : A)
  | Throw (e : exn).
Arguments Ok {A} a.
Arguments Throw {A} e.

#[global] Instance Res_ret : MRet Res := fun A a => Ok a.
#[global] Instance Res_bind : MBind Res := fun A B f m =>
  match m with
  | Ok a => f a
  | Throw e => Throw e
  end.

(** ** Constants imported from [constants.ts] *)

Class Constants : Type := {
  USHRT_MAX : Z;
  MAX_CHUNK : Z;
  CMD_CONNECT : Z;
  CMD_EXIT : Z;
  CMD_DATA : Z;
  CMD_ACK_OK : Z;
  CMD_PREPARE_DATA : Z;
  CMD_DATA_WRRQ : Z;
  CMD_DATA_RDY : Z;
  CMD_FREE_DATA : Z;
  CMD_USER_WRQ : Z;
  CMD_REG_EVENT : Z;
  EF_ATTLOG : Z
}.

(** Modelled from the spec: [constants.ts] is missing from the sources.
    The spec's checksum formula ("final value = 65535 - sum - 1") fixes
    [USHRT_MAX], its chunk size is "typical 65535", and the opcodes are
    "those of the ZK protocol".  This instance only serves to run the
    definitions on concrete inputs; every general statement below holds
    for all values of the constants that meet its hypotheses. *)
Definition zk_constants : Constants := {|
  USHRT_MAX := 65535;
  MAX_CHUNK := 65535;
  CMD_CONNECT := 1000;
  CMD_EXIT := 1001;
  CMD_DATA := 1501;
  CMD_ACK_OK := 2000;
  CMD_PREPARE_DATA := 1500;
  CMD_DATA_WRRQ := 1503;
  CMD_DATA_RDY := 1504;
  CMD_FREE_DATA := 1502;
  CMD_USER_WRQ := 8;
  CMD_REG_EVENT := 500;
  EF_ATTLOG := 1
|}.

(** ** Node's [Buffer] *)

Module Buffer.

Definition t : Type := list Z.

Definition is_byte (b : Z) : Prop := 0 <= b < 256.

(** [Buffer.alloc(n)]: zero-filled. *)
Definition alloc (n : nat) : t := replicate n 0.

(** Little-endian value of a run of bytes, and the bytes of a value. *)
Fixpoint le_value (bs : list Z) : Z :=
  match bs with
  | [] => 0
  | b :: bs' => b + 256 * le_value bs'
  end.

Fixpoint le_bytes (n : nat) (v : Z) : list Z :=
  match n with
  | O => []
  | S n' => v `mod` 256 :: le_bytes n' (v `div` 256)
  end.

(** [buf.subarray(start)] and [buf.subarray(start, end)]. *)
Definition subarray_from (buf : t) (start : nat) : t := drop start buf.
Definition subarray (buf : t) (start stop : nat) : t :=
  take (stop - start) (drop start buf).

(** Overwrite [buf] from [offset] with as many of [bytes] as fit
    ([source.copy(buf, offset)]). *)
Definition copy (bytes : list Z) (buf : t) (offset : nat) : t :=
  let k := take (length buf - offset) bytes in
  take offset buf ++ k ++ drop (offset + length k) buf.

(** [buf.readUIntLE(offset, byteLength)]; throws when the run does not
    lie inside the buffer. *)
Definition readUIntLE (buf : t) (offset byteLength : nat) : Res Z :=
  if decide (offset + byteLength <= length buf)%nat
  then Ok (le_value (take byteLength (drop offset buf)))
  else Throw RangeError.

Definition readUInt16LE (buf : t) (offset : nat) : Res Z := readUIntLE buf offset 2.
Definition readUInt32LE (buf : t) (offset : nat) : Res Z := readUIntLE buf offset 4.

(** [buf.writeUIntNLE(value, offset)]: Node checks the value against
    [0 .. 2^(8N) - 1] and the offset against the buffer, and throws a
    [RangeError] otherwise. *)
Definition writeUIntLE (byteLength : nat) (buf : t) (value : Z) (offset : nat) : Res t :=
  if decide (0 <= value < 2 ^ (8 * Z.of_nat byteLength))
  then if decide (offset + byteLength <= length buf)%nat
       then Ok (copy (le_bytes byteLength value) buf offset)
       else Throw RangeError
  else Throw RangeError.

Definition writeUInt16LE : t -> Z -> nat -> Res t := writeUIntLE 2.
Definition writeUInt32LE : t -> Z -> nat -> Res t := writeUIntLE 4.

(** [buf[i]] for an index inside the buffer. *)
Definition get (buf : t) (i : nat) : Z := nth i buf 0.

(** [buf.toString("ascii")]: the highest bit of each byte is dropped. *)
Fixpoint toString_ascii (buf : t) : string :=
  match buf with
  | [] => EmptyString
  | b :: buf' => String (ascii_of_N (Z.to_N (b `mod` 128))) (toString_ascii buf')
  end.

End Buffer.

(** ** [utils.ts]: the codec *)

Module Utils.

Record DateArgs : Type := mkDate {
  year : Z; month : Z; day : Z; hour : Z; minute : Z; second : Z
}.

(** [parseTimeToDate]: the six arguments handed to [new Date(...)], in
    order.  Every division below is exact, the remainder having been
    subtracted first. *)
Definition parseTimeToDate (time : Z) : DateArgs :=
  let second := time `rem` 60 in
  let time := (time - second) `div` 60 in
  let minute := time `rem` 60 in
  let time := (time - minute) `div` 60 in
  let hour := time `rem` 24 in
  let time := (time - hour) `div` 24 in
  let day := time `rem` 31 + 1 in
  let time := (time - (day - 1)) `div` 31 in
  let month := time `rem` 12 in
  let time := (time - month) `div` 12 in
  let year := time + 2000 in
  mkDate year month day hour minute second.

(** [parseHexToTime]: six bytes, year first; again the arguments handed
    to [new Date(...)]. *)
Definition parseHexToTime (hex : Buffer.t) : Res DateArgs :=
  year ← Buffer.readUIntLE hex 0 1;
  month ← Buffer.readUIntLE hex 1 1;
  date ← Buffer.readUIntLE hex 2 1;
  hour ← Buffer.readUIntLE hex 3 1;
  minute ← Buffer.readUIntLE hex 4 1;
  second ← Buffer.readUIntLE hex 5 1;
  Ok (mkDate (2000 + year) (month - 1) date hour minute second).

(** The objects the record decoders return. *)
Module User28.
Record t : Type := mk { uid : Z; role : Z; name : string; userId : Z }.
End User28.

Module Record40.
Record t : Type := mk { userSn : Z; deviceUserId : string; recordTime : string }.
End Record40.

Module Record16.
Record t : Type := mk { deviceUserId : Z; recordTime : DateArgs }.
End Record16.

Module RealTimeLog18.
Record t : Type := mk { userId : Z; attTime : DateArgs }.
End RealTimeLog18.

Module RealTimeLog52.
Record t : Type := mk { userId : string; attTime : DateArgs }.
End RealTimeLog52.

Section Codec.
Context {K : Constants}.

(** The loop of [createCheckSum]: [i] advances by two; the last byte of
    an odd-length buffer is added alone.  [fuel] bounds the number of
    iterations; [length buf] is always enough. *)
Fixpoint createCheckSum_loop (fuel : nat) (buf : Buffer.t) (i : nat) (checkSum : Z) : Res Z :=
  match fuel with
  | O => Ok checkSum
  | S fuel' =>
      if decide (i < length buf)%nat then
        word ← (if decide (i = length buf - 1)%nat
                then Ok (Buffer.get buf i)
                else Buffer.readUInt16LE buf i);
        createCheckSum_loop fuel' buf (i + 2) ((checkSum + word) `rem` USHRT_MAX)
      else Ok checkSum
  end.

Definition createCheckSum (buf : Buffer.t) : Res Z :=
  checkSum ← createCheckSum_loop (length buf) buf 0 0;
  Ok (USHRT_MAX - checkSum - 1).

Definition createUDPHeader (command sessionId replyId : Z) (data : Buffer.t) : Res Buffer.t :=
  let dataBuffer := data in
  let buf := Buffer.alloc (8 + length dataBuffer) in
  buf ← Buffer.writeUInt16LE buf command 0;
  buf ← Buffer.writeUInt16LE buf 0 2;
  buf ← Buffer.writeUInt16LE buf sessionId 4;
  buf ← Buffer.writeUInt16LE buf replyId 6;
  let buf := Buffer.copy dataBuffer buf 8 in
  checkSum2 ← createCheckSum buf;
  buf ← Buffer.writeUInt16LE buf checkSum2 2;
  let replyId := (replyId + 1) `rem` USHRT_MAX in
  Buffer.writeUInt16LE buf replyId 6.

Definition tcp_prefix : Buffer.t := [80; 80; 130; 125; 19; 0; 0; 0].

Definition createTCPHeader (command sessionId replyId : Z) (data : Buffer.t) : Res Buffer.t :=
  let dataBuffer := data in
  let buf := Buffer.alloc (8 + length dataBuffer) in
  buf ← Buffer.writeUInt16LE buf command 0;
  buf ← Buffer.writeUInt16LE buf 0 2;
  buf ← Buffer.writeUInt16LE buf sessionId 4;
  buf ← Buffer.writeUInt16LE buf replyId 6;
  let buf := Buffer.copy dataBuffer buf 8 in
  checkSum2 ← createCheckSum buf;
  buf ← Buffer.writeUInt16LE buf checkSum2 2;
  let replyId := (replyId + 1) `rem` USHRT_MAX in
  buf ← Buffer.writeUInt16LE buf replyId 6;
  prefixBuf ← Buffer.writeUInt16LE tcp_prefix (Z.of_nat (length buf)) 4;
  Ok (prefixBuf ++ buf).

Definition TCP_HEADER_SIGNATURE : Buffer.t := [80; 80; 130; 125].

Definition removeTcpHeader (buf : Buffer.t) : Buffer.t :=
  if decide (length buf < 8)%nat then buf
  else if decide (take 4 buf = TCP_HEADER_SIGNATURE)
       then Buffer.subarray_from buf 8
       else buf.

Record UDPHeader : Type := mkUDPHeader {
  commandId : Z; checkSum : Z; sessionId : Z; replyId : Z
}.

Definition decodeUDPHeader (header : Buffer.t) : Res UDPHeader :=
  commandId ← Buffer.readUIntLE header 0 2;
  checkSum ← Buffer.readUIntLE header 2 2;
  sessionId ← Buffer.readUIntLE header 4 2;
  replyId ← Buffer.readUIntLE header 6 2;
  Ok (mkUDPHeader commandId checkSum sessionId replyId).

Record TCPHeader : Type := mkTCPHeader {
  tcp_commandId : Z; tcp_checkSum : Z; tcp_sessionId : Z; tcp_replyId : Z;
  payloadSize : Z
}.

Definition decodeTCPHeader (header : Buffer.t) : Res TCPHeader :=
  payloadSize ← Buffer.readUIntLE header 4 2;
  commandId ← Buffer.readUIntLE header 8 2;
  checkSum ← Buffer.readUIntLE header 10 2;
  sessionId ← Buffer.readUIntLE header 12 2;
  replyId ← Buffer.readUIntLE header 14 2;
  Ok (mkTCPHeader commandId checkSum sessionId replyId payloadSize).

(** [text.split("\0").shift()]: the text before the first NUL. *)
Fixpoint before_nul (text : string) : string :=
  match text with
  | EmptyString => EmptyString
  | String c text' =>
      if decide (c = zero) then EmptyString else String c (before_nul text')
  end.

Record User72 : Type := mkUser72 {
  uid : Z; role : Z; password : string; name : string; cardno : Z; userId : string
}.

Definition decodeUserData72 (userData : Buffer.t) : Res User72 :=
  uid ← Buffer.readUIntLE userData 0 2;
  role ← Buffer.readUIntLE userData 2 1;
  let password := before_nul (Buffer.toString_ascii (Buffer.subarray userData 3 (3 + 8))) in
  let name := before_nul (Buffer.toString_ascii (Buffer.subarray_from userData 11)) in
  cardno ← Buffer.readUIntLE userData 35 4;
  let userId := before_nul (Buffer.toString_ascii (Buffer.subarray userData 48 (48 + 9))) in
  Ok (mkUser72 uid role password name cardno userId).

Definition decodeUserData28 (userData : Buffer.t) : Res User28.t :=
  uid ← Buffer.readUIntLE userData 0 2;
  role ← Buffer.readUIntLE userData 2 1;
  let name := before_nul (Buffer.toString_ascii (Buffer.subarray userData 8 (8 + 8))) in
  userId ← Buffer.readUIntLE userData 24 4;
  Ok (User28.mk uid role name userId).

(** [decodeRecordData40]; [Date_toString] stands for [Date.prototype.toString],
    whose text depends on the time zone of the process. *)
Definition decodeRecordData40 (Date_toString : DateArgs -> string) (recordData : Buffer.t)
  : Res Record40.t :=
  userSn ← Buffer.readUIntLE recordData 0 2;
  let deviceUserId :=
    before_nul (Buffer.toString_ascii (Buffer.subarray recordData 2 (2 + 9))) in
  time ← Buffer.readUInt32LE recordData 27;
  Ok (Record40.mk userSn deviceUserId (Date_toString (parseTimeToDate time))).

Definition decodeRecordData16 (recordData : Buffer.t) : Res Record16.t :=
  deviceUserId ← Buffer.readUIntLE recordData 0 2;
  time ← Buffer.readUInt32LE recordData 4;
  Ok (Record16.mk deviceUserId (parseTimeToDate time)).

Definition decodeRecordRealTimeLog18 (recordData : Buffer.t) : Res RealTimeLog18.t :=
  userId ← Buffer.readUIntLE recordData 8 1;
  attTime ← parseHexToTime (Buffer.subarray recordData 12 18);
  Ok (RealTimeLog18.mk userId attTime).

Definition decodeRecordRealTimeLog52 (recordData : Buffer.t) : Res RealTimeLog52.t :=
  let payload := removeTcpHeader recordData in
  let recvData := Buffer.subarray_from payload 8 in
  let userId := before_nul (Buffer.toString_ascii (Buffer.subarray recvData 0 9)) in
  attTime ← parseHexToTime (Buffer.subarray recvData 26 (26 + 6));
  Ok (RealTimeLog52.mk userId attTime).

(** [exportErrorMessage]; [COMMANDS] is the table of [constants.ts],
    its keys in the order [Object.keys] lists them. *)
Fixpoint exportErrorMessage (COMMANDS : list (string * Z)) (commandValue : Z) : string :=
  match COMMANDS with
  | [] => "AN UNKNOWN ERROR"
  | (key, value) :: keys =>
      if decide (value = commandValue) then key
      else exportErrorMessage keys commandValue
  end.

(** [checkNotEventTCP]: despite its name it answers [true] exactly on
    event frames; the [try]/[catch] turns a failed read into [false]. *)
Definition checkNotEventTCP (data : Buffer.t) : bool :=
  let attempt :=
    let data := removeTcpHeader data in
    commandId ← Buffer.readUIntLE data 0 2;
    event ← Buffer.readUIntLE data 4 2;
    Ok (bool_decide (event = EF_ATTLOG) && bool_decide (commandId = CMD_REG_EVENT)) in
  match attempt with
  | Ok b => b
  | Throw _ => false
  end.

(** [checkNotEventUDP]: no [try] here, a short datagram makes the
    header decoder throw. *)
Definition checkNotEventUDP (data : Buffer.t) : Res bool :=
  h ← decodeUDPHeader (Buffer.subarray data 0 8);
  Ok (bool_decide (commandId h = CMD_REG_EVENT)).

End Codec.

End Utils.


(** ** Promises and the network, as the transports see them *)

(** What a promise is rejected with: an error object, or the text
    [prefix + err.message] that some methods build. *)
Inductive rejection : Type :=
  | Raised (e : exn)
  | Text (prefix : string) (cause : rejection).

Inductive Outcome (A : Type) : Type :=
  | Resolved (a : A)
  | Rejected (r : rejection)
  | Pending.
Arguments Resolved {A} a.
Arguments Rejected {A} r.
Arguments Pending {A}.

(** What the peer and the socket do after one frame has been handed to
    the socket: the event that reaches the waiting promise first. *)
Inductive NetReply : Type :=
  | WriteFails (code : string)   (* the write/send callback reports an error *)
  | Data (data : Buffer.t)       (* a "data" / "message" event arrives *)
  | Silence.                     (* no event before the timer, if one is armed *)

(** Methods that run synchronously: state in, state and result (or
    exception) out. *)
Definition M (St A : Type) : Type := St -> St * Res A.

#[global] Instance M_ret {St} : MRet (M St) := fun A a s => (s, Ok a).
#[global] Instance M_bind {St} : MBind (M St) := fun A B f m s =>
  match m s with
  | (s', Ok a) => f a s'
  | (s', Throw e) => (s', Throw e)
  end.

Definition lift {St A} (r : Res A) : M St A := fun s => (s, r).
Definition get_state {St} : M St St := fun s => (s, Ok s).
Definition modify {St} (f : St -> St) : M St unit := fun s => (f s, Ok tt).

(** The request loop shared by both transports:
    [for (let i = 0; i <= numberChunks; i++) { ... }]. *)
Section RequestLoop.
Context {K : Constants} {St : Type}.
Variable sendChunkRequest : Z -> Z -> M St unit.

Fixpoint requestChunks_from (fuel : nat) (i numberChunks remain : Z) : M St unit :=
  match fuel with
  | O => mret tt
  | S fuel' =>
      if decide (i <= numberChunks) then
        _ ← (if decide (i = numberChunks)
             then sendChunkRequest (numberChunks * MAX_CHUNK) remain
             else sendChunkRequest (i * MAX_CHUNK) MAX_CHUNK);
        requestChunks_from fuel' (i + 1) numberChunks remain
      else mret tt
  end.

(** [numberChunks + 2] iterations of fuel let the loop reach its own
    exit test. *)
Definition requestChunks (numberChunks remain : Z) : M St unit :=
  requestChunks_from (Z.to_nat (numberChunks + 2)) 0 numberChunks remain.

End RequestLoop.

(** The loop that [getUsers] and [getAttendances] run on the payload
    of a bulk read, on both transports:
    [while (recordData.length >= SIZE) { records.push(decode(recordData.subarray(0, SIZE)));
       recordData = recordData.subarray(SIZE) }],
    entered with [recordData = data.subarray(4)]. *)
Section RecordLoop.
Context {A : Type}.
Variable PACKET_SIZE : nat.
Variable decode : Buffer.t -> Res A.

Fixpoint decodeRecords_from (fuel : nat) (recordData : Buffer.t) (records : list A)
  : Res (list A) :=
  match fuel with
  | O => Ok records
  | S fuel' =>
      if decide (PACKET_SIZE <= length recordData)%nat then
        record ← decode (Buffer.subarray recordData 0 PACKET_SIZE);
        decodeRecords_from fuel' (Buffer.subarray_from recordData PACKET_SIZE)
          (records ++ [record])
      else Ok records
  end.

(** Every turn of the loop takes at least one byte off [recordData],
    the packet sizes being positive. *)
Definition decodeRecords (data : Buffer.t) : Res (list A) :=
  let recordData := Buffer.subarray_from data 4 in
  decodeRecords_from (length recordData + 1) recordData [].

End RecordLoop.

(** ** JavaScript strings and numbers, as far as the sources use them

    A [string] stands for a JavaScript string whose code units are
    below 256, one [ascii] per code unit. *)
Module Js.

Definition code (c : ascii) : Z := Z.of_N (N_of_ascii c).

Fixpoint codes (s : string) : list Z :=
  match s with
  | EmptyString => []
  | String c s' => code c :: codes s'
  end.

(** UTF-8 encoding of one code unit (Node's default string encoding). *)
Definition utf8 (c : ascii) : list Z :=
  let n := code c in
  if decide (n < 128) then [n] else [192 + n `div` 64; 128 + n `mod` 64].

(** The bytes of [s] that fit in [room] bytes; a character is written
    whole or not at all. *)
Fixpoint utf8_fit (room : nat) (s : string) : list Z :=
  match s with
  | EmptyString => []
  | String c s' =>
      let bs := utf8 c in
      if decide (length bs <= room)%nat
      then bs ++ utf8_fit (room - length bs) s'
      else []
  end.

(** [buf.write(string, offset, length)], for an offset inside [buf]. *)
Definition write (buf : Buffer.t) (s : string) (offset len : nat) : Buffer.t :=
  Buffer.copy (utf8_fit (Nat.min len (length buf - offset)) s) buf offset.

(** [buf.write(string, offset)]: up to the end of the buffer. *)
Definition write_to_end (buf : Buffer.t) (s : string) (offset : nat) : Buffer.t :=
  write buf s offset (length buf - offset).

(** A number that is an integer or [NaN] ([None]). *)
Definition number : Type := option Z.

(** The value a [writeUIntNLE] stores for a number: [NaN] passes the
    range check and is stored as 0. *)
Definition to_int (v : number) : Z := default 0 v.

Definition is_space (c : ascii) : bool :=
  bool_decide (code c ∈ [9; 10; 11; 12; 13; 32; 160]).

Fixpoint skip_spaces (s : string) : string :=
  match s with
  | String c s' => if is_space c then skip_spaces s' else s
  | EmptyString => s
  end.

Definition digit_of (radix : Z) (c : ascii) : option Z :=
  let n := code c in
  let d := if decide (48 <= n <= 57) then Some (n - 48)
           else if decide (97 <= n <= 122) then Some (n - 87)
           else if decide (65 <= n <= 90) then Some (n - 55)
           else None in
  match d with
  | Some v => if decide (v < radix) then Some v else None
  | None => None
  end.

(** Value of the longest run of digits at the start of [s]; [acc] is
    [None] until a digit has been read. *)
Fixpoint leading_digits (radix : Z) (s : string) (acc : number) : number :=
  match s with
  | String c s' =>
      match digit_of radix c with
      | Some d => leading_digits radix s' (Some (radix * default 0 acc + d))
      | None => acc
      end
  | EmptyString => acc
  end.

(** [parseInt(s)] with no radix: blanks, a sign, an optional [0x], then
    digits up to the first character that is none. *)
Definition parseInt (s : string) : number :=
  let s := skip_spaces s in
  let '(sign, s) :=
    match s with
    | String "-"%char s' => (-1, s')
    | String "+"%char s' => (1, s')
    | _ => (1, s)
    end in
  let '(radix, s) :=
    match s with
    | String "0"%char (String "x"%char s') => (16, s')
    | String "0"%char (String "X"%char s') => (16, s')
    | _ => (10, s)
    end in
  match leading_digits radix s None with
  | Some v => Some (sign * v)
  | None => None
  end.

(** Digits of [n] in radix 9, most significant first. *)
Fixpoint radix9_from (fuel : nat) (n : Z) (acc : string) : string :=
  match fuel with
  | O => acc
  | S fuel' =>
      let acc := String (ascii_of_N (Z.to_N (48 + n `mod` 9))) acc in
      if decide (n < 9) then acc else radix9_from fuel' (n `div` 9) acc
  end.

Definition radix9 (n : Z) : string := radix9_from (Z.to_nat n + 1) n EmptyString.

(** [Number(s).toString(9)] for a text [s] that is a run of decimal
    digits (the empty text reads as 0).  That is the domain of this
    definition: JavaScript reads more texts as numbers (with a sign, a
    fraction, an exponent, a radix prefix or blanks around them), and
    for those the answer "NaN" given here is not JavaScript's.  The
    general statements take [Number(userid).toString(9)] as a
    parameter; this definition is applied to runs of digits only. *)
Definition decimal_toString9 (s : string) : string :=
  if forallb (fun n => bool_decide (48 <= n <= 57)) (codes s)
  then radix9 (default 0 (leading_digits 10 s (Some 0)))
  else "NaN"%string.

End Js.

(** What [getInfo] of either transport answers with. *)
Record Info : Type := mkInfo { userCounts : Z; logCounts : Z; logCapacity : Z }.

(** ** [zklibtcp.ts]: the TCP transport (class [ZKLibTCP]) *)

Module ZKLibTCP.

(** The fields of the class that the methods below read or write.
    [socket] is a handle on a [net.Socket]; [wire] lists the frames
    handed to [socket.write], oldest first. *)
Record t : Type := mk {
  timeout : Z;
  sessionId : option Z;
  replyId : Z;
  socket : option nat;
  socketStatus : string;
  wire : list Buffer.t
}.

(** The state the constructor leaves. *)
Definition new (timeout : Z) : t := mk timeout None 0 None "Closed" [].

Definition set_sessionId (v : option Z) (this : t) : t :=
  mk (timeout this) v (replyId this) (socket this) (socketStatus this) (wire this).
Definition set_replyId (v : Z) (this : t) : t :=
  mk (timeout this) (sessionId this) v (socket this) (socketStatus this) (wire this).
Definition set_socket (v : option nat) (this : t) : t :=
  mk (timeout this) (sessionId this) (replyId this) v (socketStatus this) (wire this).
Definition set_socketStatus (v : string) (this : t) : t :=
  mk (timeout this) (sessionId this) (replyId this) (socket this) v (wire this).

(** [this.socket?.write(buf, ...)]. *)
Definition socket_write (buf : Buffer.t) (this : t) : t :=
  match socket this with
  | Some _ =>
      mk (timeout this) (sessionId this) (replyId this) (socket this)
         (socketStatus this) (wire this ++ [buf])
  | None => this
  end.

(** [this.sessionId!] used as a number: [null] is written as 0. *)
Definition sessionId_number (this : t) : Z := default 0 (sessionId this).

Section Methods.
Context {K : Constants}.

(** [writeMessage(msg, connect)].  Without a socket nothing is
    registered and the promise stays pending.  [connect] only picks
    the delay of the timer (2000 ms instead of [this.timeout]). *)
Definition writeMessage (this : t) (msg : Buffer.t) (connect : bool) (net : NetReply)
  : t * Outcome Buffer.t :=
  match socket this with
  | None => (this, Pending)
  | Some _ =>
      let this := socket_write msg this in
      match net with
      | Data data => (this, Resolved data)
      | WriteFails code => (this, Rejected (Raised (SocketError code)))
      | Silence =>
          if decide (timeout this = 0) then (this, Pending)
          else (this, Rejected (Raised (Error "TIMEOUT_ON_WRITING_MESSAGE")))
      end
  end.

(** [executeCmd(command, data)]; [data] is the byte content of the
    string or buffer passed in. *)
Definition executeCmd (this : t) (command : Z) (data : Buffer.t) (net : NetReply)
  : t * Outcome Buffer.t :=
  let this :=
    if decide (command = CMD_CONNECT)
    then set_replyId 0 (set_sessionId (Some 0) this)
    else set_replyId (replyId this + 1) this in
  match Utils.createTCPHeader command (sessionId_number this) (replyId this) data with
  | Throw e => (this, Rejected (Raised e))
  | Ok buf =>
      let '(this, reply) :=
        writeMessage this buf
          (bool_decide (command = CMD_CONNECT) || bool_decide (command = CMD_EXIT)) net in
      match reply with
      | Resolved reply =>
          let rReply := Utils.removeTcpHeader reply in
          if decide (length rReply <> 0%nat) then
            if decide (command = CMD_CONNECT) then
              match Buffer.readUInt16LE rReply 4 with
              | Ok sid => (set_sessionId (Some sid) this, Resolved rReply)
              | Throw e => (this, Rejected (Raised e))
              end
            else (this, Resolved rReply)
          else (this, Resolved rReply)
      | Rejected r => (this, Rejected r)
      | Pending => (this, Pending)
      end
  end.

(** [connect()]: a [Buffer], even an empty one, is truthy, so the
    [else] branch ("NO_REPLY_ON_CMD_CONNECT") is never taken. *)
Definition connect (this : t) (net : NetReply) : t * Outcome bool :=
  let '(this, reply) := executeCmd this CMD_CONNECT [] net in
  match reply with
  | Resolved _ => (this, Resolved true)
  | Rejected r => (this, Rejected r)
  | Pending => (this, Pending)
  end.

(** [sendChunkRequest(start, size)]. *)
Definition sendChunkRequest (start size : Z) : M t unit :=
  _ ← modify (fun this => set_replyId (replyId this + 1) this);
  let reqData := Buffer.alloc 8 in
  reqData ← lift (Buffer.writeUInt32LE reqData start 0);
  reqData ← lift (Buffer.writeUInt32LE reqData size 4);
  this ← get_state;
  buf ← lift (Utils.createTCPHeader CMD_DATA_RDY (sessionId_number this) (replyId this) reqData);
  modify (socket_write buf).

(** [readWithBuffer], the branch for [CMD_ACK_OK] / [CMD_PREPARE_DATA]:
    how the announced [size] is cut up, and the requests sent for it.
    [Math.round] is applied to an integer; the division is exact. *)
Definition remain_of (size : Z) : Z := size `rem` MAX_CHUNK.
Definition numberChunks_of (size : Z) : Z := (size - remain_of size) `div` MAX_CHUNK.
Definition totalPackets_of (size : Z) : Z :=
  numberChunks_of size + (if decide (remain_of size > 0) then 1 else 0).

Definition readWithBuffer_requests (size : Z) : M t unit :=
  requestChunks sendChunkRequest (numberChunks_of size) (remain_of size).

(** [setUser]: the body of the [try] up to the call of [executeCmd].
    [Number_toString9 userid] stands for [Number(userid).toString(9)]. *)
Definition MAX_UID : Z := 3000.
Definition MAX_USERID_LENGTH : nat := 9.
Definition MAX_NAME_LENGTH : nat := 24.
Definition MAX_PASSWORD_LENGTH : nat := 8.
Definition MAX_CARDNO_LENGTH : nat := 10.

Definition invalid_input (uid userid name password cardno : string) : bool :=
  bool_decide (Js.parseInt uid = Some 0)
  || match Js.parseInt uid with Some n => bool_decide (n > MAX_UID) | None => false end
  || bool_decide (MAX_USERID_LENGTH < String.length userid)%nat
  || bool_decide (MAX_NAME_LENGTH < String.length name)%nat
  || bool_decide (MAX_PASSWORD_LENGTH < String.length password)%nat
  || bool_decide (MAX_CARDNO_LENGTH < String.length cardno)%nat.

Definition setUser_command_string (Number_toString9 : string -> string)
    (uid userid name password : string) (role : Z) (cardno : string) : Res Buffer.t :=
  if invalid_input uid userid name password cardno
  then Throw (Error "Invalid input parameters")
  else
    let command_string := Buffer.alloc 72 in
    command_string ← Buffer.writeUInt16LE command_string (Js.to_int (Js.parseInt uid)) 0;
    command_string ← Buffer.writeUInt16LE command_string role 2;
    let command_string := Js.write command_string password 3 8 in
    let command_string := Js.write command_string name 11 24 in
    command_string ← Buffer.writeUInt16LE command_string (Js.to_int (Js.parseInt cardno)) 35;
    command_string ← Buffer.writeUInt32LE command_string 0 40;
    let command_string :=
      Js.write_to_end command_string
        (if decide (userid = EmptyString) then EmptyString else Number_toString9 userid) 48 in
    Ok command_string.

(** [setUser]: every error of the [try] is turned into the rejection
    ["Failed to set user: " + err.message]. *)
Definition setUser (Number_toString9 : string -> string) (this : t)
    (uid userid name password : string) (role : Z) (cardno : string) (net : NetReply)
  : t * Outcome Buffer.t :=
  match setUser_command_string Number_toString9 uid userid name password role cardno with
  | Throw e => (this, Rejected (Text "Failed to set user: " (Raised e)))
  | Ok command_string =>
      let '(this, reply) := executeCmd this CMD_USER_WRQ command_string net in
      match reply with
      | Rejected r => (this, Rejected (Text "Failed to set user: " r))
      | _ => (this, reply)
      end
  end.

(** [getUsers] and [getAttendances], from the payload [data.data] of
    the bulk read on: the records they return.  [ip] is [this.ip]. *)
Definition getUsers_records (data : Buffer.t) : Res (list Utils.User72) :=
  decodeRecords 72 Utils.decodeUserData72 data.

Definition getAttendances_records (Date_toString : Utils.DateArgs -> string) (ip : string)
    (data : Buffer.t) : Res (list (Utils.Record40.t * string)) :=
  decodeRecords 40
    (fun recordData =>
       record ← Utils.decodeRecordData40 Date_toString recordData; Ok (record, ip))
    data.

(** The listener that [getRealTimeLogs] puts on ["data"]: what it hands
    to the callback [cb], if it calls it. *)
Definition getRealTimeLogs_onData (data : Buffer.t) : Res (option Utils.RealTimeLog52.t) :=
  if negb (Utils.checkNotEventTCP data) then Ok None
  else if decide (16 < length data)%nat
       then log ← Utils.decodeRecordRealTimeLog52 data; Ok (Some log)
       else Ok None.

(** [closeSocket()]: the promise is resolved by the callback of
    [socket.end] or, at the latest, by the timer of two seconds. *)
Definition closeSocket (this : t) : t * Outcome bool := (this, Resolved true).

(** [disconnect()]: whatever [executeCmd] is rejected with is dropped. *)
Definition disconnect (this : t) (net : NetReply) : t * Outcome bool :=
  let '(this, reply) := executeCmd this CMD_EXIT [] net in
  match reply with
  | Pending => (this, Pending)
  | _ => closeSocket this
  end.

(** [getInfo()]: three counters of the reply to [CMD_GET_FREE_SIZES],
    read at offsets of the frame that [executeCmd] resolves with. *)
Definition getInfo (CMD_GET_FREE_SIZES : Z) (this : t) (net : NetReply) : t * Outcome Info :=
  let '(this, reply) := executeCmd this CMD_GET_FREE_SIZES [] net in
  match reply with
  | Resolved data =>
      let info :=
        userCounts ← Buffer.readUIntLE data 24 4;
        logCounts ← Buffer.readUIntLE data 40 4;
        logCapacity ← Buffer.readUIntLE data 72 4;
        Ok (mkInfo userCounts logCounts logCapacity) in
      match info with
      | Ok info => (this, Resolved info)
      | Throw e => (this, Rejected (Raised e))
      end
  | Rejected r => (this, Rejected r)
  | Pending => (this, Pending)
  end.

(** [getAttendanceSize()]: every error of the [try] is turned into the
    rejection ["Failed to get attendance size: " + err.message]. *)
Definition getAttendanceSize (CMD_GET_FREE_SIZES : Z) (this : t) (net : NetReply)
  : t * Outcome Z :=
  let '(this, reply) := executeCmd this CMD_GET_FREE_SIZES [] net in
  match reply with
  | Resolved data =>
      match Buffer.readUIntLE data 40 4 with
      | Ok logCounts => (this, Resolved logCounts)
      | Throw e => (this, Rejected (Text "Failed to get attendance size: " (Raised e)))
      end
  | Rejected r => (this, Rejected (Text "Failed to get attendance size: " r))
  | Pending => (this, Pending)
  end.

End Methods.

(** *** [readWithBuffer]: putting the chunks together

    The branch of [readWithBuffer] for [CMD_ACK_OK] and
    [CMD_PREPARE_DATA], once the announced size has been read. *)
Inductive bulk_error : Type :=
  | TIMEOUT_WHEN_RECEIVING_PACKET             (* "TIMEOUT WHEN RECEIVING PACKET" *)
  | TIME_OUT_PACKETS_REMAIN (totalPackets : Z) (* "TIME OUT !! n PACKETS REMAIN !" *)
  | Socket_is_disconnected_unexpectedly.      (* "Socket is disconnected unexpectedly" *)

(** What the promise is resolved with: [{ data, err }]. *)
Record BulkResult : Type := mkResult {
  data : Buffer.t;
  err : option bulk_error
}.

(** The variables the closures share.  [settled] is the value the
    promise was resolved with, if it was; [timer] tells whether a timer
    is armed, and whether it is the first one ([false]) or one armed by
    [handleOnData] ([true]); [closeListener] tells whether the listener put
    on ["close"] is still there; [progress] lists the calls of the
    progress callback [cb]. *)
Record Reassembly : Type := mkReassembly {
  size : Z;
  remain : Z;
  totalPackets : Z;
  replyData : Buffer.t;
  totalBuffer : Buffer.t;
  realTotalBuffer : Buffer.t;
  settled : option BulkResult;
  timer : option bool;
  closeListener : bool;
  progress : list (Z * Z)
}.

Section BulkRead.
Context {K : Constants}.

(** The state in which the listeners are installed. *)
Definition reassembly_of (size : Z) : Reassembly :=
  mkReassembly size (remain_of size) (totalPackets_of size) [] [] [] None (Some false) true [].

(** [resolve(r)]: only the first call settles a promise. *)
Definition resolve (r : BulkResult) (st : Reassembly) : Reassembly :=
  match settled st with
  | Some _ => st
  | None =>
      mkReassembly (size st) (remain st) (totalPackets st) (replyData st) (totalBuffer st)
        (realTotalBuffer st) (Some r) (timer st) (closeListener st) (progress st)
  end.

Definition set_timer (v : option bool) (st : Reassembly) : Reassembly :=
  mkReassembly (size st) (remain st) (totalPackets st) (replyData st) (totalBuffer st)
    (realTotalBuffer st) (settled st) v (closeListener st) (progress st).

Definition set_buffers (totalBuffer realTotalBuffer : Buffer.t) (st : Reassembly)
  : Reassembly :=
  mkReassembly (size st) (remain st) (totalPackets st) (replyData st) totalBuffer
    realTotalBuffer (settled st) (timer st) (closeListener st) (progress st).

(** [internalCallback(replyData, err)]. *)
Definition internalCallback (replyData : Buffer.t) (err : option bulk_error)
    (st : Reassembly) : Reassembly :=
  resolve (mkResult replyData err) (set_timer None st).

(** A packet is complete: its payload, less the first 8 bytes, joins
    [replyData]. *)
Definition packet_done (realTotalBuffer : Buffer.t) (st : Reassembly) : Reassembly :=
  let replyData := replyData st ++ Buffer.subarray_from realTotalBuffer 8 in
  let totalPackets := totalPackets st - 1 in
  let st :=
    mkReassembly (size st) (remain st) totalPackets replyData [] [] (settled st) (timer st)
      (closeListener st) (progress st ++ [(Z.of_nat (length replyData), size st)]) in
  if decide (totalPackets <= 0) then internalCallback replyData None st else st.

(** The listener [handleOnData]. *)
Definition handleOnData (reply : Buffer.t) (st : Reassembly) : Res Reassembly :=
  if Utils.checkNotEventTCP reply then Ok st
  else
    let st := set_timer (Some true) st in
    let totalBuffer := totalBuffer st ++ reply in
    packetLength ← Buffer.readUIntLE totalBuffer 4 2;
    if decide (8 + packetLength <= Z.of_nat (length totalBuffer)) then
      let realTotalBuffer :=
        realTotalBuffer st ++ Buffer.subarray totalBuffer 16 (Z.to_nat (8 + packetLength)) in
      let totalBuffer := Buffer.subarray_from totalBuffer (Z.to_nat (8 + packetLength)) in
      if decide ((totalPackets st > 1 /\ Z.of_nat (length realTotalBuffer) = MAX_CHUNK + 8)
                 \/ (totalPackets st = 1
                     /\ Z.of_nat (length realTotalBuffer) = remain st + 8))
      then Ok (packet_done realTotalBuffer st)
      else Ok (set_buffers totalBuffer realTotalBuffer st)
    else Ok (set_buffers totalBuffer (realTotalBuffer st) st).

(** The armed timer expires. *)
Definition timer_expires (st : Reassembly) : Reassembly :=
  match timer st with
  | None => st
  | Some rearmed =>
      let error :=
        if rearmed then TIME_OUT_PACKETS_REMAIN (totalPackets st)
        else TIMEOUT_WHEN_RECEIVING_PACKET in
      internalCallback (replyData st) (Some error) st
  end.

(** The socket emits ["close"]. *)
Definition socket_closes (st : Reassembly) : Reassembly :=
  if closeListener st then
    internalCallback (replyData st) (Some Socket_is_disconnected_unexpectedly)
      (mkReassembly (size st) (remain st) (totalPackets st) (replyData st) (totalBuffer st)
         (realTotalBuffer st) (settled st) (timer st) false (progress st))
  else st.

(** What happens to a reassembly in progress. *)
Inductive input : Type :=
  | Chunk (reply : Buffer.t)
  | TimerExpires
  | SocketCloses.

Definition react (i : input) (st : Reassembly) : Res Reassembly :=
  match i with
  | Chunk reply => handleOnData reply st
  | TimerExpires => Ok (timer_expires st)
  | SocketCloses => Ok (socket_closes st)
  end.

(** A run stops at the first exception that escapes a listener. *)
Fixpoint reacts (inputs : list input) (st : Reassembly) : Res Reassembly :=
  match inputs with
  | [] => Ok st
  | i :: inputs' => st' ← react i st; reacts inputs' st'
  end.

End BulkRead.

(** *** [requestData]: waiting for the reply to a read request

    The variables the closures of [requestData] share, and the timers
    that are running.  [request_timer] is the variable [timer];
    [replyBuffer] the variable of that name; a timer is listed in
    [timers], with what it does when it fires, from [setTimeout] until
    it fires or is cleared; [listening] tells whether [handleOnData] is
    still registered. *)
Inductive timer_action : Type :=
  | DeliverReplyBuffer              (* () => internalCallback(replyBuffer) *)
  | RejectWith (message : string).  (* () => reject(new Error(message)) *)

Record Request : Type := mkRequest {
  outcome : Outcome Buffer.t;
  listening : bool;
  request_timer : option nat;
  replyBuffer : Buffer.t;
  timers : list (nat * timer_action);
  nextTimer : nat
}.

(** [resolve] and [reject]: only the first call settles the promise. *)
Definition settle (o : Outcome Buffer.t) (rq : Request) : Request :=
  match outcome rq with
  | Pending =>
      mkRequest o (listening rq) (request_timer rq) (replyBuffer rq) (timers rq) (nextTimer rq)
  | _ => rq
  end.

(** [if (timer) clearTimeout(timer)]. *)
Definition clearTimeout (rq : Request) : Request :=
  mkRequest (outcome rq) (listening rq) (request_timer rq) (replyBuffer rq)
    (filter (fun timer => Some (fst timer) <> request_timer rq) (timers rq)) (nextTimer rq).

(** [timer = setTimeout(action, ...)]. *)
Definition setTimeout (action : timer_action) (rq : Request) : Request :=
  mkRequest (outcome rq) (listening rq) (Some (nextTimer rq)) (replyBuffer rq)
    (timers rq ++ [(nextTimer rq, action)]) (S (nextTimer rq)).

(** [this.socket?.removeListener("data", handleOnData)]. *)
Definition removeListener (rq : Request) : Request :=
  mkRequest (outcome rq) false (request_timer rq) (replyBuffer rq) (timers rq) (nextTimer rq).

Definition set_replyBuffer (v : Buffer.t) (rq : Request) : Request :=
  mkRequest (outcome rq) (listening rq) (request_timer rq) v (timers rq) (nextTimer rq).

Definition requestData_internalCallback (data : Buffer.t) (rq : Request) : Request :=
  settle (Resolved data) (clearTimeout (removeListener rq)).

Section RequestData.
Context {K : Constants}.

(** [requestData(msg)] up to the end of the promise executor.  Without
    a socket nothing is registered and nothing is written. *)
Definition requestData (msg : Buffer.t) (this : t) : t * Request :=
  match socket this with
  | None => (this, mkRequest Pending false None [] [] 0)
  | Some _ => (socket_write msg this, mkRequest Pending true None [] [] 0)
  end.

(** The listener [handleOnData] of [requestData]. *)
Definition requestData_handleOnData (data : Buffer.t) (rq : Request) : Res Request :=
  let rq := set_replyBuffer (replyBuffer rq ++ data) rq in
  if Utils.checkNotEventTCP data then Ok rq
  else
    let rq := clearTimeout rq in
    header ← Utils.decodeTCPHeader (Buffer.subarray (replyBuffer rq) 0 16);
    if decide (Utils.tcp_commandId header = CMD_DATA)
    then Ok (setTimeout DeliverReplyBuffer rq)
    else
      let rq := setTimeout (RejectWith "TIMEOUT_ON_RECEIVING_REQUEST_DATA") rq in
      packetLength ← Buffer.readUIntLE data 4 2;
      if decide (packetLength > 8) then Ok (requestData_internalCallback data rq)
      else Ok rq.

(** What happens to a request under way: the callback of [write] is
    called, a chunk arrives, a timer fires. *)
Inductive request_input : Type :=
  | Written (err : option string)
  | Received (data : Buffer.t)
  | TimerFires (id : nat).

Definition request_react (i : request_input) (rq : Request) : Res Request :=
  match i with
  | Written err =>
      let rq :=
        match err with
        | Some code => settle (Rejected (Raised (SocketError code))) rq
        | None => rq
        end in
      Ok (setTimeout (RejectWith "TIMEOUT_IN_RECEIVING_RESPONSE_AFTER_REQUESTING_DATA") rq)
  | Received data => if listening rq then requestData_handleOnData data rq else Ok rq
  | TimerFires id =>
      match list_find (fun timer => fst timer = id) (timers rq) with
      | Some (_, (_, action)) =>
          let rq :=
            mkRequest (outcome rq) (listening rq) (request_timer rq) (replyBuffer rq)
              (filter (fun timer => fst timer <> id) (timers rq)) (nextTimer rq) in
          match action with
          | DeliverReplyBuffer => Ok (requestData_internalCallback (replyBuffer rq) rq)
          | RejectWith message => Ok (settle (Rejected (Raised (Error message))) rq)
          end
      | None => Ok rq
      end
  end.

Fixpoint request_reacts (inputs : list request_input) (rq : Request) : Res Request :=
  match inputs with
  | [] => Ok rq
  | i :: inputs' => rq' ← request_react i rq; request_reacts inputs' rq'
  end.

End RequestData.

(** *** The socket's life, as far as [getSocketStatus] can see it

    The [net.Socket] objects live outside the class.  Each one has its
    [destroyed] flag and the listeners that [createSocket] registered
    with [once], which are bound to the transport object, not to the
    socket that is current when they fire. *)
Record NetSocket : Type := mkSock {
  destroyed : bool;
  onceError : bool;
  onceConnect : bool;
  onceClose : bool
}.

Record World : Type := mkWorld {
  this : t;
  sockets : list NetSocket
}.

Definition start (timeout : Z) : World := mkWorld (new timeout) [].

(** [createSocket]: a fresh socket becomes [this.socket] and gets the
    three listeners. *)
Definition createSocket (w : World) : World :=
  mkWorld (set_socket (Some (length (sockets w))) (this w))
          (sockets w ++ [mkSock false true true true]).

Inductive event : Type := EvError | EvConnect | EvClose.

(** An event on socket [i].  Node destroys a socket before it emits
    ["error"] or ["close"] on it.  A listener that has fired is gone. *)
Definition emit (i : nat) (ev : event) (w : World) : World :=
  match sockets w !! i with
  | None => w
  | Some s =>
      match ev with
      | EvError =>
          let s' := mkSock true false (onceConnect s) (onceClose s) in
          mkWorld (if onceError s then set_socketStatus "Error" (this w) else this w)
                  (<[i := s']> (sockets w))
      | EvConnect =>
          let s' := mkSock (destroyed s) (onceError s) false (onceClose s) in
          mkWorld (if onceConnect s then set_socketStatus "Open" (this w) else this w)
                  (<[i := s']> (sockets w))
      | EvClose =>
          let s' := mkSock true (onceError s) (onceConnect s) false in
          mkWorld (if onceClose s
                   then set_socketStatus "Closed" (set_socket None (this w))
                   else this w)
                  (<[i := s']> (sockets w))
      end
  end.

Definition getSocketStatus (w : World) : string :=
  match socket (this w) with
  | None => "No socket instance"
  | Some i =>
      if default false (destroyed <$> sockets w !! i)
      then "Closed"
      else socketStatus (this w)
  end.

(** What can happen to a transport: its methods are called, the
    sockets emit events, and the facade's [cleanupSockets] drops the
    socket reference. *)
Inductive action : Type :=
  | CallCreateSocket
  | Emit (i : nat) (ev : event)
  | CallExecuteCmd (command : Z) (data : Buffer.t) (net : NetReply)
  | CallSendChunkRequest (start size : Z)
  | CleanupSockets.

Definition perform {K : Constants} (a : action) (w : World) : World :=
  match a with
  | CallCreateSocket => createSocket w
  | Emit i ev => emit i ev w
  | CallExecuteCmd command data net =>
      mkWorld (fst (executeCmd (this w) command data net)) (sockets w)
  | CallSendChunkRequest start size =>
      mkWorld (fst (sendChunkRequest start size (this w))) (sockets w)
  | CleanupSockets => mkWorld (set_socket None (this w)) (sockets w)
  end.

Definition run {K : Constants} (trace : list action) (w : World) : World :=
  foldl (fun w a => perform a w) w trace.

End ZKLibTCP.

(** ** [zklibudp.ts]: the UDP transport (class [ZKLibUDP], which the
    sources carry after the example driver of [test.ts]) *)

Module ZKLibUDP.

(** A [dgram.Socket]: [port] is what [address()] reports once the
    socket is bound; [address()] throws while it is not. *)
Record UdpSocket : Type := mkSock { port : option N }.

Record t : Type := mk {
  timeout : Z;
  sessionId : option Z;
  replyId : Z;
  socket : option UdpSocket;
  wire : list Buffer.t
}.

Definition new (timeout : Z) : t := mk timeout None 0 None [].

Definition set_sessionId (v : option Z) (this : t) : t :=
  mk (timeout this) v (replyId this) (socket this) (wire this).
Definition set_replyId (v : Z) (this : t) : t :=
  mk (timeout this) (sessionId this) v (socket this) (wire this).
Definition set_socket (v : option UdpSocket) (this : t) : t :=
  mk (timeout this) (sessionId this) (replyId this) v (wire this).

(** [this.socket.send(buf, 0, buf.length, this.port, this.ip, ...)]. *)
Definition socket_send (buf : Buffer.t) (this : t) : t :=
  mk (timeout this) (sessionId this) (replyId this) (socket this) (wire this ++ [buf]).

Definition sessionId_number (this : t) : Z := default 0 (sessionId this).

(** The outcome of a bulk read: [{ data, err }]. *)
Inductive bulk_error : Type :=
  | TIMEOUT_WHEN_RECEIVING_PACKET             (* "TIMEOUT WHEN RECEIVING PACKET" *)
  | TIMEOUT_REMAIN (size received : Z)        (* "TIMEOUT!! ... % REMAIN!" *)
  | ERROR_IN_UNHANDLE_CMD (commandId : Z).    (* "ERROR_IN_UNHANDLE_CMD " + name *)

Record BulkResult : Type := mkResult {
  data : Buffer.t;
  err : option bulk_error
}.

(** The variables the closures of [handlePreparedData] share.
    [settled] is the value the promise was resolved with, if it was;
    [timer] tells whether a timer is armed and whether it is the first
    one ([false]) or one armed by [handleOnData] ([true]); [progress]
    lists the calls of the progress callback. *)
Record Reassembly : Type := mkReassembly {
  size : Z;
  totalBuffer : Buffer.t;
  settled : option BulkResult;
  timer : option bool;
  progress : list (Z * Z)
}.

(** [resolve(r)]: only the first call settles a promise. *)
Definition resolve (r : BulkResult) (st : Reassembly) : Reassembly :=
  match settled st with
  | Some _ => st
  | None => mkReassembly (size st) (totalBuffer st) (Some r) (timer st) (progress st)
  end.

Definition set_timer (v : option bool) (st : Reassembly) : Reassembly :=
  mkReassembly (size st) (totalBuffer st) (settled st) v (progress st).

Definition receive (chunk : Buffer.t) (st : Reassembly) : Reassembly :=
  let totalBuffer := totalBuffer st ++ chunk in
  mkReassembly (size st) totalBuffer (settled st) (timer st)
               (progress st ++ [(Z.of_nat (length totalBuffer), size st)]).

Section Methods.
Context {K : Constants}.

(** [writeMessage(msg, connect)]. *)
Definition writeMessage (this : t) (msg : Buffer.t) (connect : bool) (net : NetReply)
  : t * Outcome Buffer.t :=
  match socket this with
  | None => (this, Rejected (Raised (Error "Socket is not initialized")))
  | Some _ =>
      let this := socket_send msg this in
      match net with
      | Data data => (this, Resolved data)
      | WriteFails code => (this, Rejected (Raised (SocketError code)))
      | Silence =>
          if decide (timeout this = 0) then (this, Pending)
          else (this, Rejected (Raised (Error "TIMEOUT_ON_WRITING_MESSAGE")))
      end
  end.

(** [executeCmd(command, data)]. *)
Definition executeCmd (this : t) (command : Z) (data : Buffer.t) (net : NetReply)
  : t * Outcome Buffer.t :=
  let this :=
    if decide (command = CMD_CONNECT)
    then set_replyId 0 (set_sessionId (Some 0) this)
    else set_replyId (replyId this + 1) this in
  match Utils.createUDPHeader command (sessionId_number this) (replyId this) data with
  | Throw e => (this, Rejected (Raised e))
  | Ok buf =>
      let '(this, reply) :=
        writeMessage this buf
          (bool_decide (command = CMD_CONNECT) || bool_decide (command = CMD_EXIT)) net in
      match reply with
      | Resolved reply =>
          if decide (0 < length reply)%nat then
            if decide (command = CMD_CONNECT) then
              match Buffer.readUInt16LE reply 4 with
              | Ok sid => (set_sessionId (Some sid) this, Resolved reply)
              | Throw e => (this, Rejected (Raised e))
              end
            else (this, Resolved reply)
          else (this, Resolved reply)
      | Rejected r => (this, Rejected r)
      | Pending => (this, Pending)
      end
  end.

(** [connect()]: as on the TCP transport, the [else] branch is never
    taken. *)
Definition connect (this : t) (net : NetReply) : t * Outcome bool :=
  let '(this, reply) := executeCmd this CMD_CONNECT [] net in
  match reply with
  | Resolved _ => (this, Resolved true)
  | Rejected r => (this, Rejected r)
  | Pending => (this, Pending)
  end.

(** [sendChunkRequest(start, size)]: without a socket it only logs. *)
Definition sendChunkRequest (start size : Z) : M t unit := fun this =>
  match socket this with
  | None => (this, Ok tt)
  | Some _ =>
      (_ ← modify (fun this => set_replyId (replyId this + 1) this);
       let reqData := Buffer.alloc 8 in
       reqData ← lift (Buffer.writeUInt32LE reqData start 0);
       reqData ← lift (Buffer.writeUInt32LE reqData size 4);
       this ← get_state;
       buf ← lift (Utils.createUDPHeader CMD_DATA_RDY (sessionId_number this)
                     (replyId this) reqData);
       modify (socket_send buf)) this
  end.

(** [handlePreparedData(reply, cb)], up to the end of the promise
    executor: the announced size is read, the first timer is armed
    and the chunk requests are sent.  [Math.floor(size / MAX_CHUNK)]
    is [Z.div]. *)
Definition numberChunks_of (size : Z) : Z := size `div` MAX_CHUNK.
Definition remain_of (size : Z) : Z := size `rem` MAX_CHUNK.


(** The listener [handleOnData] installed by [handlePreparedData]. *)
Definition handleOnData (reply : Buffer.t) (st : Reassembly) : Res Reassembly :=
  isEvent ← Utils.checkNotEventUDP reply;
  if (isEvent : bool) then Ok st
  else
    let st := set_timer (Some true) st in
    header ← Utils.decodeUDPHeader reply;
    if decide (Utils.commandId header = CMD_DATA) then
      Ok (receive (Buffer.subarray_from reply 8) st)
    else if decide (Utils.commandId header = CMD_ACK_OK) then
      if decide (Z.of_nat (length (totalBuffer st)) = size st)
      then Ok (resolve (mkResult (totalBuffer st) None) st)
      else Ok st
    else if decide (Utils.commandId header = CMD_PREPARE_DATA) then
      Ok st
    else
      Ok (resolve (mkResult [] (Some (ERROR_IN_UNHANDLE_CMD (Utils.commandId header)))) st).

(** The armed timer expires. *)
Definition timer_expires (st : Reassembly) : Reassembly :=
  match timer st with
  | None => st
  | Some rearmed =>
      let error :=
        if rearmed
        then TIMEOUT_REMAIN (size st) (Z.of_nat (length (totalBuffer st)))
        else TIMEOUT_WHEN_RECEIVING_PACKET in
      resolve (mkResult (totalBuffer st) (Some error)) (set_timer None st)
  end.

(** What happens to a reassembly in progress. *)
Inductive input : Type :=
  | Message (reply : Buffer.t)
  | TimerExpires.

Definition react (i : input) (st : Reassembly) : Res Reassembly :=
  match i with
  | Message reply => handleOnData reply st
  | TimerExpires => Ok (timer_expires st)
  end.

(** A run stops at the first exception that escapes a listener. *)
Fixpoint reacts (inputs : list input) (st : Reassembly) : Res Reassembly :=
  match inputs with
  | [] => Ok st
  | i :: inputs' => st' ← react i st; reacts inputs' st'
  end.

(** [getUsers] and [getAttendances], from the payload [data.data] of
    the bulk read on.  [isSmallDataMode] is the truth value of
    [data.mode]; [ip] is [this.ip]. *)
Definition getUsers_records (data : Buffer.t) : Res (list Utils.User28.t) :=
  decodeRecords 28 Utils.decodeUserData28 data.

Definition getAttendances_records (isSmallDataMode : bool) (ip : string) (data : Buffer.t)
  : Res (list (Utils.Record16.t * string)) :=
  let RECORD_PACKET_SIZE := if isSmallDataMode then 8%nat else 16%nat in
  decodeRecords RECORD_PACKET_SIZE
    (fun recordData => record ← Utils.decodeRecordData16 recordData; Ok (record, ip))
    data.

(** The listener that [getRealTimeLogs] puts on ["message"]: what it
    hands to the callback [cb], if it calls it. *)
Definition getRealTimeLogs_onData (data : Buffer.t) : Res (option Utils.RealTimeLog18.t) :=
  isEvent ← Utils.checkNotEventUDP data;
  if negb isEvent then Ok None
  else if decide (length data = 18%nat)
       then log ← Utils.decodeRecordRealTimeLog18 data; Ok (Some log)
       else Ok None.

(** [closeSocket()]: [true] at once without a socket; otherwise the
    promise is resolved by the callback of [socket.close] or, at the
    latest, by the timer of two seconds.  [running] tells whether the
    socket has not been closed before: on one that has, [socket.close]
    throws inside the executor, which rejects the promise. *)
Definition closeSocket (running : bool) (this : t) : t * Outcome bool :=
  match socket this with
  | None => (this, Resolved true)
  | Some _ =>
      if running then (this, Resolved true)
      else (this, Rejected (Raised (SocketError "ERR_SOCKET_DGRAM_NOT_RUNNING")))
  end.

(** [disconnect()]: whatever [executeCmd] is rejected with is dropped. *)
Definition disconnect (running : bool) (this : t) (net : NetReply) : t * Outcome bool :=
  let '(this, reply) := executeCmd this CMD_EXIT [] net in
  match reply with
  | Pending => (this, Pending)
  | _ => closeSocket running this
  end.

(** [getInfo()]: three counters of the reply to [CMD_GET_FREE_SIZES],
    read at offsets of the datagram. *)
Definition getInfo (CMD_GET_FREE_SIZES : Z) (this : t) (net : NetReply) : t * Outcome Info :=
  let '(this, reply) := executeCmd this CMD_GET_FREE_SIZES [] net in
  match reply with
  | Resolved data =>
      let info :=
        userCounts ← Buffer.readUIntLE data 24 4;
        logCounts ← Buffer.readUIntLE data 40 4;
        logCapacity ← Buffer.readUIntLE data 72 4;
        Ok (mkInfo userCounts logCounts logCapacity) in
      match info with
      | Ok info => (this, Resolved info)
      | Throw e => (this, Rejected (Raised e))
      end
  | Rejected r => (this, Rejected r)
  | Pending => (this, Pending)
  end.

End Methods.

(** *** [requestData]: waiting for the first reply

    The variables the closures of [requestData] share, and the timers
    that are running.  [sendTimeoutId] is the variable of that name;
    a timer is listed in [timers], with the message of the error it
    rejects with, from [setTimeout] until it fires or is cleared;
    [listening] tells whether [handleOnData] is still registered. *)
Record Request : Type := mkRequest {
  outcome : Outcome Buffer.t;
  listening : bool;
  sendTimeoutId : option nat;
  timers : list (nat * string);
  nextTimer : nat
}.

(** [resolve] and [reject]: only the first call settles the promise. *)
Definition settle (o : Outcome Buffer.t) (rq : Request) : Request :=
  match outcome rq with
  | Pending => mkRequest o (listening rq) (sendTimeoutId rq) (timers rq) (nextTimer rq)
  | _ => rq
  end.

(** [clearTimeout(sendTimeoutId)]. *)
Definition clearTimeout (rq : Request) : Request :=
  mkRequest (outcome rq) (listening rq) (sendTimeoutId rq)
    (filter (fun timer => Some (fst timer) <> sendTimeoutId rq) (timers rq)) (nextTimer rq).

(** [sendTimeoutId = setTimeout(() => { off; reject(new Error(message)) }, ...)]. *)
Definition setTimeout (message : string) (rq : Request) : Request :=
  mkRequest (outcome rq) (listening rq) (Some (nextTimer rq))
    (timers rq ++ [(nextTimer rq, message)]) (S (nextTimer rq)).

(** [this.socket?.off("message", handleOnData)]. *)
Definition off (rq : Request) : Request :=
  mkRequest (outcome rq) false (sendTimeoutId rq) (timers rq) (nextTimer rq).

Definition requestData_internalCallback (data : Buffer.t) (rq : Request) : Request :=
  settle (Resolved data) (off (clearTimeout rq)).

Section RequestData.
Context {K : Constants}.

(** [requestData(msg)] up to the end of the promise executor. *)
Definition requestData (msg : Buffer.t) (this : t) : t * Request :=
  match socket this with
  | None =>
      (this, mkRequest (Rejected (Raised (Error "Socket is not initialized"))) false None [] 0)
  | Some _ => (socket_send msg this, mkRequest Pending true None [] 0)
  end.

(** The listener [handleOnData] of [requestData]. *)
Definition requestData_handleOnData (data : Buffer.t) (rq : Request) : Res Request :=
  isEvent ← Utils.checkNotEventUDP data;
  if (isEvent : bool) then Ok rq
  else
    let rq := clearTimeout rq in
    if decide (13 <= length data)%nat then Ok (requestData_internalCallback data rq)
    else Ok (setTimeout "TIMEOUT_ON_RECEIVING_REQUEST_DATA" rq).

(** What happens to a request under way: the callback of [send] is
    called, a datagram arrives, a timer fires. *)
Inductive request_input : Type :=
  | Sent (err : option string)
  | Datagram (data : Buffer.t)
  | TimerFires (id : nat).

Definition request_react (i : request_input) (rq : Request) : Res Request :=
  match i with
  | Sent (Some code) => Ok (settle (Rejected (Raised (SocketError code))) (off (clearTimeout rq)))
  | Sent None =>
      Ok (setTimeout "TIMEOUT_IN_RECEIVING_RESPONSE_AFTER_REQUESTING_DATA" rq)
  | Datagram data => if listening rq then requestData_handleOnData data rq else Ok rq
  | TimerFires id =>
      match list_find (fun timer => fst timer = id) (timers rq) with
      | Some (_, (_, message)) =>
          let rq :=
            mkRequest (outcome rq) (listening rq) (sendTimeoutId rq)
              (filter (fun timer => fst timer <> id) (timers rq)) (nextTimer rq) in
          Ok (settle (Rejected (Raised (Error message))) (off rq))
      | None => Ok rq
      end
  end.

Fixpoint request_reacts (inputs : list request_input) (rq : Request) : Res Request :=
  match inputs with
  | [] => Ok rq
  | i :: inputs' => rq' ← request_react i rq; request_reacts inputs' rq'
  end.

End RequestData.

Definition getSocketStatus (this : t) : string :=
  match socket this with
  | None => "No socket instance"
  | Some s =>
      match port s with
      | Some p => "Bound to port " +:+ pretty p
      | None => "Unbound"
      end
  end.

End ZKLibUDP.

(** ** [zkerror.ts] and [zklib.ts]: the facade *)

Module ZKLib.

Inductive ERROR_TYPES : Type :=
  ECONNRESET | ECONNREFUSED | EADDRINUSE | ETIMEDOUT | EINVALID.

(** The first argument of [new ZKError(err, command, ip)]: an object
    literal [{ code, message }], or whatever a callback was rejected
    with. *)
Inductive cause : Type :=
  | IError (code : ERROR_TYPES) (message : string)
  | Caught (r : rejection).

Record ZKError : Type := mkZKError {
  err : cause;
  command : string;
  error_ip : string
}.

Inductive ConnectionType : Type := tcp | udp.

Record t : Type := mk {
  zklibTcp : ZKLibTCP.t;
  zklibUdp : ZKLibUDP.t;
  connectionType : option ConnectionType;
  ip : string
}.

(** The state the constructor leaves. *)
Definition new (ip : string) (timeout : Z) : t :=
  mk (ZKLibTCP.new timeout) (ZKLibUDP.new timeout) None ip.

(** How a call of the facade ends. *)
Inductive Result (A : Type) : Type :=
  | Returns (a : A)
  | Throws (e : ZKError)
  | Waits.
Arguments Returns {A} a.
Arguments Throws {A} e.
Arguments Waits {A}.

(** A callback handed to [functionWrapper]: it may do anything to the
    transports. *)
Definition callback (A : Type) : Type := t -> t * Outcome A.

Definition createConnectionError (this : t) (connectionTypeMsg : string) : ZKError :=
  mkZKError (IError ECONNREFUSED "Socket isn't connected !") connectionTypeMsg (ip this).

(** [functionWrapper(tcpCallback, udpCallback?, command?)]; an absent
    [command] is rendered as the text "undefined". *)
Definition functionWrapper {A} (this : t) (tcpCallback : callback A)
    (udpCallback : option (callback A)) (command : option string) : t * Result A :=
  let run (connectionTypeMsg : string) (cb : callback A) : t * Result A :=
    let '(this', r) := cb this in
    match r with
    | Resolved a => (this', Returns a)
    | Rejected e =>
        (this', Throws (mkZKError (Caught e)
                          (connectionTypeMsg +:+ " " +:+ default "undefined" command)
                          (ip this')))
    | Pending => (this', Waits)
    end in
  match connectionType this with
  | Some tcp =>
      let connectionTypeMsg := "[TCP]" in
      match ZKLibTCP.socket (zklibTcp this) with
      | None => (this, Throws (createConnectionError this connectionTypeMsg))
      | Some _ => run connectionTypeMsg tcpCallback
      end
  | Some udp =>
      let connectionTypeMsg := "[UDP]" in
      match ZKLibUDP.socket (zklibUdp this) with
      | None => (this, Throws (createConnectionError this connectionTypeMsg))
      | Some _ =>
          match udpCallback with
          | None =>
              (this, Throws (mkZKError (IError EINVALID "UDP callback not provided")
                               connectionTypeMsg (ip this)))
          | Some cb => run connectionTypeMsg cb
          end
      end
  | None => (this, Throws (createConnectionError this ""))
  end.

(** The public methods that go through [functionWrapper]. *)
Inductive operation : Type :=
  | getUsers | getTime | getSerialNumber | getDeviceVersion | getDeviceName
  | getPlatform | getOS | getWorkCode | getPIN | getFaceOn | getSSR
  | getFirmware | setUser | getAttendanceSize | getAttendances
  | getRealTimeLogs | disconnect | freeData | disableDevice | enableDevice
  | getInfo | getSocketStatus | clearAttendanceLog | executeCmd.

(** Whether the method passes a second callback, for UDP. *)
Definition has_udpCallback (op : operation) : bool :=
  match op with
  | getSerialNumber | getDeviceVersion | getDeviceName | getPlatform | getOS
  | getWorkCode | getPIN | getFaceOn | getSSR | getFirmware | setUser
  | getAttendanceSize => false
  | _ => true
  end.

Section Operations.
(** The transports' methods behind each operation, with the
    arguments of the call already supplied. *)
Context {A : Type}.
Variable tcp_method : operation -> callback A.
Variable udp_method : operation -> callback A.

Definition call (op : operation) (this : t) : t * Result A :=
  functionWrapper this (tcp_method op)
    (if has_udpCallback op then Some (udp_method op) else None) None.

End Operations.

(** *** [createSocket]: TCP first, UDP as the fallback *)

Definition set_zklibTcp (v : ZKLibTCP.t) (this : t) : t :=
  mk v (zklibUdp this) (connectionType this) (ip this).
Definition set_zklibUdp (v : ZKLibUDP.t) (this : t) : t :=
  mk (zklibTcp this) v (connectionType this) (ip this).
Definition set_connectionType (v : option ConnectionType) (this : t) : t :=
  mk (zklibTcp this) (zklibUdp this) v (ip this).

(** [err.code === code], for what a promise was rejected with: the
    errors the sockets hand over carry a code; those made by
    [new Error(...)], and texts, carry none. *)
Definition has_code (code : string) (err : rejection) : bool :=
  match err with
  | Raised (SocketError c) => bool_decide (c = code)
  | _ => false
  end.

Section CreateSocket.
(** The methods of the transports that [createSocket] awaits, each
    with its arguments supplied: what it does to its transport, and
    how its promise is settled. *)
Variable tcp_createSocket : ZKLibTCP.t -> ZKLibTCP.t * Outcome unit.
Variable tcp_connect : ZKLibTCP.t -> ZKLibTCP.t * Outcome bool.
Variable udp_createSocket : ZKLibUDP.t -> ZKLibUDP.t * Outcome unit.
Variable udp_connect : ZKLibUDP.t -> ZKLibUDP.t * Outcome bool.
Variable udp_disconnect : ZKLibUDP.t -> ZKLibUDP.t * Outcome bool.

Definition on_tcp {A} (method : ZKLibTCP.t -> ZKLibTCP.t * Outcome A) (this : t)
  : t * Outcome A :=
  let '(transport, r) := method (zklibTcp this) in (set_zklibTcp transport this, r).

Definition on_udp {A} (method : ZKLibUDP.t -> ZKLibUDP.t * Outcome A) (this : t)
  : t * Outcome A :=
  let '(transport, r) := method (zklibUdp this) in (set_zklibUdp transport this, r).

Definition tryTcpConnection (this : t) : t * Outcome unit :=
  match ZKLibTCP.socket (zklibTcp this) with
  | Some _ => (this, Resolved tt)
  | None =>
      let '(this, r) := on_tcp tcp_createSocket this in
      match r with
      | Resolved _ =>
          let '(this, r) := on_tcp tcp_connect this in
          match r with
          | Resolved _ => (set_connectionType (Some tcp) this, Resolved tt)
          | Rejected err => (this, Rejected err)
          | Pending => (this, Pending)
          end
      | Rejected err => (this, Rejected err)
      | Pending => (this, Pending)
      end
  end.

Definition tryUdpConnection (this : t) : t * Outcome unit :=
  match ZKLibUDP.socket (zklibUdp this) with
  | Some _ => (this, Resolved tt)
  | None =>
      let '(this, r) := on_udp udp_createSocket this in
      match r with
      | Resolved _ =>
          let '(this, r) := on_udp udp_connect this in
          match r with
          | Resolved _ => (set_connectionType (Some udp) this, Resolved tt)
          | Rejected err => (this, Rejected err)
          | Pending => (this, Pending)
          end
      | Rejected err => (this, Rejected err)
      | Pending => (this, Pending)
      end
  end.

(** [cleanupSockets]: the [catch] drops a rejection of [disconnect],
    and with it the two assignments that follow the [await]. *)
Definition cleanupSockets (this : t) : t * Outcome unit :=
  let this := set_connectionType None this in
  let '(this, r) := on_udp udp_disconnect this in
  match r with
  | Resolved _ =>
      let this := set_zklibUdp (ZKLibUDP.set_socket None (zklibUdp this)) this in
      let this := set_zklibTcp (ZKLibTCP.set_socket None (zklibTcp this)) this in
      (this, Resolved tt)
  | Rejected _ => (this, Resolved tt)
  | Pending => (this, Pending)
  end.

Definition createSocket (this : t) : t * Result unit :=
  let '(this, r) := tryTcpConnection this in
  match r with
  | Resolved _ => (this, Returns tt)
  | Pending => (this, Waits)
  | Rejected err =>
      if negb (has_code "ECONNREFUSED" err)
      then (this, Throws (mkZKError (Caught err) "TCP CONNECT" (ip this)))
      else
        let '(this, r) := tryUdpConnection this in
        match r with
        | Resolved _ => (this, Returns tt)
        | Pending => (this, Waits)
        | Rejected err =>
            if negb (has_code "EADDRINUSE" err) then
              let '(this, r) := cleanupSockets this in
              match r with
              | Pending => (this, Waits)
              | _ => (this, Throws (mkZKError (Caught err) "UDP CONNECT" (ip this)))
              end
            else (set_connectionType (Some udp) this, Returns tt)
        end
  end.

End CreateSocket.

End ZKLib.

(** * Notions used to state the properties *)

(** The frame a builder emits, put back the way it was when its checksum
    was computed: checksum field zeroed, reply-id field holding the
    caller's [replyId]. *)
Definition restamp (frame : Buffer.t) (replyId : Z) : Res Buffer.t :=
  zeroed ← Buffer.writeUInt16LE frame 0 2;
  Buffer.writeUInt16LE zeroed replyId 6.

(** The checksum recomputed over an emitted frame with only its checksum
    field zeroed. *)
Definition recompute {K : Constants} (frame : Buffer.t) : Res Z :=
  zeroed ← Buffer.writeUInt16LE frame 0 2;
  Utils.createCheckSum zeroed.

(** The buffer the checksum is computed on. *)
Definition unstamped (command sessionId replyId : Z) (data : Buffer.t) : Buffer.t :=
  command `mod` 256 :: (command `div` 256) `mod` 256 :: 0 :: 0
  :: sessionId `mod` 256 :: (sessionId `div` 256) `mod` 256
  :: replyId `mod` 256 :: (replyId `div` 256) `mod` 256 :: data.

(** The frame that leaves the builder. *)
Definition stamped (command checkSum sessionId replyId : Z) (data : Buffer.t) : Buffer.t :=
  command `mod` 256 :: (command `div` 256) `mod` 256
  :: checkSum `mod` 256 :: (checkSum `div` 256) `mod` 256
  :: sessionId `mod` 256 :: (sessionId `div` 256) `mod` 256
  :: replyId `mod` 256 :: (replyId `div` 256) `mod` 256 :: data.

(** The scheme as the specification words it, with integer division:
    [s = v % 60; v /= 60; m = v % 60; v /= 60; h = v % 24; v /= 24;
     d = (v % 31) + 1; v /= 31; M = v % 12; v /= 12; Y = v + 2000]. *)
Definition packed_scheme (v : Z) : Utils.DateArgs :=
  let s := v `mod` 60 in
  let v := v `div` 60 in
  let m := v `mod` 60 in
  let v := v `div` 60 in
  let h := v `mod` 24 in
  let v := v `div` 24 in
  let d := v `mod` 31 + 1 in
  let v := v `div` 31 in
  let M := v `mod` 12 in
  let v := v `div` 12 in
  let Y := v + 2000 in
  Utils.mkDate Y M d h m s.

(** The little-endian 16-bit word at [offset] of [buf] is [v]. *)
Definition u16_at (buf : list Z) (offset : nat) (v : Z) : Prop :=
  exists lo hi, buf !! offset = Some lo /\ buf !! S offset = Some hi /\ v = lo + 256 * hi.

(** [inner] is [data] without its TCP prefix, or [data] itself when it
    has none (shorter than 8 bytes, or not starting with 50 50 82 7D). *)
Definition stripped (data inner : Buffer.t) : Prop :=
  (exists l0 l1 l2 l3, data = 80 :: 80 :: 130 :: 125 :: l0 :: l1 :: l2 :: l3 :: inner)
  \/ ((forall l0 l1 l2 l3 rest, data <> 80 :: 80 :: 130 :: 125 :: l0 :: l1 :: l2 :: l3 :: rest)
      /\ inner = data).

(** The state in which [executeCmd] builds its frame. *)
Definition tcp_stepped {K : Constants} (this : ZKLibTCP.t) (command : Z) : ZKLibTCP.t :=
  if decide (command = CMD_CONNECT)
  then ZKLibTCP.set_replyId 0 (ZKLibTCP.set_sessionId (Some 0) this)
  else ZKLibTCP.set_replyId (ZKLibTCP.replyId this + 1) this.

Definition udp_stepped {K : Constants} (this : ZKLibUDP.t) (command : Z) : ZKLibUDP.t :=
  if decide (command = CMD_CONNECT)
  then ZKLibUDP.set_replyId 0 (ZKLibUDP.set_sessionId (Some 0) this)
  else ZKLibUDP.set_replyId (ZKLibUDP.replyId this + 1) this.

Definition status_known (w : ZKLibTCP.World) : Prop :=
  ZKLibTCP.socketStatus (ZKLibTCP.this w) = "Closed"
  \/ ZKLibTCP.socketStatus (ZKLibTCP.this w) = "Open"
  \/ ZKLibTCP.socketStatus (ZKLibTCP.this w) = "Error".

(** The requests the specification lists for an announced size [N]:
    full chunks at 0, MAX_CHUNK, 2 MAX_CHUNK, ... and one last request
    for the rest. *)
Definition chunk_schedule {K : Constants} (N : Z) : list (Z * Z) :=
  map (fun i => (i * MAX_CHUNK, MAX_CHUNK)) (seqZ 0 (N `div` MAX_CHUNK))
  ++ [(N `div` MAX_CHUNK * MAX_CHUNK, N `mod` MAX_CHUNK)].

(** Calling [send] on each request of a list, in order, stopping at the
    first call that throws. *)
Fixpoint sendAll {St} (send : Z -> Z -> M St unit) (requests : list (Z * Z)) : M St unit :=
  match requests with
  | [] => mret tt
  | (start, size) :: requests' => _ ← send start size; sendAll send requests'
  end.


(** The body of a DATA_RDY request: [<start:u32LE><size:u32LE>]. *)
Definition request_body (request : Z * Z) : Buffer.t :=
  Buffer.le_bytes 4 (fst request) ++ Buffer.le_bytes 4 (snd request).

(** [frame] is a DATA_RDY frame of the session that carries [request]. *)
Definition tcp_request_frame {K : Constants} (sessionId : Z) (request : Z * Z)
    (frame : Buffer.t) : Prop :=
  exists replyId,
    Utils.createTCPHeader CMD_DATA_RDY sessionId replyId (request_body request) = Ok frame.

Definition udp_request_frame {K : Constants} (sessionId : Z) (request : Z * Z)
    (frame : Buffer.t) : Prop :=
  exists replyId,
    Utils.createUDPHeader CMD_DATA_RDY sessionId replyId (request_body request) = Ok frame.

(** Start and size of a request fit their 32-bit fields. *)
Definition fits_u32 (request : Z * Z) : Prop :=
  0 <= fst request < 4294967296 /\ 0 <= snd request < 4294967296.

(** The promise was resolved without an error. *)
Definition succeeded (st : ZKLibUDP.Reassembly) : Prop :=
  exists r, ZKLibUDP.settled st = Some r /\ ZKLibUDP.err r = None.

Definition is_timeout (e : ZKLibUDP.bulk_error) : Prop :=
  match e with
  | ZKLibUDP.TIMEOUT_WHEN_RECEIVING_PACKET | ZKLibUDP.TIMEOUT_REMAIN _ _ => True
  | ZKLibUDP.ERROR_IN_UNHANDLE_CMD _ => False
  end.

(** What is resolved without an error has the announced length. *)
Definition sound (N : Z) (st : ZKLibUDP.Reassembly) : Prop :=
  ZKLibUDP.size st = N /\
  forall r, ZKLibUDP.settled st = Some r -> ZKLibUDP.err r = None ->
            Z.of_nat (length (ZKLibUDP.data r)) = N.

(** [bs] followed by zeros up to [n] bytes. *)
Definition padded (n : nat) (bs : list Z) : list Z := bs ++ replicate (n - length bs) 0.

(** The first 48 bytes of the 72-byte user record: uid (u16) at 0, role
    (u8) at 2, password at 3, name at 11, card number (u32) at 35, one
    unused byte, and the reserved bytes 40..47. *)
Definition user_record_head (uid role : Z) (password name : string) (cardno : Z) : list Z :=
  Buffer.le_bytes 2 uid ++ [role]
  ++ padded 8 (Js.codes password) ++ padded 24 (Js.codes name)
  ++ Buffer.le_bytes 4 cardno ++ [0] ++ replicate 8 0.

Definition is_ascii (s : string) : Prop := Forall (fun n => n < 128) (Js.codes s).

(** The sum of the little-endian 16-bit words of a buffer; the last
    byte of an odd-length buffer counts alone. *)
Fixpoint word_sum (buf : list Z) : Z :=
  match buf with
  | lo :: hi :: rest => lo + 256 * hi + word_sum rest
  | [lo] => lo
  | [] => 0
  end.

(** A call returns, with some value. *)
Definition returns {A} (r : Res A) : Prop := exists a, r = Ok a.

(** The [i]-th record of [n] bytes behind the four bytes that head the
    payload of a bulk read. *)
Definition record_slice (n : nat) (data : Buffer.t) (i : nat) : Buffer.t :=
  Buffer.subarray data (4 + n * i) (4 + n * (i + 1)).

(** How many whole records of [n] bytes the payload holds. *)
Definition record_count (n : nat) (data : Buffer.t) : nat := (length data - 4) / n.

(** The six time bytes that start at [offset] of [buf], as
    [parseHexToTime] reads them. *)
Definition hex_time_at (buf : Buffer.t) (offset : nat) : Utils.DateArgs :=
  Utils.mkDate (2000 + Buffer.get buf offset) (Buffer.get buf (offset + 1) - 1)
    (Buffer.get buf (offset + 2)) (Buffer.get buf (offset + 3))
    (Buffer.get buf (offset + 4)) (Buffer.get buf (offset + 5)).

(** No character of [s] is NUL. *)
Definition nul_free (s : string) : Prop := Forall (fun n => n <> 0) (Js.codes s).

(** What a TCP bulk read of announced size [N] keeps true: the packets
    still expected are counted down from their number, the data
    gathered is that of the packets completed, and the promise is
    resolved without an error only once no packet is expected. *)
Definition tcp_sound {K : Constants} (N : Z) (st : ZKLibTCP.Reassembly) : Prop :=
  let total := ZKLibTCP.totalPackets_of N in
  ZKLibTCP.size st = N /\ ZKLibTCP.remain st = ZKLibTCP.remain_of N /\
  0 <= ZKLibTCP.totalPackets st <= total /\
  Z.of_nat (length (ZKLibTCP.replyData st))
  = (if decide (ZKLibTCP.totalPackets st = 0)
     then if decide (total = 0) then 0 else (total - 1) * MAX_CHUNK + ZKLibTCP.remain_of N
     else (total - ZKLibTCP.totalPackets st) * MAX_CHUNK) /\
  forall r, ZKLibTCP.settled st = Some r ->
    Z.of_nat (length (ZKLibTCP.data r)) <= N /\
    (ZKLibTCP.err r = None ->
     total <> 0 /\
     Z.of_nat (length (ZKLibTCP.data r)) = (total - 1) * MAX_CHUNK + ZKLibTCP.remain_of N).

(** A frame that carries the last packet of a bulk read: four bytes,
    the length of what follows the first eight, two more bytes, an
    8-byte header, eight bytes that are skipped, and the data. *)
Definition tcp_data_frame (lead : list Z) (tail header skipped body : list Z) : Buffer.t :=
  lead ++ Buffer.le_bytes 2 (Z.of_nat (length body) + 16) ++ tail
  ++ header ++ skipped ++ body.

(** A datagram that [requestData] passes over: an event frame, or a
    frame of fewer than 13 bytes. *)
Definition passed_over {K : Constants} (data : Buffer.t) : Prop :=
  Utils.checkNotEventUDP data = Ok true
  \/ (Utils.checkNotEventUDP data = Ok false /\ (length data < 13)%nat).

(** A datagram that [requestData] takes as the reply. *)
Definition taken_as_reply {K : Constants} (data : Buffer.t) : Prop :=
  Utils.checkNotEventUDP data = Ok false /\ (13 <= length data)%nat.

(** Every timer that is running is the one [sendTimeoutId] names. *)
Definition one_timer (rq : ZKLibUDP.Request) : Prop :=
  Forall (fun timer => Some (fst timer) = ZKLibUDP.sendTimeoutId rq) (ZKLibUDP.timers rq).

(** How [functionWrapper] hands on what a callback did: a rejection is
    wrapped in a [ZKError] whose command is the connection type and the
    text of the absent [command] argument. *)
Definition wrapped {A} (connectionTypeMsg : string) (done : ZKLib.t * Outcome A)
  : ZKLib.t * ZKLib.Result A :=
  match done with
  | (this, Resolved a) => (this, ZKLib.Returns a)
  | (this, Rejected e) =>
      (this, ZKLib.Throws
               (ZKLib.mkZKError (ZKLib.Caught e) (connectionTypeMsg +:+ " undefined")
                  (ZKLib.ip this)))
  | (this, Pending) => (this, ZKLib.Waits)
  end.

(** The operations of the facade that have no UDP counterpart. *)
Definition tcp_only : list ZKLib.operation :=
  [ZKLib.getSerialNumber; ZKLib.getDeviceVersion; ZKLib.getDeviceName; ZKLib.getPlatform;
   ZKLib.getOS; ZKLib.getWorkCode; ZKLib.getPIN; ZKLib.getFaceOn; ZKLib.getSSR;
   ZKLib.getFirmware; ZKLib.setUser; ZKLib.getAttendanceSize].

(** A chunk request read back from the wire: a DATA_RDY frame of the
    session whose body holds the start and the size of the request as
    32-bit little-endian words.  [offset] is where the inner frame
    starts: 8 behind a TCP prefix, 0 in a datagram. *)
Definition request_on_wire {K : Constants} (offset : nat) (sessionId : Z)
    (request : Z * Z) (frame : Buffer.t) : Prop :=
  length frame = (offset + 16)%nat /\
  Buffer.readUInt16LE frame offset = Ok CMD_DATA_RDY /\
  Buffer.readUInt16LE frame (offset + 4) = Ok sessionId /\
  Buffer.readUInt32LE frame (offset + 8) = Ok (fst request) /\
  Buffer.readUInt32LE frame (offset + 12) = Ok (snd request).

(** The chunks among the inputs of a TCP request, in the order of
    their arrival. *)
Definition received (inputs : list ZKLibTCP.request_input) : list Buffer.t :=
  omap (fun i => match i with ZKLibTCP.Received data => Some data | _ => None end) inputs.

(** The first 16 bytes of [buf] read as a header of command CMD_DATA. *)
Definition heads_data {K : Constants} (buf : Buffer.t) : Prop :=
  exists h, Utils.decodeTCPHeader (Buffer.subarray buf 0 16) = Ok h /\
            Utils.tcp_commandId h = CMD_DATA.

(** A chunk that [requestData] of the TCP transport can take for the
    whole reply: not an event frame, and with a length field above 8. *)
Definition whole_reply {K : Constants} (data : Buffer.t) : Prop :=
  Utils.checkNotEventTCP data = false /\
  exists n, Buffer.readUIntLE data 4 2 = Ok n /\ 8 < n.

(** What a TCP request can be resolved with after [seen]: one chunk
    taken for the whole reply, or everything received up to some point,
    headed by a DATA header. *)
Definition tcp_reply_of {K : Constants} (seen : list ZKLibTCP.request_input)
    (d : Buffer.t) : Prop :=
  (ZKLibTCP.Received d ∈ seen /\ whole_reply d)
  \/ (exists got rest, received seen = got ++ rest /\ d = concat got /\ heads_data d).

(** What a TCP request keeps true. *)
Definition tcp_request_sound {K : Constants} (seen : list ZKLibTCP.request_input)
    (rq : ZKLibTCP.Request) : Prop :=
  (exists got rest,
     received seen = got ++ rest /\ ZKLibTCP.replyBuffer rq = concat got /\
     (ZKLibTCP.listening rq = true -> rest = [])) /\
  (forall id, (id, ZKLibTCP.DeliverReplyBuffer) ∈ ZKLibTCP.timers rq ->
              heads_data (ZKLibTCP.replyBuffer rq)) /\
  (forall d, ZKLibTCP.outcome rq = Resolved d -> tcp_reply_of seen d).

(** A request that has met a DATA header and waits for its quiet
    second: [buf] is what it has gathered. *)
Definition gathering {K : Constants} (rq : ZKLibTCP.Request) (buf : Buffer.t) : Prop :=
  ZKLibTCP.outcome rq = Pending /\ ZKLibTCP.listening rq = true /\
  ZKLibTCP.replyBuffer rq = buf /\ heads_data buf /\
  exists id, ZKLibTCP.request_timer rq = Some id /\
             ZKLibTCP.timers rq = [(id, ZKLibTCP.DeliverReplyBuffer)].

(** * Properties *)

(** ** Buffers *)

Section BufferFacts.
Import Buffer.

Lemma length_le_bytes n v : length (le_bytes n v) = n.
Proof. revert v; induction n as [|n IH]; intros v; simpl; [done | by rewrite IH]. Qed.

Lemma le_value_le_bytes n v :
  0 <= v < 2 ^ (8 * Z.of_nat n) -> le_value (le_bytes n v) = v.
Proof.
  revert v; induction n as [|n IH]; intros v Hv.
  - simpl in *. lia.
  - cbn [le_bytes le_value]. rewrite IH.
    + pose proof (Z.div_mod v 256); lia.
    + replace (8 * Z.of_nat (S n)) with (8 + 8 * Z.of_nat n) in Hv by lia.
      rewrite Z.pow_add_r in Hv by lia. change (2 ^ 8) with 256 in Hv.
      split; [apply Z.div_pos; lia | apply Z.div_lt_upper_bound; lia].
Qed.

Lemma le_bytes_are_bytes n v : Forall is_byte (le_bytes n v).
Proof.
  revert v; induction n as [|n IH]; intros v; simpl; constructor; [|apply IH].
  unfold is_byte. apply Z.mod_pos_bound. lia.
Qed.

Lemma le_value_nonneg bs : Forall is_byte bs -> 0 <= le_value bs.
Proof. induction 1 as [|b bs Hb _ IH]; simpl; [lia | unfold is_byte in Hb; lia]. Qed.

Lemma length_copy bytes buf offset : length (copy bytes buf offset) = length buf.
Proof.
  unfold copy. rewrite !length_app, length_take, length_drop, length_take. lia.
Qed.

(** Overwriting the run [old] that follows [pre]. *)
Lemma copy_app pre old rest bytes :
  length bytes = length old ->
  copy bytes (pre ++ old ++ rest) (length pre) = pre ++ bytes ++ rest.
Proof.
  intros Hlen. unfold copy.
  rewrite take_app_length.
  replace (take (length (pre ++ old ++ rest) - length pre) bytes) with bytes.
  2:{ rewrite take_ge; [done | rewrite !length_app; lia]. }
  rewrite drop_app_add. rewrite Hlen, drop_app_length. done.
Qed.

Lemma readUIntLE_app pre bs rest :
  readUIntLE (pre ++ bs ++ rest) (length pre) (length bs) = Ok (le_value bs).
Proof.
  unfold readUIntLE. rewrite decide_True by (rewrite !length_app; lia).
  by rewrite drop_app_length, take_app_length.
Qed.

Lemma writeUIntLE_app n pre old rest v :
  0 <= v < 2 ^ (8 * Z.of_nat n) -> length old = n ->
  writeUIntLE n (pre ++ old ++ rest) v (length pre) = Ok (pre ++ le_bytes n v ++ rest).
Proof.
  intros Hv Hold. unfold writeUIntLE.
  rewrite decide_True by done.
  rewrite decide_True by (rewrite !length_app; lia).
  by rewrite copy_app by (by rewrite length_le_bytes).
Qed.

(** Any buffer splits around a run that lies inside it. *)
Lemma split_run (buf : t) (offset n : nat) :
  (offset + n <= length buf)%nat ->
  exists pre old rest,
    buf = pre ++ old ++ rest /\ length pre = offset /\ length old = n.
Proof.
  intros Hin. exists (take offset buf), (take n (drop offset buf)), (drop (offset + n) buf).
  split; [|split].
  - rewrite <- drop_drop. by rewrite !take_drop.
  - rewrite length_take. lia.
  - rewrite length_take, length_drop. lia.
Qed.

Lemma writeUIntLE_Ok n buf v offset buf' :
  writeUIntLE n buf v offset = Ok buf' ->
  0 <= v < 2 ^ (8 * Z.of_nat n) /\ (offset + n <= length buf)%nat /\
  buf' = copy (le_bytes n v) buf offset.
Proof.
  unfold writeUIntLE. repeat case_decide; intros Heq; inversion Heq; auto.
Qed.

(** What was written is read back. *)
Lemma read_after_write n buf v offset buf' :
  writeUIntLE n buf v offset = Ok buf' -> readUIntLE buf' offset n = Ok v.
Proof.
  intros H. apply writeUIntLE_Ok in H as (Hv & Hin & ->).
  destruct (split_run buf offset n Hin) as (pre & old & rest & -> & Hpre & Hold).
  subst offset. rewrite copy_app by (by rewrite length_le_bytes).
  rewrite <- (length_le_bytes n v) at 2.
  rewrite readUIntLE_app. by rewrite le_value_le_bytes.
Qed.

Lemma length_writeUIntLE n buf v offset buf' :
  writeUIntLE n buf v offset = Ok buf' -> length buf' = length buf.
Proof.
  intros H. apply writeUIntLE_Ok in H as (_ & _ & ->). apply length_copy.
Qed.

(** Reading behind a prefix. *)
Lemma readUIntLE_behind pre buf offset n :
  readUIntLE (pre ++ buf) (length pre + offset) n = readUIntLE buf offset n.
Proof.
  unfold readUIntLE. rewrite length_app, drop_app_add.
  repeat case_decide; try done; lia.
Qed.

Lemma copy_bytes bytes buf offset :
  Forall is_byte bytes -> Forall is_byte buf -> Forall is_byte (copy bytes buf offset).
Proof.
  intros Hb Hbuf. unfold copy.
  repeat apply Forall_app_2; auto using Forall_take, Forall_drop.
Qed.

Lemma writeUIntLE_bytes n buf v offset buf' :
  Forall is_byte buf -> writeUIntLE n buf v offset = Ok buf' -> Forall is_byte buf'.
Proof.
  intros Hbuf (_ & _ & ->)%writeUIntLE_Ok.
  apply copy_bytes; [apply le_bytes_are_bytes | done].
Qed.

(** Writing into a run of zeros that follows [pre]. *)
Lemma copy_into_zeros pre bytes n offset :
  offset = length pre -> (length bytes <= n)%nat ->
  copy bytes (pre ++ replicate n 0) offset
  = pre ++ bytes ++ replicate (n - length bytes) 0.
Proof.
  intros -> Hlen.
  replace n with (length bytes + (n - length bytes))%nat at 1 by lia.
  rewrite replicate_add. apply copy_app. by rewrite length_replicate.
Qed.

Lemma writeUIntLE_into_zeros w pre v n offset :
  offset = length pre -> (w <= n)%nat -> 0 <= v < 2 ^ (8 * Z.of_nat w) ->
  writeUIntLE w (pre ++ replicate n 0) v offset
  = Ok (pre ++ le_bytes w v ++ replicate (n - w) 0).
Proof.
  intros -> Hw Hv.
  replace n with (w + (n - w))%nat at 1 by lia.
  rewrite replicate_add. apply writeUIntLE_app; [done | by rewrite length_replicate].
Qed.

End BufferFacts.

(** ** The codec *)

Section CodecFacts.
Context {K : Constants}.
Import Buffer Utils.

Lemma get_is_byte buf i : Forall is_byte buf -> 0 <= get buf i.
Proof.
  intros Hb. unfold get.
  destruct (decide (i < length buf)%nat) as [Hi|Hi].
  - destruct (lookup_lt_is_Some_2 buf i Hi) as [b Hb'].
    rewrite (nth_lookup_Some _ _ _ _ Hb').
    rewrite Forall_lookup in Hb. destruct (Hb _ _ Hb'). lia.
  - rewrite nth_overflow by lia. lia.
Qed.

(** The loop ends with a sum below [USHRT_MAX]. *)
Lemma createCheckSum_loop_Ok fuel buf i acc :
  0 < USHRT_MAX -> Forall is_byte buf -> 0 <= acc < USHRT_MAX ->
  exists s, createCheckSum_loop fuel buf i acc = Ok s /\ 0 <= s < USHRT_MAX.
Proof.
  intros HU Hb. revert i acc.
  induction fuel as [|fuel IH]; intros i acc Hacc; cbn [createCheckSum_loop].
  - eauto.
  - case_decide as Hi; [|eauto].
    case_decide as Hlast.
    + cbn. apply IH. apply Z.rem_bound_pos; [|lia].
      pose proof (get_is_byte buf i Hb). lia.
    + unfold readUInt16LE, readUIntLE. rewrite decide_True by lia.
      cbn. apply IH. apply Z.rem_bound_pos; [|lia].
      assert (0 <= le_value (take 2 (drop i buf))); [|lia].
      apply le_value_nonneg. by apply Forall_take, Forall_drop.
Qed.

(** More fuel than the loop needs changes nothing: [length buf]
    iterations are never used up. *)
Lemma createCheckSum_loop_fuel fuel fuel' buf i acc :
  (length buf <= i + 2 * fuel)%nat -> (fuel <= fuel')%nat ->
  createCheckSum_loop fuel' buf i acc = createCheckSum_loop fuel buf i acc.
Proof.
  revert fuel' i acc.
  induction fuel as [|fuel IH]; intros fuel' i acc Hlen Hle.
  - destruct fuel'; cbn [createCheckSum_loop]; [done|].
    rewrite decide_False by lia. done.
  - destruct fuel' as [|fuel']; [lia|]. cbn [createCheckSum_loop].
    case_decide; [|done].
    destruct (if decide (i = (length buf - 1)%nat) then _ else _) as [word|e]; cbn; [|done].
    apply IH; lia.
Qed.

Lemma createCheckSum_fuel_enough fuel buf :
  (length buf <= fuel)%nat ->
  createCheckSum_loop fuel buf 0 0 = createCheckSum_loop (length buf) buf 0 0.
Proof. intros Hfuel. apply createCheckSum_loop_fuel; lia. Qed.

Lemma createCheckSum_Ok buf :
  0 < USHRT_MAX -> Forall is_byte buf ->
  exists c, createCheckSum buf = Ok c /\ 0 <= c < USHRT_MAX.
Proof.
  intros HU Hb. unfold createCheckSum.
  destruct (createCheckSum_loop_Ok (length buf) buf 0 0 HU Hb) as (s & -> & Hs); [lia|].
  cbn. eexists; split; [done | lia].
Qed.

(** A 16-bit write in the middle of a buffer given cell by cell. *)
Lemma write16_cells pre a b rest v :
  0 <= v < 65536 ->
  writeUInt16LE (pre ++ a :: b :: rest) v (length pre)
  = Ok (pre ++ v `mod` 256 :: (v `div` 256) `mod` 256 :: rest).
Proof.
  intros Hv. apply (writeUIntLE_app 2 pre [a; b] rest v); [|done].
  change (2 ^ (8 * Z.of_nat 2)) with 65536. lia.
Qed.

Lemma read16_cells pre a b rest :
  readUInt16LE (pre ++ a :: b :: rest) (length pre) = Ok (a + 256 * (b + 256 * 0)).
Proof. apply (readUIntLE_app pre [a; b] rest). Qed.

Lemma copy_tail pre old bytes :
  length bytes = length old -> copy bytes (pre ++ old) (length pre) = pre ++ bytes.
Proof.
  intros Hlen. pose proof (copy_app pre old [] bytes Hlen) as E.
  by rewrite !app_nil_r in E.
Qed.

Lemma split16 v : 0 <= v < 65536 -> v `mod` 256 + 256 * ((v `div` 256) `mod` 256 + 256 * 0) = v.
Proof.
  intros Hv. rewrite (Z.mod_small (v `div` 256)).
  - pose proof (Z.div_mod v 256). lia.
  - split; [apply Z.div_pos; lia | apply Z.div_lt_upper_bound; lia].
Qed.

Lemma cell_is_byte v : is_byte (v `mod` 256).
Proof. unfold is_byte. apply Z.mod_pos_bound. lia. Qed.

Ltac cells n l :=
  lazymatch n with
  | O => constr:(@nil Z)
  | S ?n' => lazymatch l with ?x :: ?l' => let r := cells n' l' in constr:(x :: r) end
  end.

Ltac write16 :=
  lazymatch goal with
  | |- context [writeUInt16LE ?b ?v ?o] =>
      let pre := cells o b in
      let E := fresh "E" in
      eassert (writeUInt16LE b v o = Ok _) as E
        by (apply (write16_cells pre); lia);
      rewrite E; clear E; cbn [mbind Res_bind app]
  end.

Lemma unstamped_bytes command sessionId replyId data :
  Forall is_byte data -> Forall is_byte (unstamped command sessionId replyId data).
Proof.
  intros Hd. unfold unstamped.
  repeat (constructor; [first [apply cell_is_byte | unfold is_byte; lia]|]). done.
Qed.

Lemma createUDPHeader_Ok command sessionId replyId data :
  0 < USHRT_MAX <= 65536 ->
  0 <= command < 65536 -> 0 <= sessionId < 65536 -> 0 <= replyId < 65536 ->
  Forall is_byte data ->
  exists c,
    createCheckSum (unstamped command sessionId replyId data) = Ok c /\
    0 <= c < USHRT_MAX /\
    createUDPHeader command sessionId replyId data
    = Ok (stamped command c sessionId ((replyId + 1) `rem` USHRT_MAX) data).
Proof.
  intros HU Hc Hs Hr Hd.
  destruct (createCheckSum_Ok (unstamped command sessionId replyId data))
    as (c & Ec & Hcs); [lia | by apply unstamped_bytes |].
  exists c. split; [done|]. split; [done|].
  assert (0 <= (replyId + 1) `rem` USHRT_MAX < 65536) as Hr'.
  { pose proof (Z.rem_bound_pos (replyId + 1) USHRT_MAX). lia. }
  unfold createUDPHeader.
  cbn [alloc replicate Nat.add].
  do 4 write16.
  lazymatch goal with
  | |- context [copy data ?b 8] =>
      let pre := cells 8%nat b in
      assert (copy data b 8 = pre ++ data) as E
        by (apply (copy_tail pre (replicate (length data) 0) data);
            by rewrite length_replicate)
  end.
  rewrite E; clear E; cbn [app].
  change (0 `mod` 256) with 0. change ((0 `div` 256) `mod` 256) with 0.
  fold (unstamped command sessionId replyId data). rewrite Ec. cbn [mbind Res_bind].
  unfold unstamped. write16.
  lazymatch goal with
  | |- writeUInt16LE ?b ?v ?o = _ =>
      let pre := cells o b in
      etrans; [apply (write16_cells pre); lia|]
  end.
  done.
Qed.

(** [createTCPHeader] builds the same inner frame and puts the prefix
    with its length in front. *)
Lemma createTCPHeader_inner command sessionId replyId data :
  createTCPHeader command sessionId replyId data
  = (buf ← createUDPHeader command sessionId replyId data;
     prefixBuf ← writeUInt16LE tcp_prefix (Z.of_nat (length buf)) 4;
     Ok (prefixBuf ++ buf)).
Proof.
  unfold createTCPHeader, createUDPHeader.
  repeat lazymatch goal with
  | |- context [mbind _ ?m] => destruct m; cbn [mbind Res_bind]; try done
  end.
Qed.

Lemma length_stamped command c sessionId replyId data :
  length (stamped command c sessionId replyId data) = (8 + length data)%nat.
Proof. done. Qed.

Lemma createTCPHeader_Ok command sessionId replyId data frame :
  createUDPHeader command sessionId replyId data = Ok frame ->
  Z.of_nat (length frame) <= 65535 ->
  createTCPHeader command sessionId replyId data
  = Ok ([80; 80; 130; 125] ++ le_bytes 2 (Z.of_nat (length frame)) ++ [0; 0] ++ frame).
Proof.
  intros E Hlen. rewrite createTCPHeader_inner, E. cbn [mbind Res_bind].
  unfold tcp_prefix.
  rewrite (write16_cells [80; 80; 130; 125] 19 0 [0; 0]) by lia.
  done.
Qed.

(** C1 (as amended).  The checksum stored in bytes 2-3 of the frame
    emitted by [createUDPHeader], and of the inner frame emitted by
    [createTCPHeader], is the checksum of that frame with its checksum
    field zeroed and its reply-id field holding the [replyId] passed
    in; the emitted frame itself carries [(replyId + 1) % USHRT_MAX] in
    bytes 6-7, stamped after the checksum was computed. *)
Theorem header_checksum_is_of_unstamped_frame command sessionId replyId data :
  0 < USHRT_MAX <= 65536 ->
  0 <= command < 65536 -> 0 <= sessionId < 65536 -> 0 <= replyId < 65536 ->
  Forall is_byte data ->
  exists frame stored,
    createUDPHeader command sessionId replyId data = Ok frame /\
    readUInt16LE frame 2 = Ok stored /\
    readUInt16LE frame 6 = Ok ((replyId + 1) `rem` USHRT_MAX) /\
    (before ← restamp frame replyId; createCheckSum before) = Ok stored /\
    (Z.of_nat (length frame) <= 65535 ->
     createTCPHeader command sessionId replyId data
     = Ok ([80; 80; 130; 125] ++ le_bytes 2 (Z.of_nat (length frame)) ++ [0; 0] ++ frame)).
Proof.
  intros HU Hc Hs Hr Hd.
  destruct (createUDPHeader_Ok command sessionId replyId data) as (c & Ec & Hcs & E);
    try done.
  assert (0 <= (replyId + 1) `rem` USHRT_MAX < 65536) as Hr'.
  { pose proof (Z.rem_bound_pos (replyId + 1) USHRT_MAX). lia. }
  exists (stamped command c sessionId ((replyId + 1) `rem` USHRT_MAX) data), c.
  split; [done|]. unfold stamped. repeat split.
  - lazymatch goal with
    | |- readUInt16LE ?b ?o = _ =>
        let pre := cells o b in etrans; [apply (read16_cells pre)|]
    end.
    by rewrite split16 by lia.
  - lazymatch goal with
    | |- readUInt16LE ?b ?o = _ =>
        let pre := cells o b in etrans; [apply (read16_cells pre)|]
    end.
    by rewrite split16 by lia.
  - unfold restamp. do 2 write16.
    change (0 `mod` 256) with 0. change ((0 `div` 256) `mod` 256) with 0.
    exact Ec.
  - intros Hlen. by apply createTCPHeader_Ok.
Qed.

End CodecFacts.

(** C1, an instance: a frame for command 1000 with a three-byte body. *)
Lemma header_checksum_is_of_unstamped_frame_witness :
  exists frame stored,
    Utils.createUDPHeader (K := zk_constants) 1000 0 0 [7; 8; 9] = Ok frame /\
    Buffer.readUInt16LE frame 2 = Ok stored /\
    Buffer.readUInt16LE frame 6 = Ok ((0 + 1) `rem` 65535) /\
    (before ← restamp frame 0; Utils.createCheckSum (K := zk_constants) before) = Ok stored /\
    (Z.of_nat (length frame) <= 65535 ->
     Utils.createTCPHeader (K := zk_constants) 1000 0 0 [7; 8; 9]
     = Ok ([80; 80; 130; 125] ++ Buffer.le_bytes 2 (Z.of_nat (length frame)) ++ [0; 0] ++ frame)).
Proof.
  apply (header_checksum_is_of_unstamped_frame (K := zk_constants) 1000 0 0 [7; 8; 9]);
    cbn; try lia.
  repeat constructor; lia.
Defined.

(** C1, counterexample: the CONNECT frame built for session 0 and reply
    id 0 stores the checksum 64534, but the checksum recomputed over the
    emitted frame with its checksum field zeroed is 64533: the reply-id
    field was re-stamped from 0 to 1 after the checksum was taken. *)
Lemma header_checksum_recomputed_differs :
  let frame := [232; 3; 22; 252; 0; 0; 1; 0] in
  Utils.createUDPHeader (K := zk_constants) 1000 0 0 [] = Ok frame /\
  Utils.createTCPHeader (K := zk_constants) 1000 0 0 []
  = Ok ([80; 80; 130; 125; 8; 0; 0; 0] ++ frame) /\
  Buffer.readUInt16LE frame 2 = Ok 64534 /\
  recompute (K := zk_constants) frame = Ok 64533 /\
  recompute (K := zk_constants) frame <> Buffer.readUInt16LE frame 2.
Proof. vm_compute. repeat split; congruence. Qed.

(** ** The packed timestamp *)

Lemma exact_div (v n : Z) : 0 < n -> 0 <= v -> (v - v `rem` n) `div` n = v `div` n /\ v `rem` n = v `mod` n.
Proof.
  intros Hn Hv. rewrite Z.rem_mod_nonneg by lia. split; [|done].
  rewrite (Z.div_mod v n) at 1 by lia.
  replace (n * v `div` n + v `mod` n - v `mod` n) with (v `div` n * n) by lia.
  apply Z.div_mul. lia.
Qed.


(** C5 (as amended).  The compact decoder applied to 347241615 follows
    the division/modulo scheme and yields year 2010, month 9 (October),
    day 21, hour 0, minute 0, second 15. *)
Theorem parseTimeToDate_347241615 :
  Utils.parseTimeToDate 347241615 = packed_scheme 347241615 /\
  Utils.parseTimeToDate 347241615 = Utils.mkDate 2010 9 21 0 0 15.
Proof. split; reflexivity. Qed.

(** C5, counterexample: the decoder does not yield 2011, January 18,
    14:15:15 on 347241615; that date is what 355068915 decodes to. *)
Lemma parseTimeToDate_347241615_is_not_2011 :
  Utils.parseTimeToDate 347241615 <> Utils.mkDate 2011 0 18 14 15 15 /\
  Utils.parseTimeToDate 355068915 = Utils.mkDate 2011 0 18 14 15 15.
Proof. split; [discriminate | reflexivity]. Qed.

(** ** The event discriminators *)

Section EventFacts.
Context {K : Constants}.
Import Buffer Utils.

Lemma readUInt16_u16_at buf offset v :
  readUIntLE buf offset 2 = Ok v <-> u16_at buf offset v.
Proof.
  unfold readUIntLE, u16_at. split.
  - case_decide as Hin; [|done]. intros [= <-].
    destruct (split_run buf offset 2 Hin) as (pre & old & rest & -> & Hpre & Hold).
    destruct old as [|lo [|hi [|]]]; try done. subst offset.
    exists lo, hi. rewrite drop_app_length. cbn [take app le_value].
    rewrite lookup_app_r by lia. rewrite lookup_app_r by lia.
    replace (length pre - length pre)%nat with 0%nat by lia.
    replace (S (length pre) - length pre)%nat with 1%nat by lia.
    rewrite take_0. cbn. repeat split; lia.
  - intros (lo & hi & Hlo & Hhi & ->).
    pose proof (lookup_lt_Some _ _ _ Hhi) as Hlt.
    rewrite decide_True by lia. f_equal.
    destruct (split_run buf offset 2) as (pre & old & rest & -> & Hpre & Hold); [lia|].
    destruct old as [|lo' [|hi' [|]]]; try done. subst offset.
    rewrite drop_app_length. cbn [take app le_value].
    rewrite lookup_app_r in Hlo by lia. rewrite lookup_app_r in Hhi by lia.
    replace (length pre - length pre)%nat with 0%nat in Hlo by lia.
    replace (S (length pre) - length pre)%nat with 1%nat in Hhi by lia.
    cbn in Hlo, Hhi. injection Hlo as ->. injection Hhi as ->.
    rewrite take_0. cbn. lia.
Qed.

Lemma removeTcpHeader_stripped data : stripped data (removeTcpHeader data).
Proof.
  unfold removeTcpHeader, stripped, TCP_HEADER_SIGNATURE, subarray_from.
  case_decide as Hlen.
  - right. split; [|done]. intros l0 l1 l2 l3 rest ->. cbn in Hlen. lia.
  - case_decide as Hsig.
    + left. destruct data as [|a [|b [|c [|d [|l0 [|l1 [|l2 [|l3 inner]]]]]]]];
        cbn in Hlen; try lia.
      cbn in Hsig. injection Hsig as -> -> -> ->. by exists l0, l1, l2, l3.
    + right. split; [|done]. intros l0 l1 l2 l3 rest ->. by apply Hsig.
Qed.

Lemma stripped_unique data inner inner' :
  stripped data inner -> stripped data inner' -> inner = inner'.
Proof.
  intros [(l0 & l1 & l2 & l3 & ->)|[Hno ->]] [(m0 & m1 & m2 & m3 & E)|[Hno' ->]].
  - by injection E.
  - by destruct (Hno' l0 l1 l2 l3 inner).
  - by destruct (Hno m0 m1 m2 m3 inner').
  - done.
Qed.

(** C7.  [checkNotEventTCP] answers [true] exactly when the buffer,
    with its TCP prefix stripped if it has one, holds [CMD_REG_EVENT]
    as the 16-bit word at offset 0 and [EF_ATTLOG] as the one at
    offset 4; [checkNotEventUDP] answers [true] exactly when the
    datagram has an 8-byte header whose command id is
    [CMD_REG_EVENT]. *)
Theorem event_discriminators (data : Buffer.t) :
  (checkNotEventTCP data = true <->
   exists inner, stripped data inner /\
     u16_at inner 0 CMD_REG_EVENT /\ u16_at inner 4 EF_ATTLOG) /\
  (checkNotEventUDP data = Ok true <->
   (8 <= length data)%nat /\ u16_at data 0 CMD_REG_EVENT).
Proof.
  split.
  - unfold checkNotEventTCP.
    pose proof (removeTcpHeader_stripped data) as Hs.
    pose proof (readUInt16_u16_at (removeTcpHeader data) 0) as H0.
    pose proof (readUInt16_u16_at (removeTcpHeader data) 4) as H4.
    split.
    + destruct (readUIntLE (removeTcpHeader data) 0 2) as [c|]; cbn; [|done].
      destruct (readUIntLE (removeTcpHeader data) 4 2) as [e|]; cbn; [|done].
      intros [He Hc]%andb_prop.
      apply bool_decide_eq_true in He, Hc. subst.
      exists (removeTcpHeader data). split; [done|].
      split; [by apply H0 | by apply H4].
    + intros (inner & Hin & Hc & He).
      rewrite (stripped_unique _ _ _ Hin Hs) in Hc, He.
      apply H0 in Hc. apply H4 in He. rewrite Hc, He. cbn.
      by rewrite !bool_decide_eq_true_2.
  - unfold checkNotEventUDP, decodeUDPHeader, subarray.
    rewrite drop_0. replace (8 - 0)%nat with 8%nat by done.
    destruct (decide (8 <= length data)%nat) as [Hlen|Hlen].
    + destruct data as [|b0 [|b1 [|b2 [|b3 [|b4 [|b5 [|b6 [|b7 rest]]]]]]]];
        cbn in Hlen; try lia.
      cbn [take]. unfold readUIntLE.
      rewrite !decide_True by (cbn [length]; lia). cbn. split.
      * intros [= Hc%bool_decide_eq_true]. split; [lia|].
        exists b0, b1. repeat split; lia.
      * intros (_ & lo & hi & [= <-] & [= <-] & Hc).
        rewrite bool_decide_eq_true_2; [done | lia].
    + split; [|intros [? _]; lia].
      unfold readUIntLE. rewrite length_take.
      repeat (case_decide; try lia); cbn; done.
Qed.

End EventFacts.

(** ** The reply id *)

Section ReplyIdFacts.
Context {K : Constants}.
Import Buffer Utils.

(** The reply-id field of a built frame holds the incremented copy. *)
Lemma createUDPHeader_replyId_field command sessionId replyId data frame :
  createUDPHeader command sessionId replyId data = Ok frame ->
  readUInt16LE frame 6 = Ok ((replyId + 1) `rem` USHRT_MAX).
Proof.
  unfold createUDPHeader.
  repeat lazymatch goal with
  | |- context [mbind _ ?m] => destruct m; cbn [mbind Res_bind]; try done
  end.
  apply read_after_write.
Qed.

Lemma createTCPHeader_replyId_field command sessionId replyId data frame :
  createTCPHeader command sessionId replyId data = Ok frame ->
  readUInt16LE frame 14 = Ok ((replyId + 1) `rem` USHRT_MAX).
Proof.
  rewrite createTCPHeader_inner.
  destruct (createUDPHeader command sessionId replyId data) as [buf|] eqn:E;
    cbn [mbind Res_bind]; [|done].
  destruct (writeUInt16LE tcp_prefix (Z.of_nat (length buf)) 4) as [prefixBuf|] eqn:Ep;
    cbn [mbind Res_bind]; [|done].
  intros [= <-]. apply length_writeUIntLE in Ep.
  change 14%nat with (8 + 6)%nat. change 8%nat with (length tcp_prefix). rewrite <- Ep.
  unfold readUInt16LE. rewrite readUIntLE_behind.
  by apply createUDPHeader_replyId_field in E.
Qed.

Lemma tcp_executeCmd_replyId this command data net :
  ZKLibTCP.replyId (fst (ZKLibTCP.executeCmd this command data net))
  = if decide (command = CMD_CONNECT) then 0 else ZKLibTCP.replyId this + 1.
Proof.
  unfold ZKLibTCP.executeCmd, ZKLibTCP.writeMessage, ZKLibTCP.socket_write.
  repeat (first [case_decide | case_match]; simplify_eq; cbn in *; try done).
Qed.

Lemma udp_executeCmd_replyId this command data net :
  ZKLibUDP.replyId (fst (ZKLibUDP.executeCmd this command data net))
  = if decide (command = CMD_CONNECT) then 0 else ZKLibUDP.replyId this + 1.
Proof.
  unfold ZKLibUDP.executeCmd, ZKLibUDP.writeMessage, ZKLibUDP.socket_send.
  repeat (first [case_decide | case_match]; simplify_eq; cbn in *; try done).
Qed.

(** What [executeCmd] hands to the socket. *)
Lemma tcp_executeCmd_wire this command data net :
  ZKLibTCP.wire (fst (ZKLibTCP.executeCmd this command data net))
  = ZKLibTCP.wire this ++
    match createTCPHeader command (ZKLibTCP.sessionId_number (tcp_stepped this command))
            (ZKLibTCP.replyId (tcp_stepped this command)) data,
          ZKLibTCP.socket this with
    | Ok frame, Some _ => [frame]
    | _, _ => []
    end.
Proof.
  unfold ZKLibTCP.executeCmd, ZKLibTCP.writeMessage, ZKLibTCP.socket_write, tcp_stepped.
  repeat (first [case_decide | case_match]; simplify_eq; cbn in *;
          rewrite ?app_nil_r; try done).
Qed.

Lemma udp_executeCmd_wire this command data net :
  ZKLibUDP.wire (fst (ZKLibUDP.executeCmd this command data net))
  = ZKLibUDP.wire this ++
    match createUDPHeader command (ZKLibUDP.sessionId_number (udp_stepped this command))
            (ZKLibUDP.replyId (udp_stepped this command)) data,
          ZKLibUDP.socket this with
    | Ok frame, Some _ => [frame]
    | _, _ => []
    end.
Proof.
  unfold ZKLibUDP.executeCmd, ZKLibUDP.writeMessage, ZKLibUDP.socket_send, udp_stepped.
  repeat (first [case_decide | case_match]; simplify_eq; cbn in *;
          rewrite ?app_nil_r; try done).
Qed.

Lemma tcp_stepped_replyId this command data net :
  ZKLibTCP.replyId (tcp_stepped this command)
  = ZKLibTCP.replyId (fst (ZKLibTCP.executeCmd this command data net)).
Proof. rewrite tcp_executeCmd_replyId. unfold tcp_stepped. by case_decide. Qed.

Lemma udp_stepped_replyId this command data net :
  ZKLibUDP.replyId (udp_stepped this command)
  = ZKLibUDP.replyId (fst (ZKLibUDP.executeCmd this command data net)).
Proof. rewrite udp_executeCmd_replyId. unfold udp_stepped. by case_decide. Qed.

(** C2 (as amended).  On both transports [executeCmd(CONNECT, _)] sets
    [replyId] to 0 and [executeCmd(c, _)] for [c <> CONNECT] adds
    exactly 1 to it, as a plain number; the reply-id field of the frame
    that the call emits holds [(replyId + 1) % USHRT_MAX], [replyId]
    being the counter after that update; and a frame is emitted
    whenever the socket exists and command, session id, counter and
    body fit their fields. *)
Theorem executeCmd_replyId (tcp : ZKLibTCP.t) (udp : ZKLibUDP.t)
    (command : Z) (data : Buffer.t) (net : NetReply) :
  let tcp' := fst (ZKLibTCP.executeCmd tcp command data net) in
  let udp' := fst (ZKLibUDP.executeCmd udp command data net) in
  (command = CMD_CONNECT ->
   ZKLibTCP.replyId tcp' = 0 /\ ZKLibUDP.replyId udp' = 0) /\
  (command <> CMD_CONNECT ->
   ZKLibTCP.replyId tcp' = ZKLibTCP.replyId tcp + 1 /\
   ZKLibUDP.replyId udp' = ZKLibUDP.replyId udp + 1) /\
  (forall frame, ZKLibTCP.wire tcp' = ZKLibTCP.wire tcp ++ [frame] ->
     readUInt16LE frame 14 = Ok ((ZKLibTCP.replyId tcp' + 1) `rem` USHRT_MAX)) /\
  (forall frame, ZKLibUDP.wire udp' = ZKLibUDP.wire udp ++ [frame] ->
     readUInt16LE frame 6 = Ok ((ZKLibUDP.replyId udp' + 1) `rem` USHRT_MAX)) /\
  (0 < USHRT_MAX <= 65536 -> 0 <= command < 65536 ->
   Forall is_byte data -> Z.of_nat (length data) + 8 <= 65535 ->
   (is_Some (ZKLibTCP.socket tcp) ->
    0 <= ZKLibTCP.sessionId_number tcp < 65536 -> 0 <= ZKLibTCP.replyId tcp' < 65536 ->
    exists frame, ZKLibTCP.wire tcp' = ZKLibTCP.wire tcp ++ [frame]) /\
   (is_Some (ZKLibUDP.socket udp) ->
    0 <= ZKLibUDP.sessionId_number udp < 65536 -> 0 <= ZKLibUDP.replyId udp' < 65536 ->
    exists frame, ZKLibUDP.wire udp' = ZKLibUDP.wire udp ++ [frame])).
Proof.
  intros tcp' udp'. subst tcp' udp'.
  split; [|split; [|split; [|split]]].
  - intros ->. rewrite tcp_executeCmd_replyId, udp_executeCmd_replyId.
    by rewrite !decide_True.
  - intros Hne. rewrite tcp_executeCmd_replyId, udp_executeCmd_replyId.
    by rewrite !decide_False.
  - intros frame. rewrite tcp_executeCmd_wire, <- (tcp_stepped_replyId tcp command data net).
    intros Hw%app_inv_head.
    destruct (createTCPHeader _ _ _ data) as [f|] eqn:E; [|by destruct (ZKLibTCP.socket tcp)].
    destruct (ZKLibTCP.socket tcp); [|done]. injection Hw as ->.
    by apply createTCPHeader_replyId_field in E.
  - intros frame. rewrite udp_executeCmd_wire, <- (udp_stepped_replyId udp command data net).
    intros Hw%app_inv_head.
    destruct (createUDPHeader _ _ _ data) as [f|] eqn:E; [|by destruct (ZKLibUDP.socket udp)].
    destruct (ZKLibUDP.socket udp); [|done]. injection Hw as ->.
    by apply createUDPHeader_replyId_field in E.
  - intros HU Hc Hd Hlen. split.
    + intros [s Hs] Hsid Hrid.
      rewrite tcp_executeCmd_wire, Hs.
      rewrite <- (tcp_stepped_replyId tcp command data net) in Hrid.
      assert (0 <= ZKLibTCP.sessionId_number (tcp_stepped tcp command) < 65536) as Hsid'.
      { unfold tcp_stepped. case_decide; [cbn; lia | done]. }
      destruct (createUDPHeader_Ok command _ _ data HU Hc Hsid' Hrid Hd) as (c & _ & _ & E).
      rewrite (createTCPHeader_Ok _ _ _ _ _ E) by (rewrite length_stamped; lia).
      eauto.
    + intros [s Hs] Hsid Hrid.
      rewrite udp_executeCmd_wire, Hs.
      rewrite <- (udp_stepped_replyId udp command data net) in Hrid.
      assert (0 <= ZKLibUDP.sessionId_number (udp_stepped udp command) < 65536) as Hsid'.
      { unfold udp_stepped. case_decide; [cbn; lia | done]. }
      destruct (createUDPHeader_Ok command _ _ data HU Hc Hsid' Hrid Hd) as (c & _ & _ & E).
      rewrite E. eauto.
Qed.

End ReplyIdFacts.

(** C2, an instance: the second command of a session, on both
    transports. *)
Lemma executeCmd_replyId_witness :
  let tcp := ZKLibTCP.mk 5000 (Some 4660) 1 (Some 0%nat) "Open" [] in
  let udp := ZKLibUDP.mk 5000 (Some 4660) 1 (Some (ZKLibUDP.mkSock (Some 4000%N))) [] in
  let tcp' := fst (ZKLibTCP.executeCmd (K := zk_constants) tcp 11 [] Silence) in
  let udp' := fst (ZKLibUDP.executeCmd (K := zk_constants) udp 11 [] Silence) in
  (ZKLibTCP.replyId tcp' = 2 /\ ZKLibUDP.replyId udp' = 2) /\
  (exists frame, ZKLibTCP.wire tcp' = [frame] /\ Buffer.readUInt16LE frame 14 = Ok 3) /\
  (exists frame, ZKLibUDP.wire udp' = [frame] /\ Buffer.readUInt16LE frame 6 = Ok 3).
Proof.
  intros tcp udp tcp' udp'.
  destruct (executeCmd_replyId (K := zk_constants) tcp udp 11 [] Silence)
    as (_ & Hinc & Htcp & Hudp & Hemit).
  destruct Hinc as [Ht Hu]; [done|].
  destruct Hemit as [Het Heu]; [cbn; lia | lia | constructor | cbn; lia |].
  split; [done|]. split.
  - destruct Het as [frame Hf]; [by eexists | cbn; lia | rewrite Ht; cbn; lia |].
    exists frame. split; [exact Hf|]. rewrite (Htcp frame Hf), Ht. reflexivity.
  - destruct Heu as [frame Hf]; [by eexists | cbn; lia | rewrite Hu; cbn; lia |].
    exists frame. split; [exact Hf|]. rewrite (Hudp frame Hf), Hu. reflexivity.
Defined.

(** C2, counterexample.  After CONNECT the counter is 0 while the frame
    on the wire carries reply id 1, which is not 0 modulo 65536.  And a
    counter at 65535 goes to 65536 on the next command, not back to 0;
    no frame can be built for it. *)
Lemma executeCmd_replyId_field_is_not_counter :
  let tcp := ZKLibTCP.set_socket (Some 0%nat) (ZKLibTCP.new 5000) in
  let udp := ZKLibUDP.set_socket (Some (ZKLibUDP.mkSock (Some 4000%N))) (ZKLibUDP.new 5000) in
  let tcp' := fst (ZKLibTCP.executeCmd (K := zk_constants) tcp 1000 [] Silence) in
  let udp' := fst (ZKLibUDP.executeCmd (K := zk_constants) udp 1000 [] Silence) in
  ZKLibTCP.replyId tcp' = 0 /\
  ZKLibTCP.wire tcp' = [[80; 80; 130; 125; 8; 0; 0; 0; 232; 3; 22; 252; 0; 0; 1; 0]] /\
  ZKLibUDP.replyId udp' = 0 /\
  ZKLibUDP.wire udp' = [[232; 3; 22; 252; 0; 0; 1; 0]] /\
  Buffer.readUInt16LE [232; 3; 22; 252; 0; 0; 1; 0] 6 = Ok 1 /\
  1 <> 0 `mod` 65536 /\
  (let late := ZKLibTCP.set_replyId 65535 tcp in
   ZKLibTCP.executeCmd (K := zk_constants) late 11 [] Silence
   = (ZKLibTCP.set_replyId 65536 late, Rejected (Raised RangeError))).
Proof. vm_compute. repeat split; congruence. Qed.

(** ** Connecting over TCP *)

Section ConnectFacts.
Context {K : Constants}.
Import Buffer Utils.

(** The CONNECT frame can always be built. *)
Lemma connect_frame :
  0 < USHRT_MAX <= 65536 -> 0 <= CMD_CONNECT < 65536 ->
  exists frame, createTCPHeader CMD_CONNECT 0 0 [] = Ok frame.
Proof.
  intros HU Hc.
  destruct (createUDPHeader_Ok CMD_CONNECT 0 0 [] HU Hc) as (c & _ & _ & E);
    [lia | lia | constructor |].
  rewrite (createTCPHeader_Ok _ _ _ _ _ E) by (rewrite length_stamped; cbn; lia).
  eauto.
Qed.

(** C10 (as amended).  With a socket in place, [connect()] resolves
    when the CONNECT reply, after prefix stripping, is empty (the
    session id then stays 0) or has at least 6 bytes (the session id
    becomes the 16-bit word at offset 4); it is rejected on a write
    error, on the timeout, and on a stripped reply of 1 to 5 bytes,
    where reading the session id raises a range error. *)
Theorem connect_outcomes (this : ZKLibTCP.t) (net : NetReply) :
  0 < USHRT_MAX <= 65536 -> 0 <= CMD_CONNECT < 65536 ->
  is_Some (ZKLibTCP.socket this) ->
  let this' := fst (ZKLibTCP.connect this net) in
  let outcome := snd (ZKLibTCP.connect this net) in
  (forall reply, net = Data reply -> removeTcpHeader reply = [] ->
     outcome = Resolved true /\ ZKLibTCP.sessionId this' = Some 0) /\
  (forall reply sid, net = Data reply ->
     readUInt16LE (removeTcpHeader reply) 4 = Ok sid ->
     outcome = Resolved true /\ ZKLibTCP.sessionId this' = Some sid) /\
  (forall reply, net = Data reply ->
     (0 < length (removeTcpHeader reply) < 6)%nat ->
     outcome = Rejected (Raised RangeError)) /\
  (forall code, net = WriteFails code ->
     outcome = Rejected (Raised (SocketError code))) /\
  (net = Silence -> ZKLibTCP.timeout this <> 0 ->
     outcome = Rejected (Raised (Error "TIMEOUT_ON_WRITING_MESSAGE"))) /\
  (net = Silence -> ZKLibTCP.timeout this = 0 -> outcome = Pending).
Proof.
  intros HU Hc [s Hs] this' outcome. subst this' outcome.
  destruct (connect_frame HU Hc) as [frame Ef].
  destruct this as [timeout sid rid sock status wire]. cbn in Hs. subst sock.
  unfold ZKLibTCP.connect, ZKLibTCP.executeCmd, ZKLibTCP.writeMessage.
  rewrite decide_True by done.
  cbn -[createTCPHeader removeTcpHeader readUInt16LE]. rewrite Ef.
  split; [|split; [|split; [|split; [|split]]]].
  - intros reply -> Hr. rewrite Hr. by rewrite decide_False by (cbn; lia).
  - intros reply sid' -> Hr.
    assert (length (removeTcpHeader reply) <> 0%nat) as Hlen.
    { unfold readUInt16LE, readUIntLE in Hr. case_decide; [lia | done]. }
    rewrite decide_True by done. rewrite decide_True by done. by rewrite Hr.
  - intros reply -> Hlen.
    rewrite decide_True by lia. rewrite decide_True by done.
    unfold readUInt16LE, readUIntLE. by rewrite decide_False by lia.
  - by intros code ->.
  - intros -> Ht. by rewrite decide_False.
  - intros -> Ht. by rewrite decide_True.
Qed.

End ConnectFacts.

(** C10, an instance: CONNECT answered by a bare prefix, and by a full
    acknowledgement carrying the session id 0x55AA. *)
Lemma connect_outcomes_witness :
  let this := ZKLibTCP.set_socket (Some 0%nat) (ZKLibTCP.new 5000) in
  let bare := [80; 80; 130; 125; 0; 0; 0; 0] in
  let full := [80; 80; 130; 125; 8; 0; 0; 0; 208; 7; 0; 0; 170; 85; 0; 0] in
  (snd (ZKLibTCP.connect (K := zk_constants) this (Data bare)) = Resolved true /\
   ZKLibTCP.sessionId (fst (ZKLibTCP.connect (K := zk_constants) this (Data bare))) = Some 0) /\
  (snd (ZKLibTCP.connect (K := zk_constants) this (Data full)) = Resolved true /\
   ZKLibTCP.sessionId (fst (ZKLibTCP.connect (K := zk_constants) this (Data full)))
   = Some 21930).
Proof.
  intros this bare full. split.
  - destruct (connect_outcomes (K := zk_constants) this (Data bare)) as (H & _);
      [cbn; lia | cbn; lia | by eexists |].
    by apply (H bare).
  - destruct (connect_outcomes (K := zk_constants) this (Data full)) as (_ & H & _);
      [cbn; lia | cbn; lia | by eexists |].
    by apply (H full 21930).
Defined.

(** C10, counterexample: the reply to CONNECT arrives as a prefix
    followed by only four bytes.  The write succeeded and no timer
    expired, yet [connect()] is rejected, with a range error. *)
Lemma connect_fails_on_short_reply :
  let this := ZKLibTCP.set_socket (Some 0%nat) (ZKLibTCP.new 5000) in
  snd (ZKLibTCP.connect (K := zk_constants) this (Data [80; 80; 130; 125; 4; 0; 0; 0; 208; 7; 0; 0]))
  = Rejected (Raised RangeError) /\
  snd (ZKLibTCP.connect (K := zk_constants) this (Data [1; 2; 3]))
  = Rejected (Raised RangeError).
Proof. vm_compute. done. Qed.

(** ** The socket status *)

Section StatusFacts.
Context {K : Constants}.

Lemma tcp_executeCmd_socketStatus this command data net :
  ZKLibTCP.socketStatus (fst (ZKLibTCP.executeCmd this command data net))
  = ZKLibTCP.socketStatus this.
Proof.
  unfold ZKLibTCP.executeCmd, ZKLibTCP.writeMessage, ZKLibTCP.socket_write.
  repeat (first [case_decide | case_match]; simplify_eq; cbn in *; try done).
Qed.

Lemma tcp_sendChunkRequest_socketStatus start size this :
  ZKLibTCP.socketStatus (fst (ZKLibTCP.sendChunkRequest start size this))
  = ZKLibTCP.socketStatus this.
Proof.
  unfold ZKLibTCP.sendChunkRequest, mbind, M_bind, lift, modify, get_state,
    ZKLibTCP.socket_write.
  repeat (first [case_decide | case_match]; simplify_eq; cbn in *; try done).
Qed.

Lemma perform_status_known a w : status_known w -> status_known (ZKLibTCP.perform a w).
Proof.
  unfold status_known. intros Hw.
  destruct a as [|i ev|command data net|start size|]; cbn [ZKLibTCP.perform].
  - done.
  - unfold ZKLibTCP.emit. destruct (ZKLibTCP.sockets w !! i) as [s|]; [|done].
    destruct ev; cbn; repeat case_match; cbn; auto.
  - cbn. by rewrite tcp_executeCmd_socketStatus.
  - cbn. by rewrite tcp_sendChunkRequest_socketStatus.
  - done.
Qed.

Lemma run_status_known trace w : status_known w -> status_known (ZKLibTCP.run trace w).
Proof.
  revert w. induction trace as [|a trace IH]; intros w Hw; [done|].
  cbn. apply IH. by apply perform_status_known.
Qed.

(** C8 (as amended).  On the TCP transport [getSocketStatus] returns
    one of four strings, "No socket instance", "Closed", "Open" and
    "Error", each of them in some reachable state; on the UDP transport
    it returns "No socket instance", "Unbound" or "Bound to port N". *)
Theorem getSocketStatus_values :
  (forall timeout trace,
     let status := ZKLibTCP.getSocketStatus (ZKLibTCP.run trace (ZKLibTCP.start timeout)) in
     status = "No socket instance" \/ status = "Closed"
     \/ status = "Open" \/ status = "Error") /\
  (forall timeout status,
     status = "No socket instance" \/ status = "Closed"
     \/ status = "Open" \/ status = "Error" ->
     exists trace,
       ZKLibTCP.getSocketStatus (ZKLibTCP.run trace (ZKLibTCP.start timeout)) = status) /\
  (forall udp : ZKLibUDP.t,
     ZKLibUDP.getSocketStatus udp = "No socket instance"
     \/ ZKLibUDP.getSocketStatus udp = "Unbound"
     \/ exists N : N, ZKLibUDP.getSocketStatus udp = "Bound to port " +:+ pretty N).
Proof.
  split; [|split].
  - intros timeout trace status. subst status.
    assert (status_known (ZKLibTCP.run trace (ZKLibTCP.start timeout))) as Hk.
    { apply run_status_known. by left. }
    unfold status_known in Hk. unfold ZKLibTCP.getSocketStatus.
    destruct (ZKLibTCP.socket _); [|by left].
    destruct (default false _); [by right; left|].
    destruct Hk as [-> | [-> | ->]]; auto.
  - intros timeout status [-> | [-> | [-> | ->]]].
    + by exists [].
    + by exists [ZKLibTCP.CallCreateSocket].
    + by exists [ZKLibTCP.CallCreateSocket; ZKLibTCP.Emit 0 ZKLibTCP.EvConnect].
    + by exists [ZKLibTCP.CallCreateSocket; ZKLibTCP.CallCreateSocket;
                 ZKLibTCP.Emit 0 ZKLibTCP.EvError].
  - intros udp. unfold ZKLibUDP.getSocketStatus.
    destruct (ZKLibUDP.socket udp) as [[[p|]]|]; eauto.
Qed.

End StatusFacts.

(** C8, an instance of each part. *)
Lemma getSocketStatus_values_witness :
  (let status :=
     ZKLibTCP.getSocketStatus
       (ZKLibTCP.run (K := zk_constants)
          [ZKLibTCP.CallCreateSocket; ZKLibTCP.Emit 0 ZKLibTCP.EvConnect;
           ZKLibTCP.CallExecuteCmd 1000 [] Silence]
          (ZKLibTCP.start 5000)) in
   status = "No socket instance" \/ status = "Closed"
   \/ status = "Open" \/ status = "Error") /\
  (let udp := ZKLibUDP.set_socket (Some (ZKLibUDP.mkSock (Some 4000%N))) (ZKLibUDP.new 5000) in
   ZKLibUDP.getSocketStatus udp = "No socket instance"
   \/ ZKLibUDP.getSocketStatus udp = "Unbound"
   \/ exists N : N, ZKLibUDP.getSocketStatus udp = "Bound to port " +:+ pretty N).
Proof.
  destruct (getSocketStatus_values (K := zk_constants)) as (Htcp & _ & Hudp).
  split; [apply (Htcp 5000) | apply Hudp].
Defined.

(** C8, counterexample: [createSocket] is called again while the first
    socket is still around; the first socket then fails.  Its listener
    sets the status of the transport, whose current socket is the second
    one, alive: [getSocketStatus] answers "Error". *)
Lemma getSocketStatus_can_be_Error :
  let status :=
    ZKLibTCP.getSocketStatus
      (ZKLibTCP.run (K := zk_constants)
         [ZKLibTCP.CallCreateSocket; ZKLibTCP.CallCreateSocket;
          ZKLibTCP.Emit 0 ZKLibTCP.EvError]
         (ZKLibTCP.start 5000)) in
  status = "Error" /\
  status <> "No socket instance" /\ status <> "Closed" /\ status <> "Open".
Proof. vm_compute. repeat split; congruence. Qed.

(** ** The facade before a connection exists *)

Section FacadeFacts.
Context {A : Type}.
Variable tcp_method : ZKLib.operation -> ZKLib.callback A.
Variable udp_method : ZKLib.operation -> ZKLib.callback A.

(** C9.  While [connectionType] is [null], every operation of the
    facade throws the [ZKError] with code ECONNREFUSED and message
    "Socket isn't connected !"; whatever the transports' methods would
    do, none is called: the facade and both transports, the frames on
    their wires included, are left as they were. *)
Theorem unconnected_facade_refuses (op : ZKLib.operation) (this : ZKLib.t) :
  ZKLib.connectionType this = None ->
  ZKLib.call tcp_method udp_method op this
  = (this,
     ZKLib.Throws
       (ZKLib.mkZKError (ZKLib.IError ZKLib.ECONNREFUSED "Socket isn't connected !")
          "" (ZKLib.ip this))).
Proof.
  intros Hnone. unfold ZKLib.call, ZKLib.functionWrapper. by rewrite Hnone.
Qed.

End FacadeFacts.

(** C9, an instance: [getUsers] on a freshly constructed client, with
    callbacks that would write to both sockets. *)
Lemma unconnected_facade_refuses_witness :
  let noisy : ZKLib.operation -> ZKLib.callback unit := fun _ z =>
    (ZKLib.mk (ZKLibTCP.socket_write [1] (ZKLib.zklibTcp z))
              (ZKLibUDP.socket_send [2] (ZKLib.zklibUdp z))
              (ZKLib.connectionType z) (ZKLib.ip z), Resolved tt) in
  ZKLib.call noisy noisy ZKLib.getUsers (ZKLib.new "10.20.0.7" 10000)
  = (ZKLib.new "10.20.0.7" 10000,
     ZKLib.Throws
       (ZKLib.mkZKError (ZKLib.IError ZKLib.ECONNREFUSED "Socket isn't connected !")
          "" "10.20.0.7")).
Proof.
  intros noisy.
  apply (unconnected_facade_refuses noisy noisy ZKLib.getUsers (ZKLib.new "10.20.0.7" 10000)).
  reflexivity.
Defined.

(** ** Bulk reads: the chunk requests *)

Section ChunkFacts.
Context {K : Constants}.
Import Buffer Utils.

Section Loop.
Context {St : Type}.
Variable send : Z -> Z -> M St unit.

Lemma sendAll_app xs ys s :
  sendAll send (xs ++ ys) s
  = match sendAll send xs s with
    | (s', Ok _) => sendAll send ys s'
    | (s', Throw e) => (s', Throw e)
    end.
Proof.
  revert s. induction xs as [|[start size] xs IH]; intros s; cbn; [done|].
  unfold mbind, M_bind. destruct (send start size s) as [s' [u|e]]; [apply IH | reflexivity].
Qed.

(** The loop, from index [i] on, calls [send] for the full chunks
    [i .. numberChunks - 1] and then for the rest. *)
Lemma requestChunks_from_calls fuel i numberChunks remain s :
  0 <= i <= numberChunks -> (Z.to_nat (numberChunks - i) + 2 <= fuel)%nat ->
  requestChunks_from send fuel i numberChunks remain s
  = sendAll send
      (map (fun j => (j * MAX_CHUNK, MAX_CHUNK)) (seqZ i (numberChunks - i))
       ++ [(numberChunks * MAX_CHUNK, remain)]) s.
Proof.
  revert i s. induction fuel as [|fuel IH]; intros i s Hi Hfuel; [lia|].
  cbn [requestChunks_from]. rewrite decide_True by lia.
  destruct (decide (i = numberChunks)) as [->|Hne].
  - replace (numberChunks - numberChunks) with 0 by lia.
    rewrite seqZ_nil by lia. cbn [map app sendAll].
    unfold mbind, M_bind. destruct (send _ remain s) as [s' [u|e]]; [|done].
    destruct fuel as [|fuel]; [lia|]. cbn [requestChunks_from].
    by rewrite decide_False by lia.
  - rewrite seqZ_cons by lia. cbn [map app sendAll].
    unfold mbind at 1 2. unfold M_bind.
    destruct (send _ MAX_CHUNK s) as [s' [u|e]]; [|done].
    replace (Z.pred (numberChunks - i)) with (numberChunks - Z.succ i) by lia.
    replace (i + 1) with (Z.succ i) by lia.
    apply IH; lia.
Qed.

Lemma requestChunks_calls N s :
  0 < MAX_CHUNK -> 0 <= N ->
  requestChunks send (N `div` MAX_CHUNK) (N `mod` MAX_CHUNK) s
  = sendAll send (chunk_schedule N) s.
Proof.
  intros HM HN. unfold requestChunks, chunk_schedule.
  assert (0 <= N `div` MAX_CHUNK) by (apply Z.div_pos; lia).
  rewrite requestChunks_from_calls by lia.
  by replace (N `div` MAX_CHUNK - 0) with (N `div` MAX_CHUNK) by lia.
Qed.

End Loop.

(** Both transports cut the size up the same way. *)
Lemma cut_up N :
  0 < MAX_CHUNK -> 0 <= N ->
  ZKLibTCP.remain_of N = N `mod` MAX_CHUNK /\
  ZKLibTCP.numberChunks_of N = N `div` MAX_CHUNK /\
  ZKLibUDP.remain_of N = N `mod` MAX_CHUNK /\
  ZKLibUDP.numberChunks_of N = N `div` MAX_CHUNK.
Proof.
  intros HM HN.
  unfold ZKLibTCP.numberChunks_of, ZKLibTCP.remain_of,
    ZKLibUDP.numberChunks_of, ZKLibUDP.remain_of.
  destruct (exact_div N MAX_CHUNK HM HN) as [E1 E2]. by rewrite E1, E2.
Qed.



End ChunkFacts.

(** *** The requests on the wire *)

Section ChunkWire.
Context {K : Constants}.
Import Buffer Utils.

Lemma request_body_writes start size :
  fits_u32 (start, size) ->
  writeUInt32LE (alloc 8) start 0 = Ok (le_bytes 4 start ++ replicate 4 0) /\
  writeUInt32LE (le_bytes 4 start ++ replicate 4 0) size 4 = Ok (request_body (start, size)).
Proof.
  intros [Hstart Hsize]. cbn [fst snd] in *. unfold writeUInt32LE. split.
  - change (alloc 8) with ([] ++ replicate 8 0).
    by rewrite writeUIntLE_into_zeros
      by (first [done | lia | change (2 ^ _) with 4294967296; lia]).
  - rewrite writeUIntLE_into_zeros
      by (first [by rewrite length_le_bytes | lia | change (2 ^ _) with 4294967296; lia]).
    unfold request_body. cbn [fst snd]. change (4 - 4)%nat with 0%nat.
    cbn [replicate]. by rewrite app_nil_r.
Qed.

Lemma request_body_bytes request : Forall is_byte (request_body request).
Proof. apply Forall_app_2; apply le_bytes_are_bytes. Qed.

Lemma length_request_body request : length (request_body request) = 8%nat.
Proof. unfold request_body. by rewrite length_app, !length_le_bytes. Qed.

(** One request that fits: the counter moves on and the frame is written. *)
Lemma tcp_sendChunkRequest_frame this start size :
  0 < USHRT_MAX <= 65536 -> 0 <= CMD_DATA_RDY < 65536 ->
  is_Some (ZKLibTCP.socket this) ->
  0 <= ZKLibTCP.sessionId_number this < 65536 ->
  0 <= ZKLibTCP.replyId this + 1 < 65536 ->
  fits_u32 (start, size) ->
  exists frame,
    createTCPHeader CMD_DATA_RDY (ZKLibTCP.sessionId_number this)
      (ZKLibTCP.replyId this + 1) (request_body (start, size)) = Ok frame /\
    ZKLibTCP.sendChunkRequest start size this
    = (ZKLibTCP.mk (ZKLibTCP.timeout this) (ZKLibTCP.sessionId this)
         (ZKLibTCP.replyId this + 1) (ZKLibTCP.socket this)
         (ZKLibTCP.socketStatus this) (ZKLibTCP.wire this ++ [frame]), Ok tt).
Proof.
  intros HU Hcmd [s Hs] Hsid Hrid Hfit.
  destruct (request_body_writes start size Hfit) as [W1 W2].
  destruct (createUDPHeader_Ok CMD_DATA_RDY (ZKLibTCP.sessionId_number this)
              (ZKLibTCP.replyId this + 1) (request_body (start, size)))
    as (ck & _ & _ & Ef); try done; [apply request_body_bytes|].
  pose proof (createTCPHeader_Ok _ _ _ _ _ Ef) as Et.
  rewrite length_stamped, length_request_body in Et. specialize (Et ltac:(cbn; lia)).
  eexists. split; [exact Et|].
  destruct this as [timeout sid rid sock status wire]. cbn in Hs. subst sock.
  unfold ZKLibTCP.sendChunkRequest, mbind, M_bind, modify, lift, get_state.
  unfold ZKLibTCP.set_replyId, ZKLibTCP.sessionId_number, ZKLibTCP.socket_write in *.
  cbn [ZKLibTCP.replyId ZKLibTCP.timeout ZKLibTCP.sessionId
       ZKLibTCP.socket ZKLibTCP.socketStatus ZKLibTCP.wire] in *.
  by rewrite W1, W2, Et.
Qed.

Lemma udp_sendChunkRequest_frame this start size :
  0 < USHRT_MAX <= 65536 -> 0 <= CMD_DATA_RDY < 65536 ->
  is_Some (ZKLibUDP.socket this) ->
  0 <= ZKLibUDP.sessionId_number this < 65536 ->
  0 <= ZKLibUDP.replyId this + 1 < 65536 ->
  fits_u32 (start, size) ->
  exists frame,
    createUDPHeader CMD_DATA_RDY (ZKLibUDP.sessionId_number this)
      (ZKLibUDP.replyId this + 1) (request_body (start, size)) = Ok frame /\
    ZKLibUDP.sendChunkRequest start size this
    = (ZKLibUDP.mk (ZKLibUDP.timeout this) (ZKLibUDP.sessionId this)
         (ZKLibUDP.replyId this + 1) (ZKLibUDP.socket this)
         (ZKLibUDP.wire this ++ [frame]), Ok tt).
Proof.
  intros HU Hcmd [s Hs] Hsid Hrid Hfit.
  destruct (request_body_writes start size Hfit) as [W1 W2].
  destruct (createUDPHeader_Ok CMD_DATA_RDY (ZKLibUDP.sessionId_number this)
              (ZKLibUDP.replyId this + 1) (request_body (start, size)))
    as (ck & _ & _ & Ef); try done; [apply request_body_bytes|].
  eexists. split; [exact Ef|].
  destruct this as [timeout sid rid sock wire]. cbn in Hs. subst sock.
  unfold ZKLibUDP.sendChunkRequest, mbind, M_bind, modify, lift, get_state.
  unfold ZKLibUDP.set_replyId, ZKLibUDP.sessionId_number, ZKLibUDP.socket_send in *.
  cbn [ZKLibUDP.replyId ZKLibUDP.timeout ZKLibUDP.sessionId
       ZKLibUDP.socket ZKLibUDP.wire] in *.
  by rewrite W1, W2, Ef.
Qed.

(** A run of requests that fit, while the counter stays below 65536. *)
Lemma tcp_sendAll_frames requests this :
  0 < USHRT_MAX <= 65536 -> 0 <= CMD_DATA_RDY < 65536 ->
  is_Some (ZKLibTCP.socket this) ->
  0 <= ZKLibTCP.sessionId_number this < 65536 ->
  0 <= ZKLibTCP.replyId this ->
  ZKLibTCP.replyId this + Z.of_nat (length requests) < 65536 ->
  Forall fits_u32 requests ->
  exists frames,
    sendAll ZKLibTCP.sendChunkRequest requests this
    = (ZKLibTCP.mk (ZKLibTCP.timeout this) (ZKLibTCP.sessionId this)
         (ZKLibTCP.replyId this + Z.of_nat (length requests)) (ZKLibTCP.socket this)
         (ZKLibTCP.socketStatus this) (ZKLibTCP.wire this ++ frames), Ok tt) /\
    Forall2 (tcp_request_frame (ZKLibTCP.sessionId_number this)) requests frames.
Proof.
  intros HU Hcmd Hsock Hsid. revert this Hsock Hsid.
  induction requests as [|[start size] requests IH]; intros this Hsock Hsid Hrid Hmax Hfit.
  - exists []. split; [|constructor]. destruct this. cbn.
    by rewrite Z.add_0_r, app_nil_r.
  - apply Forall_cons in Hfit as [Hfit1 Hfit].
    cbn [length] in Hmax.
    destruct (tcp_sendChunkRequest_frame this start size) as (frame & Ef & Es);
      try done; [lia|].
    cbn [sendAll]. unfold mbind, M_bind. rewrite Es.
    edestruct (IH (ZKLibTCP.mk (ZKLibTCP.timeout this) (ZKLibTCP.sessionId this)
                     (ZKLibTCP.replyId this + 1) (ZKLibTCP.socket this)
                     (ZKLibTCP.socketStatus this) (ZKLibTCP.wire this ++ [frame])))
      as (frames & Er & Hframes); try done; cbn; try lia.
    exists (frame :: frames). split.
    + rewrite Er. cbn. rewrite <- app_assoc. do 2 f_equal. lia.
    + constructor; [by eexists | done].
Qed.

Lemma udp_sendAll_frames requests this :
  0 < USHRT_MAX <= 65536 -> 0 <= CMD_DATA_RDY < 65536 ->
  is_Some (ZKLibUDP.socket this) ->
  0 <= ZKLibUDP.sessionId_number this < 65536 ->
  0 <= ZKLibUDP.replyId this ->
  ZKLibUDP.replyId this + Z.of_nat (length requests) < 65536 ->
  Forall fits_u32 requests ->
  exists frames,
    sendAll ZKLibUDP.sendChunkRequest requests this
    = (ZKLibUDP.mk (ZKLibUDP.timeout this) (ZKLibUDP.sessionId this)
         (ZKLibUDP.replyId this + Z.of_nat (length requests)) (ZKLibUDP.socket this)
         (ZKLibUDP.wire this ++ frames), Ok tt) /\
    Forall2 (udp_request_frame (ZKLibUDP.sessionId_number this)) requests frames.
Proof.
  intros HU Hcmd Hsock Hsid. revert this Hsock Hsid.
  induction requests as [|[start size] requests IH]; intros this Hsock Hsid Hrid Hmax Hfit.
  - exists []. split; [|constructor]. destruct this. cbn.
    by rewrite Z.add_0_r, app_nil_r.
  - apply Forall_cons in Hfit as [Hfit1 Hfit].
    cbn [length] in Hmax.
    destruct (udp_sendChunkRequest_frame this start size) as (frame & Ef & Es);
      try done; [lia|].
    cbn [sendAll]. unfold mbind, M_bind. rewrite Es.
    edestruct (IH (ZKLibUDP.mk (ZKLibUDP.timeout this) (ZKLibUDP.sessionId this)
                     (ZKLibUDP.replyId this + 1) (ZKLibUDP.socket this)
                     (ZKLibUDP.wire this ++ [frame])))
      as (frames & Er & Hframes); try done; cbn; try lia.
    exists (frame :: frames). split.
    + rewrite Er. cbn. rewrite <- app_assoc. do 2 f_equal. lia.
    + constructor; [by eexists | done].
Qed.

Lemma chunk_schedule_fits N :
  0 < MAX_CHUNK -> 0 <= N < 4294967296 -> Forall fits_u32 (chunk_schedule N).
Proof.
  intros HM HN. unfold chunk_schedule, fits_u32.
  assert (0 <= N `div` MAX_CHUNK) as Hk by (apply Z.div_pos; lia).
  pose proof (Z.mul_div_le N MAX_CHUNK HM) as Hle.
  pose proof (Z.mod_pos_bound N MAX_CHUNK HM) as Hr.
  pose proof (Z.div_mod N MAX_CHUNK) as Hdm.
  apply Forall_app_2.
  - apply Forall_fmap, Forall_seqZ. intros i Hi. cbn. nia.
  - repeat constructor; cbn; nia.
Qed.

(** For a size below 2^32 and a counter with room for all requests, the
    loops put one DATA_RDY frame per scheduled request on the wire. *)
Lemma tcp_chunk_requests_on_wire N this :
  0 < MAX_CHUNK -> 0 <= N < 4294967296 ->
  0 < USHRT_MAX <= 65536 -> 0 <= CMD_DATA_RDY < 65536 ->
  is_Some (ZKLibTCP.socket this) ->
  0 <= ZKLibTCP.sessionId_number this < 65536 ->
  0 <= ZKLibTCP.replyId this ->
  ZKLibTCP.replyId this + N `div` MAX_CHUNK + 1 < 65536 ->
  exists frames,
    ZKLibTCP.readWithBuffer_requests N this
    = (ZKLibTCP.mk (ZKLibTCP.timeout this) (ZKLibTCP.sessionId this)
         (ZKLibTCP.replyId this + N `div` MAX_CHUNK + 1) (ZKLibTCP.socket this)
         (ZKLibTCP.socketStatus this) (ZKLibTCP.wire this ++ frames), Ok tt) /\
    Forall2 (tcp_request_frame (ZKLibTCP.sessionId_number this)) (chunk_schedule N) frames.
Proof.
  intros HM HN HU Hcmd Hsock Hsid Hrid Hmax.
  destruct (cut_up N HM) as (Er & Ek & _); [lia|].
  assert (0 <= N `div` MAX_CHUNK) as Hk by (apply Z.div_pos; lia).
  assert (Z.of_nat (length (chunk_schedule N)) = N `div` MAX_CHUNK + 1) as Hlen.
  { unfold chunk_schedule. rewrite length_app, length_map, length_seqZ. cbn. lia. }
  destruct (tcp_sendAll_frames (chunk_schedule N) this) as (frames & E & Hf);
    try done; [lia | by apply chunk_schedule_fits |].
  exists frames. split; [|done].
  unfold ZKLibTCP.readWithBuffer_requests. rewrite Er, Ek.
  rewrite requestChunks_calls by lia. by rewrite E, Hlen, Z.add_assoc.
Qed.

Lemma udp_chunk_requests_on_wire N this :
  0 < MAX_CHUNK -> 0 <= N < 4294967296 ->
  0 < USHRT_MAX <= 65536 -> 0 <= CMD_DATA_RDY < 65536 ->
  is_Some (ZKLibUDP.socket this) ->
  0 <= ZKLibUDP.sessionId_number this < 65536 ->
  0 <= ZKLibUDP.replyId this ->
  ZKLibUDP.replyId this + N `div` MAX_CHUNK + 1 < 65536 ->
  exists frames,
    requestChunks ZKLibUDP.sendChunkRequest
      (ZKLibUDP.numberChunks_of N) (ZKLibUDP.remain_of N) this
    = (ZKLibUDP.mk (ZKLibUDP.timeout this) (ZKLibUDP.sessionId this)
         (ZKLibUDP.replyId this + N `div` MAX_CHUNK + 1) (ZKLibUDP.socket this)
         (ZKLibUDP.wire this ++ frames), Ok tt) /\
    Forall2 (udp_request_frame (ZKLibUDP.sessionId_number this)) (chunk_schedule N) frames.
Proof.
  intros HM HN HU Hcmd Hsock Hsid Hrid Hmax.
  destruct (cut_up N HM) as (_ & _ & Er & Ek); [lia|].
  assert (0 <= N `div` MAX_CHUNK) as Hk by (apply Z.div_pos; lia).
  assert (Z.of_nat (length (chunk_schedule N)) = N `div` MAX_CHUNK + 1) as Hlen.
  { unfold chunk_schedule. rewrite length_app, length_map, length_seqZ. cbn. lia. }
  destruct (udp_sendAll_frames (chunk_schedule N) this) as (frames & E & Hf);
    try done; [lia | by apply chunk_schedule_fits |].
  exists frames. split; [|done].
  rewrite Er, Ek.
  rewrite requestChunks_calls by lia. by rewrite E, Hlen, Z.add_assoc.
Qed.


End ChunkWire.


(** ** Bulk reads over UDP: the reassembly *)

Section ReassemblyFacts.
Context {K : Constants}.
Import Buffer Utils.

Lemma readUIntLE_take m buf offset n :
  (offset + n <= m)%nat -> (m <= length buf)%nat ->
  readUIntLE (take m buf) offset n = readUIntLE buf offset n.
Proof.
  intros Hm Hlen. unfold readUIntLE. rewrite length_take.
  rewrite !take_drop_commute, take_take.
  replace (Nat.min (offset + n) m) with (offset + n)%nat by lia.
  repeat case_decide; try done; lia.
Qed.

Lemma decodeUDPHeader_length header h :
  decodeUDPHeader header = Ok h -> (8 <= length header)%nat.
Proof.
  unfold decodeUDPHeader.
  destruct (readUIntLE header 0 2); cbn; [|done].
  destruct (readUIntLE header 2 2); cbn; [|done].
  destruct (readUIntLE header 4 2); cbn; [|done].
  unfold readUIntLE at 1. case_decide; [lia | done].
Qed.

(** The discriminator decodes the same header as the listener. *)
Lemma checkNotEventUDP_decoded reply h :
  decodeUDPHeader reply = Ok h ->
  checkNotEventUDP reply = Ok (bool_decide (commandId h = CMD_REG_EVENT)).
Proof.
  intros Hh. pose proof (decodeUDPHeader_length _ _ Hh) as Hlen.
  unfold checkNotEventUDP, subarray. rewrite drop_0.
  replace (8 - 0)%nat with 8%nat by done.
  unfold decodeUDPHeader in *.
  rewrite !readUIntLE_take by lia. by rewrite Hh.
Qed.

Lemma resolve_sound N r st :
  sound N st ->
  (ZKLibUDP.err r = None -> Z.of_nat (length (ZKLibUDP.data r)) = N) ->
  sound N (ZKLibUDP.resolve r st).
Proof.
  intros Hst Hr. unfold ZKLibUDP.resolve.
  destruct (ZKLibUDP.settled st) eqn:E; [exact Hst|].
  destruct Hst as [Hsize _]. split; [done|]. cbn. by intros r' [= <-].
Qed.

Lemma react_sound N i st st' :
  sound N st -> ZKLibUDP.react i st = Ok st' -> sound N st'.
Proof.
  intros Hs. destruct i as [reply|]; cbn [ZKLibUDP.react].
  - unfold ZKLibUDP.handleOnData.
    destruct (checkNotEventUDP reply) as [[|]|]; cbn [mbind Res_bind]; [by intros [= <-]| |done].
    destruct (decodeUDPHeader reply) as [h|]; cbn [mbind Res_bind]; [|done].
    assert (sound N (ZKLibUDP.set_timer (Some true) st)) as Hs' by done.
    repeat case_decide; intros [= <-]; try done.
    + apply resolve_sound; [done|]. cbn. destruct Hs as [<- _]. done.
    + by apply resolve_sound.
  - intros [= <-]. unfold ZKLibUDP.timer_expires.
    destruct (ZKLibUDP.timer st); [|done].
    by apply resolve_sound.
Qed.

Lemma reacts_sound N inputs st st' :
  sound N st -> ZKLibUDP.reacts inputs st = Ok st' -> sound N st'.
Proof.
  revert st. induction inputs as [|i inputs IH]; intros st Hs; cbn.
  - by intros [= <-].
  - destruct (ZKLibUDP.react i st) as [st1|] eqn:E; cbn; [|done].
    apply IH. by eapply react_sound.
Qed.

(** C3.  In a UDP bulk read that is still unsettled, an ACK_OK frame
    resolves the promise without error exactly when the data gathered
    so far has the announced length, and otherwise leaves it unsettled;
    an expiring idle timer resolves it with the data gathered so far
    and a timeout error.  Over a whole run, whatever is resolved
    without error has the announced length. *)
Theorem udp_reassembly (st : ZKLibUDP.Reassembly) :
  CMD_ACK_OK <> CMD_REG_EVENT -> CMD_ACK_OK <> CMD_DATA ->
  ZKLibUDP.settled st = None ->
  (forall reply h,
     decodeUDPHeader reply = Ok h -> commandId h = CMD_ACK_OK ->
     exists st',
       ZKLibUDP.handleOnData reply st = Ok st' /\
       (succeeded st' <-> Z.of_nat (length (ZKLibUDP.totalBuffer st)) = ZKLibUDP.size st) /\
       (succeeded st' ->
        ZKLibUDP.settled st' = Some (ZKLibUDP.mkResult (ZKLibUDP.totalBuffer st) None)) /\
       (~ succeeded st' -> ZKLibUDP.settled st' = None)) /\
  (is_Some (ZKLibUDP.timer st) ->
   exists e,
     ZKLibUDP.settled (ZKLibUDP.timer_expires st)
     = Some (ZKLibUDP.mkResult (ZKLibUDP.totalBuffer st) (Some e)) /\ is_timeout e) /\
  (forall N inputs st' r,
     ZKLibUDP.reacts inputs (ZKLibUDP.mkReassembly N [] None (Some false) []) = Ok st' ->
     ZKLibUDP.settled st' = Some r -> ZKLibUDP.err r = None ->
     Z.of_nat (length (ZKLibUDP.data r)) = N).
Proof.
  intros Hev Hdata Hunsettled. split; [|split].
  - intros reply h Hh Hack.
    unfold ZKLibUDP.handleOnData.
    rewrite (checkNotEventUDP_decoded _ _ Hh), Hack.
    rewrite bool_decide_eq_false_2 by done. cbn [mbind Res_bind].
    rewrite Hh. cbn [mbind Res_bind]. rewrite Hack.
    rewrite decide_False by done. rewrite decide_True by done.
    cbn [ZKLibUDP.set_timer ZKLibUDP.totalBuffer ZKLibUDP.size].
    case_decide as Hlen.
    + eexists. split; [done|].
      unfold ZKLibUDP.resolve, succeeded. cbn. rewrite Hunsettled. cbn.
      split; [|split]; [|done|].
      * split; [done|]. intros _. by eexists.
      * intros Hno. destruct Hno. by eexists.
    + eexists. split; [done|]. unfold succeeded. cbn. rewrite Hunsettled.
      split; [|split]; [|by intros (r & [=] & _)|done].
      split; [by intros (r & [=] & _) | done].
  - intros [rearmed Ht]. unfold ZKLibUDP.timer_expires. rewrite Ht.
    unfold ZKLibUDP.resolve. cbn. rewrite Hunsettled.
    eexists. split; [done|]. by destruct rearmed.
  - intros N inputs st' r Hrun Hr Herr.
    assert (sound N (ZKLibUDP.mkReassembly N [] None (Some false) [])) as Hinit.
    { split; [done|]. by intros r' [=]. }
    destruct (reacts_sound N inputs _ st' Hinit Hrun) as [_ Hs]. by apply Hs.
Qed.

End ReassemblyFacts.

(** C3, an instance: 3 bytes announced, 3 bytes gathered, then ACK_OK;
    and the first timer expiring on an empty buffer. *)
Lemma udp_reassembly_witness :
  let st := ZKLibUDP.mkReassembly 3 [7; 8; 9] None (Some true) [(3, 3)] in
  let ack := [208; 7; 0; 0; 0; 0; 0; 0] in
  (exists st',
     ZKLibUDP.handleOnData (K := zk_constants) ack st = Ok st' /\
     ZKLibUDP.settled st' = Some (ZKLibUDP.mkResult [7; 8; 9] None)) /\
  (exists e,
     ZKLibUDP.settled (ZKLibUDP.timer_expires st)
     = Some (ZKLibUDP.mkResult [7; 8; 9] (Some e)) /\ is_timeout e).
Proof.
  intros st ack.
  destruct (udp_reassembly (K := zk_constants) st) as (Hack & Htimer & _);
    [cbn; lia | cbn; lia | reflexivity |].
  split.
  - destruct (Hack ack (Utils.mkUDPHeader 2000 0 0 0)) as (st' & E & Hiff & Hok & _);
      [reflexivity | reflexivity |].
    exists st'. split; [exact E|]. apply Hok. apply Hiff. reflexivity.
  - apply Htimer. by eexists.
Defined.

(** ** [setUser] *)

Section JsFacts.
Import Buffer.

Lemma length_codes s : length (Js.codes s) = String.length s.
Proof. induction s as [|c s IH]; cbn; [done | by rewrite IH]. Qed.

Lemma code_is_byte c : is_byte (Js.code c).
Proof.
  unfold is_byte, Js.code. pose proof (N_ascii_bounded c). lia.
Qed.



Lemma length_utf8_fit room s : (length (Js.utf8_fit room s) <= room)%nat.
Proof.
  revert room. induction s as [|c s IH]; intros room; cbn; [lia|].
  case_decide; [|cbn; lia]. rewrite length_app.
  pose proof (IH (room - length (Js.utf8 c))%nat). lia.
Qed.

(** A text of 7-bit characters that fits is written as it is. *)
Lemma utf8_fit_ascii room s :
  is_ascii s -> (String.length s <= room)%nat -> Js.utf8_fit room s = Js.codes s.
Proof.
  unfold is_ascii. revert room.
  induction s as [|c s IH]; intros room Ha Hlen;
    cbn [Js.utf8_fit Js.codes String.length] in *; [done|].
  apply Forall_cons in Ha as [Hc Ha]. unfold Js.utf8. cbv zeta.
  destruct (decide (Js.code c < 128)); [|done]. cbn [length].
  rewrite decide_True by lia. cbn [app]. f_equal. apply IH; [done | lia].
Qed.

Lemma length_padded n bs : (length bs <= n)%nat -> length (padded n bs) = n.
Proof. intros Hlen. unfold padded. rewrite length_app, length_replicate. lia. Qed.

End JsFacts.

Section SetUserFacts.
Context {K : Constants}.
Variable Number_toString9 : string -> string.
Import Buffer.

Lemma le_bytes2_small v : 0 <= v <= 255 -> le_bytes 2 v = [v; 0].
Proof.
  intros Hv. cbn. rewrite (Z.mod_small v) by lia. by rewrite Z.div_small by lia.
Qed.

Lemma le_bytes4_small v : 0 <= v <= 65535 -> le_bytes 4 v = le_bytes 2 v ++ [0; 0].
Proof.
  intros Hv. cbn.
  assert ((v `div` 256) `div` 256 = 0) as -> by (rewrite Z.div_div by lia; apply Z.div_small; lia).
  done.
Qed.

Lemma write_ascii pre s n offset len :
  offset = length pre -> is_ascii s -> (String.length s <= len)%nat -> (len <= n)%nat ->
  Js.write (pre ++ replicate n 0) s offset len
  = pre ++ padded len (Js.codes s) ++ replicate (n - len) 0.
Proof.
  intros -> Ha Hs Hn. unfold Js.write, padded.
  rewrite length_app, length_replicate.
  replace (Nat.min len (length pre + n - length pre)) with len by lia.
  rewrite utf8_fit_ascii by done.
  rewrite copy_into_zeros by (rewrite ?length_codes; lia).
  rewrite length_codes, <- app_assoc, <- replicate_add.
  do 3 f_equal. lia.
Qed.


Lemma invalid_input_spec uid userid name password cardno :
  ZKLibTCP.invalid_input uid userid name password cardno = true <->
  Js.parseInt uid = Some 0
  \/ (exists n, Js.parseInt uid = Some n /\ 3000 < n)
  \/ (9 < String.length userid)%nat
  \/ (24 < String.length name)%nat
  \/ (8 < String.length password)%nat
  \/ (10 < String.length cardno)%nat.
Proof.
  unfold ZKLibTCP.invalid_input, ZKLibTCP.MAX_UID, ZKLibTCP.MAX_USERID_LENGTH,
    ZKLibTCP.MAX_NAME_LENGTH, ZKLibTCP.MAX_PASSWORD_LENGTH, ZKLibTCP.MAX_CARDNO_LENGTH.
  rewrite !orb_true_iff, !bool_decide_eq_true.
  destruct (Js.parseInt uid) as [n|].
  - rewrite bool_decide_eq_true. split.
    + intros [[[[[H|H]|H]|H]|H]|H]; eauto 10.
      right; left. exists n. split; [done | lia].
    + intros [H|[(m & [= <-] & H)|[H|[H|[H|H]]]]]; eauto 10.
      left; left; left; left; right. lia.
  - split.
    + intros [[[[[H|H]|H]|H]|H]|H]; eauto 10; done.
    + intros [H|[(m & H & _)|[H|[H|[H|H]]]]]; eauto 10; done.
Qed.



End SetUserFacts.

Section SetUserPayload.
Context {K : Constants}.
Variable Number_toString9 : string -> string.
Import Buffer.






End SetUserPayload.


(** C6.  [setUser] at three inputs where it misses the 72-byte user
    record and its own checks.  For the user id "9" the payload holds
    "10" at offset 48, the text of 9 in radix 9, where the record has
    the user id as ASCII: decoded again by [decodeUserData72], the user
    id reads "10" while every other field comes back as given.  An
    input with the card number 70000, valid by the check on its length
    and within the four bytes of the record, is not sent: the card
    number is written as a 16-bit value and the write throws.  And a
    uid of -1, outside 1..3000, is not met with the invalid-input
    error: the check compares with 0 and 3000 only, lets it through,
    and the 16-bit write throws. *)
Lemma setUser_departs_from_record :
  let this := ZKLibTCP.mk 5000 (Some 4660) 1 (Some 0%nat) "Open" [] in
  ZKLibTCP.setUser (K := zk_constants) Js.decimal_toString9 this
    "-1" "9" "Al" "pw" 0 "70" Silence
  = (this, Rejected (Text "Failed to set user: " (Raised RangeError)))
  /\
  ZKLibTCP.setUser (K := zk_constants) Js.decimal_toString9 this
    "1" "9" "Al" "pw" 0 "70000" Silence
  = (this, Rejected (Text "Failed to set user: " (Raised RangeError)))
  /\
  (exists payload,
     ZKLibTCP.setUser_command_string Js.decimal_toString9 "1" "9" "Al" "pw" 0 "70" = Ok payload /\
     Utils.decodeUserData72 payload = Ok (Utils.mkUser72 1 0 "pw" "Al" 70 "10")).
Proof.
  split; [reflexivity|]. split; [reflexivity|].
  eexists. split; reflexivity.
Qed.

(** * Further properties

    What the code does beyond the sentences of the specification: the
    bounds of its decoders, what its builders and decoders give when
    they are composed, and the outcomes of the requests of the two
    transports and of the facade. *)

(** ** The checksum, in general *)

Section ChecksumFacts.
Context {K : Constants}.
Import Buffer Utils.

Lemma list_pair_ind {A} (P : list A -> Prop) :
  P [] -> (forall a, P [a]) -> (forall a b l, P l -> P (a :: b :: l)) -> forall l, P l.
Proof.
  intros H0 H1 H2 l.
  assert (P l /\ forall a, P (a :: l)) as [? _]; [|done].
  induction l as [|b l [IH1 IH2]]; [by split|].
  split; [apply IH2 | intros a; by apply H2].
Qed.

Lemma word_sum_nonneg buf : Forall is_byte buf -> 0 <= word_sum buf.
Proof.
  induction buf as [| |lo hi rest IH] using list_pair_ind; intros Hb; cbn [word_sum]; [lia| |].
  - inversion Hb as [|? ? Hlo _]; subst. unfold is_byte in Hlo. lia.
  - inversion Hb as [|? ? Hlo Hb']; subst. inversion Hb' as [|? ? Hhi Hb'']; subst.
    specialize (IH Hb''). unfold is_byte in *. lia.
Qed.

Lemma createCheckSum_loop_sum fuel buf i acc :
  0 < USHRT_MAX -> Forall is_byte buf -> 0 <= acc < USHRT_MAX ->
  (length buf <= i + 2 * fuel)%nat ->
  createCheckSum_loop fuel buf i acc
  = Ok ((acc + word_sum (drop i buf)) `mod` USHRT_MAX).
Proof.
  intros HU Hb. revert i acc.
  induction fuel as [|fuel IH]; intros i acc Hacc Hfuel; cbn [createCheckSum_loop].
  - rewrite drop_ge by lia. cbn. rewrite Z.add_0_r, Z.mod_small by lia. done.
  - case_decide as Hlt.
    2:{ rewrite drop_ge by lia. cbn. rewrite Z.add_0_r, Z.mod_small by lia. done. }
    assert (Forall is_byte (drop i buf)) as Hd by by apply Forall_drop.
    destruct (drop i buf) as [|lo [|hi rest]] eqn:Ed.
    + apply (f_equal length) in Ed. rewrite length_drop in Ed. cbn in Ed. lia.
    + assert (length buf = S i) as Hlen.
      { apply (f_equal length) in Ed. rewrite length_drop in Ed. cbn in Ed. lia. }
      rewrite decide_True by lia. cbn [mbind Res_bind].
      assert (get buf i = lo) as ->.
      { unfold get. rewrite nth_lookup.
        pose proof (lookup_drop buf i 0) as E. rewrite Ed, Nat.add_0_r in E.
        by rewrite <- E. }
      inversion Hd as [|? ? Hlo _]; subst. unfold is_byte in Hlo.
      rewrite IH; [| apply Z.rem_bound_pos; lia | lia].
      rewrite drop_ge by lia. cbn [word_sum].
      rewrite Z.rem_mod_nonneg by lia.
      rewrite Z.add_0_r, Z.mod_mod by lia. done.
    + assert (S (S i) <= length buf)%nat as Hlen.
      { apply (f_equal length) in Ed. rewrite length_drop in Ed. cbn in Ed. lia. }
      rewrite decide_False by lia.
      unfold readUInt16LE, readUIntLE. rewrite decide_True by lia.
      rewrite Ed. cbn [take le_value mbind Res_bind]. rewrite take_0. cbn [le_value].
      inversion Hd as [|? ? Hlo Hd']; subst. inversion Hd' as [|? ? Hhi Hd'']; subst.
      unfold is_byte in Hlo, Hhi.
      rewrite IH; [| apply Z.rem_bound_pos; lia | lia].
      rewrite <- drop_drop, Ed. cbn [drop]. rewrite drop_0. cbn [word_sum].
      rewrite Z.rem_mod_nonneg by lia.
      pose proof (word_sum_nonneg rest Hd'').
      rewrite Zplus_mod_idemp_l.
      apply (f_equal Ok), (f_equal (fun z => z `mod` USHRT_MAX)). lia.
Qed.

Lemma createCheckSum_sum buf :
  0 < USHRT_MAX -> Forall is_byte buf ->
  createCheckSum buf = Ok (USHRT_MAX - word_sum buf `mod` USHRT_MAX - 1).
Proof.
  intros HU Hb. unfold createCheckSum.
  rewrite createCheckSum_loop_sum; [|done|done|lia|lia].
  by rewrite drop_0.
Qed.

End ChecksumFacts.

Section ChecksumProps.
Context {K : Constants}.
Import Buffer Utils.

(** X1.  On every buffer [createCheckSum] returns, without throwing,
    [USHRT_MAX - 1 - (s mod USHRT_MAX)], where [s] is the sum of the
    buffer's little-endian 16-bit words (a last odd byte counting
    alone): the reduction the loop applies at each step does not change
    the result, the result lies in [0, USHRT_MAX), and adding it and 1
    to the sum gives a multiple of [USHRT_MAX]. *)
Theorem createCheckSum_complements_word_sum (buf : Buffer.t) :
  0 < USHRT_MAX -> Forall is_byte buf ->
  exists c,
    createCheckSum buf = Ok c /\
    c = USHRT_MAX - 1 - word_sum buf `mod` USHRT_MAX /\
    0 <= c < USHRT_MAX /\
    (word_sum buf + c + 1) `mod` USHRT_MAX = 0.
Proof.
  intros HU Hb. eexists. split; [by apply createCheckSum_sum|].
  pose proof (Z.mod_pos_bound (word_sum buf) USHRT_MAX HU).
  split; [lia|]. split; [lia|].
  replace (word_sum buf + (USHRT_MAX - word_sum buf `mod` USHRT_MAX - 1) + 1)
    with (word_sum buf `div` USHRT_MAX * USHRT_MAX + 1 * USHRT_MAX).
  - rewrite Z.mod_add by lia. apply Z.mod_mul. lia.
  - pose proof (Z.div_mod (word_sum buf) USHRT_MAX). lia.
Qed.

(** The weight of the byte at an index in the sum of words. *)
Lemma word_sum_byte pre b post :
  word_sum (pre ++ b :: post)
  = word_sum (pre ++ 0 :: post) + b * (if Nat.even (length pre) then 1 else 256).
Proof.
  induction pre as [| a | a c pre IH] using list_pair_ind.
  - destruct post as [|hi rest]; cbn; lia.
  - cbn. lia.
  - cbn [app word_sum length Nat.even]. rewrite IH. lia.
Qed.

(** X2.  With [USHRT_MAX] above 65280, as 65535 is, the checksum tells
    apart any two buffers that differ in exactly one byte. *)
Theorem createCheckSum_detects_one_byte (pre post : list Z) (b b' : Z) :
  65280 < USHRT_MAX ->
  Forall is_byte (pre ++ b :: post) -> is_byte b' -> b <> b' ->
  createCheckSum (pre ++ b :: post) <> createCheckSum (pre ++ b' :: post).
Proof.
  intros HU Hb Hb' Hne.
  assert (is_byte b) as Hbb.
  { apply Forall_app in Hb as [_ Hb]. by inversion Hb. }
  assert (Forall is_byte (pre ++ b' :: post)) as Hb2.
  { apply Forall_app in Hb as [Hpre Hb]. inversion Hb; subst.
    apply Forall_app_2; [done | by constructor]. }
  rewrite !createCheckSum_sum by (done || lia).
  intros [= E].
  rewrite (word_sum_byte pre b), (word_sum_byte pre b') in E.
  set (s := word_sum (pre ++ 0 :: post)) in E.
  set (w := if Nat.even (length pre) then 1 else 256) in E.
  assert (1 <= w <= 256) as Hw by (subst w; case_match; lia).
  unfold is_byte in Hbb, Hb'.
  assert ((s + b * w) `mod` USHRT_MAX = (s + b' * w) `mod` USHRT_MAX) as E' by lia.
  assert (((b - b') * w) `mod` USHRT_MAX = 0) as Hd.
  { replace ((b - b') * w) with ((s + b * w) - (s + b' * w)) by lia.
    rewrite Zminus_mod, E', Z.sub_diag. apply Z.mod_0_l. lia. }
  apply Z.mod_divide in Hd; [|lia].
  destruct (decide (b < b')) as [Hlt|Hge].
  - apply Z.divide_opp_r in Hd.
    apply Z.divide_pos_le in Hd; nia.
  - apply Z.divide_pos_le in Hd; nia.
Qed.

End ChecksumProps.

(** X1, an instance: a buffer of nine bytes. *)
Lemma createCheckSum_complements_word_sum_witness :
  exists c,
    Utils.createCheckSum (K := zk_constants) [232; 3; 0; 0; 0; 0; 0; 0; 7] = Ok c /\
    c = 65535 - 1 - word_sum [232; 3; 0; 0; 0; 0; 0; 0; 7] `mod` 65535 /\
    0 <= c < 65535 /\
    (word_sum [232; 3; 0; 0; 0; 0; 0; 0; 7] + c + 1) `mod` 65535 = 0.
Proof.
  apply (createCheckSum_complements_word_sum (K := zk_constants) [232; 3; 0; 0; 0; 0; 0; 0; 7]).
  - cbn. lia.
  - repeat constructor; unfold Buffer.is_byte; lia.
Defined.

(** X2, an instance: two buffers of four bytes that differ in the third. *)
Lemma createCheckSum_detects_one_byte_witness :
  Utils.createCheckSum (K := zk_constants) ([232; 3] ++ 5 :: [9])
  <> Utils.createCheckSum (K := zk_constants) ([232; 3] ++ 6 :: [9]).
Proof.
  apply (createCheckSum_detects_one_byte (K := zk_constants) [232; 3] [9] 5 6).
  - cbn. lia.
  - repeat constructor; unfold Buffer.is_byte; lia.
  - unfold Buffer.is_byte; lia.
  - lia.
Defined.

(** ** The packed timestamp *)



(** ** The header builders read back *)

Section BuilderFacts.
Context {K : Constants}.
Import Buffer Utils.

Lemma writeUIntLE_Throw n buf v offset e :
  writeUIntLE n buf v offset = Throw e -> e = RangeError.
Proof. unfold writeUIntLE. repeat case_decide; congruence. Qed.

Lemma alloc_bytes n : Forall is_byte (alloc n).
Proof. apply Forall_replicate. unfold is_byte. lia. Qed.

(** What a header builder needs in order to return. *)
Lemma createUDPHeader_fits command sessionId replyId data frame :
  createUDPHeader command sessionId replyId data = Ok frame ->
  0 <= command < 65536 /\ 0 <= sessionId < 65536 /\ 0 <= replyId < 65536.
Proof.
  unfold createUDPHeader.
  destruct (writeUInt16LE _ command 0) as [b1|] eqn:E1; cbn [mbind Res_bind]; [|done].
  destruct (writeUInt16LE b1 0 2) as [b2|] eqn:E2; cbn [mbind Res_bind]; [|done].
  destruct (writeUInt16LE b2 sessionId 4) as [b3|] eqn:E3; cbn [mbind Res_bind]; [|done].
  destruct (writeUInt16LE b3 replyId 6) as [b4|] eqn:E4; cbn [mbind Res_bind]; [|done].
  intros _.
  apply writeUIntLE_Ok in E1 as (H1 & _), E3 as (H3 & _), E4 as (H4 & _).
  change (2 ^ (8 * Z.of_nat 2)) with 65536 in *. done.
Qed.

(** A builder throws nothing but range errors. *)
Lemma createUDPHeader_Throw command sessionId replyId data e :
  0 < USHRT_MAX -> Forall is_byte data ->
  createUDPHeader command sessionId replyId data = Throw e -> e = RangeError.
Proof.
  intros HU Hd. unfold createUDPHeader.
  destruct (writeUInt16LE _ command 0) as [b1|] eqn:E1; cbn [mbind Res_bind];
    [|intros [= <-]; by apply writeUIntLE_Throw in E1].
  destruct (writeUInt16LE b1 0 2) as [b2|] eqn:E2; cbn [mbind Res_bind];
    [|intros [= <-]; by apply writeUIntLE_Throw in E2].
  destruct (writeUInt16LE b2 sessionId 4) as [b3|] eqn:E3; cbn [mbind Res_bind];
    [|intros [= <-]; by apply writeUIntLE_Throw in E3].
  destruct (writeUInt16LE b3 replyId 6) as [b4|] eqn:E4; cbn [mbind Res_bind];
    [|intros [= <-]; by apply writeUIntLE_Throw in E4].
  assert (Forall is_byte (copy data b4 8)) as Hb.
  { apply copy_bytes; [done|].
    eapply writeUIntLE_bytes; [|exact E4]. eapply writeUIntLE_bytes; [|exact E3].
    eapply writeUIntLE_bytes; [|exact E2]. eapply writeUIntLE_bytes; [|exact E1].
    apply alloc_bytes. }
  destruct (createCheckSum_Ok _ HU Hb) as (c & -> & _). cbn [mbind Res_bind].
  destruct (writeUInt16LE _ c 2) as [b5|] eqn:E5; cbn [mbind Res_bind];
    [|intros [= <-]; by apply writeUIntLE_Throw in E5].
  intros E6. by apply writeUIntLE_Throw in E6.
Qed.

Lemma stamped_bytes command c sessionId replyId data :
  Forall is_byte data -> Forall is_byte (stamped command c sessionId replyId data).
Proof.
  intros Hd. unfold stamped. repeat (constructor; [apply cell_is_byte|]). done.
Qed.

Ltac prefix_cells n l :=
  lazymatch n with
  | O => constr:(@nil Z)
  | S ?n' =>
      lazymatch l with ?x :: ?l' => let r := prefix_cells n' l' in constr:(x :: r) end
  end.

Ltac read16 :=
  lazymatch goal with
  | |- context [readUIntLE ?b ?o 2] =>
      let pre := prefix_cells o b in
      let E := fresh "E" in
      eassert (readUIntLE b o 2 = Ok _) as E
        by (etrans; [apply (read16_cells pre) | by rewrite split16 by lia]);
      rewrite E; clear E; cbn [mbind Res_bind]
  end.

(** The header of an emitted frame, read back field by field. *)
Lemma decodeUDPHeader_stamped command c sessionId replyId data :
  0 <= command < 65536 -> 0 <= c < 65536 ->
  0 <= sessionId < 65536 -> 0 <= replyId < 65536 ->
  decodeUDPHeader (stamped command c sessionId replyId data)
  = Ok (mkUDPHeader command c sessionId replyId).
Proof.
  intros Hc Hcs Hs Hr. unfold decodeUDPHeader, stamped. by do 4 read16.
Qed.

(** X4.  A header builder returns exactly when command, session id and
    reply id fit 16 bits (and, for TCP, the inner frame is at most
    65535 bytes long); otherwise it throws a range error.  The frame is
    8 bytes longer than the body, 16 for TCP, and made of bytes. *)
Theorem header_builders_return_iff_fields_fit (command sessionId replyId : Z)
    (data : Buffer.t) :
  0 < USHRT_MAX <= 65536 -> Forall is_byte data ->
  let fits := 0 <= command < 65536 /\ 0 <= sessionId < 65536 /\ 0 <= replyId < 65536 in
  let short := Z.of_nat (length data) + 8 <= 65535 in
  (fits ->
   exists frame, createUDPHeader command sessionId replyId data = Ok frame /\
                 length frame = (8 + length data)%nat /\ Forall is_byte frame) /\
  (~ fits -> createUDPHeader command sessionId replyId data = Throw RangeError) /\
  (fits /\ short ->
   exists frame, createTCPHeader command sessionId replyId data = Ok frame /\
                 length frame = (16 + length data)%nat /\ Forall is_byte frame) /\
  (~ (fits /\ short) -> createTCPHeader command sessionId replyId data = Throw RangeError).
Proof.
  intros HU Hd fits short. subst fits short.
  assert (forall frame, createUDPHeader command sessionId replyId data = Ok frame ->
            length frame = (8 + length data)%nat /\ Forall is_byte frame) as Hframe.
  { intros frame E.
    destruct (createUDPHeader_fits _ _ _ _ _ E) as (Hc & Hs & Hr).
    destruct (createUDPHeader_Ok command sessionId replyId data) as (c & _ & _ & E');
      try done.
    rewrite E in E'. injection E' as ->. split; [done | by apply stamped_bytes]. }
  split; [|split; [|split]].
  - intros (Hc & Hs & Hr).
    destruct (createUDPHeader_Ok command sessionId replyId data) as (c & _ & _ & E);
      try done.
    eexists. split; [exact E|]. by apply Hframe.
  - intros Hno.
    destruct (createUDPHeader command sessionId replyId data) as [frame|e] eqn:E.
    + by apply createUDPHeader_fits in E.
    + f_equal. apply (createUDPHeader_Throw _ _ _ _ _ ltac:(lia) Hd E).
  - intros ((Hc & Hs & Hr) & Hlen).
    destruct (createUDPHeader_Ok command sessionId replyId data) as (c & _ & _ & E);
      try done.
    destruct (Hframe _ E) as [Hl Hb].
    rewrite (createTCPHeader_Ok _ _ _ _ _ E) by lia.
    eexists. split; [done|]. split.
    + rewrite !length_app, length_le_bytes, Hl. cbn. lia.
    + repeat apply Forall_app_2; try done.
      * repeat constructor; unfold is_byte; lia.
      * apply le_bytes_are_bytes.
      * repeat constructor; unfold is_byte; lia.
  - intros Hno. rewrite createTCPHeader_inner.
    destruct (createUDPHeader command sessionId replyId data) as [frame|e] eqn:E;
      cbn [mbind Res_bind].
    + destruct (Hframe _ eq_refl) as [Hl _].
      pose proof (createUDPHeader_fits _ _ _ _ _ E) as Hfit.
      unfold writeUInt16LE, writeUIntLE.
      change (2 ^ (8 * Z.of_nat 2)) with 65536.
      rewrite decide_False by lia. done.
    + f_equal. apply (createUDPHeader_Throw _ _ _ _ _ ltac:(lia) Hd E).
Qed.

Lemma decodeTCPHeader_prefixed len hi2 hi3 inner :
  0 <= len < 65536 ->
  decodeTCPHeader ([80; 80; 130; 125] ++ le_bytes 2 len ++ [hi2; hi3] ++ inner)
  = (h ← decodeUDPHeader inner;
     Ok (mkTCPHeader (commandId h) (checkSum h) (sessionId h) (replyId h) len)).
Proof.
  intros Hlen. unfold decodeTCPHeader, decodeUDPHeader.
  cbn [le_bytes app].
  assert (readUIntLE (80 :: 80 :: 130 :: 125 :: len `mod` 256 :: (len `div` 256) `mod` 256
                      :: hi2 :: hi3 :: inner) 4 2 = Ok len) as ->.
  { etrans; [apply (read16_cells [80; 80; 130; 125]) | by rewrite split16 by lia]. }
  cbn [mbind Res_bind].
  change (80 :: 80 :: 130 :: 125 :: len `mod` 256 :: (len `div` 256) `mod` 256
          :: hi2 :: hi3 :: inner)
    with ([80; 80; 130; 125; len `mod` 256; (len `div` 256) `mod` 256; hi2; hi3] ++ inner).
  set (pre := [80; 80; 130; 125; len `mod` 256; (len `div` 256) `mod` 256; hi2; hi3]).
  pose proof (readUIntLE_behind pre inner 0 2) as R0.
  pose proof (readUIntLE_behind pre inner 2 2) as R2.
  pose proof (readUIntLE_behind pre inner 4 2) as R4.
  pose proof (readUIntLE_behind pre inner 6 2) as R6.
  cbn [length Nat.add pre] in R0, R2, R4, R6. fold pre in R0, R2, R4, R6.
  rewrite R0, R2, R4, R6.
  repeat lazymatch goal with
  | |- context [mbind _ ?m] => destruct m; cbn [mbind Res_bind]; try done
  end.
Qed.

(** What a frame that was built looks like. *)
Lemma createUDPHeader_frame command sessionId replyId data frame :
  0 < USHRT_MAX <= 65536 -> Forall is_byte data ->
  createUDPHeader command sessionId replyId data = Ok frame ->
  exists c,
    createCheckSum (unstamped command sessionId replyId data) = Ok c /\
    frame = stamped command c sessionId ((replyId + 1) `rem` USHRT_MAX) data /\
    0 <= command < 65536 /\ 0 <= c < 65536 /\ 0 <= sessionId < 65536 /\
    0 <= (replyId + 1) `rem` USHRT_MAX < 65536.
Proof.
  intros HU Hd E.
  destruct (createUDPHeader_fits _ _ _ _ _ E) as (Hc & Hs & Hr).
  destruct (createUDPHeader_Ok command sessionId replyId data) as (c & Ec & Hcs & E');
    try done.
  rewrite E in E'. injection E' as ->.
  pose proof (Z.rem_bound_pos (replyId + 1) USHRT_MAX).
  exists c. repeat split; try done; lia.
Qed.

Lemma createTCPHeader_frame command sessionId replyId data frame :
  0 < USHRT_MAX <= 65536 -> Forall is_byte data ->
  createTCPHeader command sessionId replyId data = Ok frame ->
  exists inner,
    createUDPHeader command sessionId replyId data = Ok inner /\
    Z.of_nat (length inner) < 65536 /\
    frame = [80; 80; 130; 125] ++ le_bytes 2 (Z.of_nat (length inner)) ++ [0; 0] ++ inner.
Proof.
  intros HU Hd E. rewrite createTCPHeader_inner in E.
  destruct (createUDPHeader command sessionId replyId data) as [inner|] eqn:Ei;
    cbn [mbind Res_bind] in E; [|done].
  destruct (writeUInt16LE tcp_prefix _ 4) as [prefixBuf|] eqn:Ep;
    cbn [mbind Res_bind] in E; [|done].
  injection E as <-.
  pose proof Ep as Hp. apply writeUIntLE_Ok in Hp as (Hlen & _ & _).
  change (2 ^ (8 * Z.of_nat 2)) with 65536 in Hlen.
  unfold tcp_prefix in Ep.
  rewrite (write16_cells [80; 80; 130; 125] 19 0 [0; 0]) in Ep by lia.
  exists inner. split; [done|]. split; [lia|].
  injection Ep as <-. done.
Qed.

(** The header of a prefixed frame, read back. *)
Lemma decodeTCPHeader_stamped len command c sessionId replyId data :
  0 <= len < 65536 -> 0 <= command < 65536 -> 0 <= c < 65536 ->
  0 <= sessionId < 65536 -> 0 <= replyId < 65536 ->
  decodeTCPHeader ([80; 80; 130; 125] ++ le_bytes 2 len ++ [0; 0]
                   ++ stamped command c sessionId replyId data)
  = Ok (mkTCPHeader command c sessionId replyId len).
Proof.
  intros Hlen Hc Hcs Hs Hr.
  rewrite decodeTCPHeader_prefixed by done.
  by rewrite decodeUDPHeader_stamped by done.
Qed.

(** X5.  Decoding the header of a frame that [createUDPHeader] built
    gives back the command and the session id it was built for; the
    reply id read back is [(replyId + 1) % USHRT_MAX], and the checksum
    is the one of the frame as it stood before that stamp.  The body
    follows the eight header bytes unchanged. *)
Theorem decodeUDPHeader_of_built_frame (command sessionId replyId : Z)
    (data frame : Buffer.t) :
  0 < USHRT_MAX <= 65536 -> Forall is_byte data ->
  createUDPHeader command sessionId replyId data = Ok frame ->
  exists c,
    createCheckSum (unstamped command sessionId replyId data) = Ok c /\
    decodeUDPHeader frame
    = Ok (mkUDPHeader command c sessionId ((replyId + 1) `rem` USHRT_MAX)) /\
    decodeUDPHeader (subarray frame 0 8) = decodeUDPHeader frame /\
    subarray_from frame 8 = data.
Proof.
  intros HU Hd E.
  destruct (createUDPHeader_frame _ _ _ _ _ HU Hd E)
    as (c & Ec & -> & Hc & Hcs & Hs & Hr).
  exists c. split; [done|].
  rewrite decodeUDPHeader_stamped by lia. split; [done|]. split; [|done].
  unfold subarray, stamped. cbn [drop take Nat.sub]. rewrite take_0.
  fold (stamped command c sessionId ((replyId + 1) `rem` USHRT_MAX) []).
  by rewrite decodeUDPHeader_stamped by lia.
Qed.

(** X6.  A frame built by [createTCPHeader] is the frame that
    [createUDPHeader] builds for the same arguments behind an 8-byte
    prefix: [removeTcpHeader] gives that inner frame back, and
    [decodeTCPHeader] reads the inner frame's length (8 plus the body's)
    and the same four header fields as [decodeUDPHeader] reads from the
    inner frame. *)
Theorem createTCPHeader_wraps_udp_frame (command sessionId replyId : Z)
    (data frame : Buffer.t) :
  0 < USHRT_MAX <= 65536 -> Forall is_byte data ->
  createTCPHeader command sessionId replyId data = Ok frame ->
  exists inner c,
    createUDPHeader command sessionId replyId data = Ok inner /\
    removeTcpHeader frame = inner /\
    subarray_from frame 16 = data /\
    decodeUDPHeader inner
    = Ok (mkUDPHeader command c sessionId ((replyId + 1) `rem` USHRT_MAX)) /\
    decodeTCPHeader frame
    = Ok (mkTCPHeader command c sessionId ((replyId + 1) `rem` USHRT_MAX)
            (8 + Z.of_nat (length data))) /\
    decodeTCPHeader (subarray frame 0 16) = decodeTCPHeader frame.
Proof.
  intros HU Hd E.
  destruct (createTCPHeader_frame _ _ _ _ _ HU Hd E) as (inner & Ei & Hlen & ->).
  destruct (createUDPHeader_frame _ _ _ _ _ HU Hd Ei)
    as (c & Ec & -> & Hc & Hcs & Hs & Hr).
  set (r' := (replyId + 1) `rem` USHRT_MAX) in *.
  rewrite length_stamped in *.
  set (len := Z.of_nat (8 + length data)) in *.
  exists (stamped command c sessionId r' data), c.
  split; [done|]. split; [done|]. split; [done|].
  split; [by apply decodeUDPHeader_stamped; lia|].
  split.
  - rewrite decodeTCPHeader_stamped by lia. do 2 f_equal. lia.
  - rewrite decodeTCPHeader_stamped by lia.
    unfold subarray. cbn [le_bytes app drop take Nat.sub stamped]. rewrite take_0.
    fold (stamped command c sessionId r' []).
    change (80 :: 80 :: 130 :: 125 :: len `mod` 256 :: (len `div` 256) `mod` 256 :: 0 :: 0
            :: stamped command c sessionId r' [])
      with ([80; 80; 130; 125] ++ le_bytes 2 len ++ [0; 0]
            ++ stamped command c sessionId r' []).
    by rewrite decodeTCPHeader_stamped by lia.
Qed.

End BuilderFacts.

(** X4, an instance: a frame that is built, a command that does not fit 16 bits, and a
    negative reply id. *)
Lemma header_builders_return_iff_fields_fit_witness :
  (exists frame,
     Utils.createUDPHeader (K := zk_constants) 11 4660 1 [1; 2] = Ok frame /\
     length frame = 10%nat /\ Forall Buffer.is_byte frame) /\
  Utils.createUDPHeader (K := zk_constants) 65536 4660 1 [1; 2] = Throw RangeError /\
  Utils.createTCPHeader (K := zk_constants) 11 4660 (-1) [1; 2] = Throw RangeError.
Proof.
  split; [|split].
  - destruct (header_builders_return_iff_fields_fit (K := zk_constants) 11 4660 1 [1; 2])
      as (H & _); [cbn; lia | repeat constructor; lia |].
    apply H. lia.
  - destruct (header_builders_return_iff_fields_fit (K := zk_constants) 65536 4660 1 [1; 2])
      as (_ & H & _); [cbn; lia | repeat constructor; lia |].
    apply H. lia.
  - destruct (header_builders_return_iff_fields_fit (K := zk_constants) 11 4660 (-1) [1; 2])
      as (_ & _ & _ & H); [cbn; lia | repeat constructor; lia |].
    apply H. lia.
Defined.

(** X5, an instance: the frame built for command 11, session 4660 and reply id
    65534, whose reply id reads back as 0. *)
Lemma decodeUDPHeader_of_built_frame_witness :
  exists c,
    Utils.createCheckSum (K := zk_constants) (unstamped 11 4660 65534 [1; 2]) = Ok c /\
    Utils.decodeUDPHeader [11; 0; 191; 235; 52; 18; 0; 0; 1; 2]
    = Ok (Utils.mkUDPHeader 11 c 4660 ((65534 + 1) `rem` 65535)) /\
    Utils.decodeUDPHeader (Buffer.subarray [11; 0; 191; 235; 52; 18; 0; 0; 1; 2] 0 8)
    = Utils.decodeUDPHeader [11; 0; 191; 235; 52; 18; 0; 0; 1; 2] /\
    Buffer.subarray_from [11; 0; 191; 235; 52; 18; 0; 0; 1; 2] 8 = [1; 2].
Proof.
  apply (decodeUDPHeader_of_built_frame (K := zk_constants) 11 4660 65534 [1; 2]
           [11; 0; 191; 235; 52; 18; 0; 0; 1; 2]);
    [cbn; lia | repeat constructor; lia | reflexivity].
Defined.

(** X6, an instance: the TCP frame built for command 11 and a body of two bytes. *)
Lemma createTCPHeader_wraps_udp_frame_witness :
  let frame := [80; 80; 130; 125; 10; 0; 0; 0; 11; 0; 189; 235; 52; 18; 2; 0; 1; 2] in
  exists inner c,
    Utils.createUDPHeader (K := zk_constants) 11 4660 1 [1; 2] = Ok inner /\
    Utils.removeTcpHeader frame = inner /\
    Buffer.subarray_from frame 16 = [1; 2] /\
    Utils.decodeUDPHeader inner = Ok (Utils.mkUDPHeader 11 c 4660 ((1 + 1) `rem` 65535)) /\
    Utils.decodeTCPHeader frame
    = Ok (Utils.mkTCPHeader 11 c 4660 ((1 + 1) `rem` 65535) (8 + Z.of_nat (length [1; 2]))) /\
    Utils.decodeTCPHeader (Buffer.subarray frame 0 16) = Utils.decodeTCPHeader frame.
Proof.
  intros frame.
  apply (createTCPHeader_wraps_udp_frame (K := zk_constants) 11 4660 1 [1; 2] frame);
    [cbn; lia | repeat constructor; lia | reflexivity].
Defined.

(** ** The record decoders and the loops over a bulk payload *)

Section RecordFacts.
Context {K : Constants}.
Import Buffer Utils.

Lemma readUIntLE_inside buf offset n :
  (offset + n <= length buf)%nat -> returns (readUIntLE buf offset n).
Proof. intros H. unfold readUIntLE. rewrite decide_True by done. by eexists. Qed.

Lemma readUIntLE_outside buf offset n :
  (length buf < offset + n)%nat -> readUIntLE buf offset n = Throw RangeError.
Proof. intros H. unfold readUIntLE. by rewrite decide_False by lia. Qed.

Ltac reads :=
  repeat match goal with
  | |- context [readUIntLE ?buf ?o ?n] =>
      first
        [ let v := fresh "v" in
          let E := fresh "E" in
          destruct (readUIntLE_inside buf o n) as [v E];
          [first [lia | rewrite ?length_take, ?length_drop; lia] |];
          rewrite E; clear E; cbn [mbind Res_bind]
        | rewrite (readUIntLE_outside buf o n)
            by first [lia | rewrite ?length_take, ?length_drop; lia];
          cbn [mbind Res_bind] ]
  end.

Lemma decodeUserData28_returns buf :
  (28 <= length buf)%nat -> returns (decodeUserData28 buf).
Proof. intros H. unfold decodeUserData28. reads. by eexists. Qed.

Lemma decodeUserData72_returns buf :
  (39 <= length buf)%nat -> returns (decodeUserData72 buf).
Proof. intros H. unfold decodeUserData72. reads. by eexists. Qed.

Lemma decodeRecordData40_returns Date_toString buf :
  (31 <= length buf)%nat -> returns (decodeRecordData40 Date_toString buf).
Proof. intros H. unfold decodeRecordData40, readUInt32LE. reads. by eexists. Qed.

Lemma decodeRecordData16_returns buf :
  (8 <= length buf)%nat -> returns (decodeRecordData16 buf).
Proof. intros H. unfold decodeRecordData16, readUInt32LE. reads. by eexists. Qed.

(** X7.  The record decoders read at fixed offsets and do not check the
    length of what they are given.  [decodeUserData28] returns exactly
    on buffers of at least 28 bytes, [decodeUserData72] from 39 bytes
    on (its last fixed read is the card number at 35, the user id
    behind it is a slice), [decodeRecordData40] from 31 bytes on and
    [decodeRecordData16] from 8; on a shorter buffer each of them
    throws a range error. *)
Theorem record_decoders_need (Date_toString : DateArgs -> string) (buf : Buffer.t) :
  (if decide (28 <= length buf)%nat then returns (decodeUserData28 buf)
   else decodeUserData28 buf = Throw RangeError) /\
  (if decide (39 <= length buf)%nat then returns (decodeUserData72 buf)
   else decodeUserData72 buf = Throw RangeError) /\
  (if decide (31 <= length buf)%nat then returns (decodeRecordData40 Date_toString buf)
   else decodeRecordData40 Date_toString buf = Throw RangeError) /\
  (if decide (8 <= length buf)%nat then returns (decodeRecordData16 buf)
   else decodeRecordData16 buf = Throw RangeError).
Proof.
  repeat split; case_decide.
  - by apply decodeUserData28_returns.
  - unfold decodeUserData28.
    destruct (decide (2 <= length buf)%nat); [|by reads].
    destruct (decide (3 <= length buf)%nat); by reads.
  - by apply decodeUserData72_returns.
  - unfold decodeUserData72.
    destruct (decide (2 <= length buf)%nat); [|by reads].
    destruct (decide (3 <= length buf)%nat); by reads.
  - by apply decodeRecordData40_returns.
  - unfold decodeRecordData40, readUInt32LE.
    destruct (decide (2 <= length buf)%nat); by reads.
  - by apply decodeRecordData16_returns.
  - unfold decodeRecordData16, readUInt32LE.
    destruct (decide (2 <= length buf)%nat); by reads.
Qed.

End RecordFacts.

Section RecordLoopFacts.
Context {A : Type}.
Variable n : nat.
Variable decode : Buffer.t -> Res A.
Hypothesis n_positive : (0 < n)%nat.
Import Buffer.

Lemma record_count_lt data k :
  (k < record_count n data)%nat <-> (n <= length (drop (4 + n * k) data))%nat.
Proof.
  unfold record_count. rewrite length_drop. split.
  - intros Hk.
    assert (n * S k <= length data - 4)%nat; [|lia].
    pose proof (Nat.Div0.mul_div_le (length data - 4) n). nia.
  - intros Hn. apply Nat.div_le_lower_bound; lia.
Qed.

Lemma length_record_slice data k :
  (k < record_count n data)%nat -> length (record_slice n data k) = n.
Proof.
  intros Hk%record_count_lt. unfold record_slice, subarray.
  rewrite length_take. lia.
Qed.

Lemma record_slice_drop data k :
  subarray (drop (4 + n * k) data) 0 n = record_slice n data k.
Proof.
  unfold record_slice, subarray. rewrite drop_0. f_equal. lia.
Qed.

(** The loop decodes the records that are left, one after the other,
    and stops at the first that cannot be decoded. *)
Lemma decodeRecords_from_run data m k fuel acc :
  (forall i, (i < record_count n data)%nat -> returns (decode (record_slice n data i))) ->
  (k + m = record_count n data)%nat -> (m <= fuel)%nat ->
  exists rest,
    decodeRecords_from n decode fuel (drop (4 + n * k) data) acc = Ok (acc ++ rest) /\
    Forall2 (fun record i => decode (record_slice n data i) = Ok record) rest (seq k m).
Proof.
  intros Htotal. revert k fuel acc.
  induction m as [|m IH]; intros k fuel acc Hk Hfuel.
  - exists []. split; [|constructor]. rewrite app_nil_r.
    destruct fuel as [|fuel]; cbn [decodeRecords_from]; [done|].
    rewrite decide_False; [done|]. rewrite <- record_count_lt. lia.
  - destruct fuel as [|fuel]; [lia|]. cbn [decodeRecords_from].
    rewrite decide_True by (rewrite <- record_count_lt; lia).
    rewrite record_slice_drop.
    destruct (Htotal k) as [record E]; [lia|]. rewrite E. cbn [mbind Res_bind].
    unfold subarray_from. rewrite drop_drop.
    replace (4 + n * k + n)%nat with (4 + n * S k)%nat by lia.
    destruct (IH (S k) fuel (acc ++ [record])) as (rest & E' & Hrest); [lia..|].
    exists (record :: rest). split.
    + rewrite E'. by rewrite <- app_assoc.
    + cbn [seq]. by constructor.
Qed.

Lemma decodeRecords_run data :
  (forall i, (i < record_count n data)%nat -> returns (decode (record_slice n data i))) ->
  exists records,
    decodeRecords n decode data = Ok records /\
    length records = record_count n data /\
    Forall2 (fun record i => decode (record_slice n data i) = Ok record)
      records (seq 0 (record_count n data)).
Proof.
  intros Htotal. unfold decodeRecords, subarray_from.
  destruct (decodeRecords_from_run data (record_count n data) 0
              (length (drop 4 data) + 1) [] Htotal) as (records & E & Hrec); [lia| |].
  - unfold record_count. rewrite length_drop.
    pose proof (Nat.Div0.div_le_upper_bound (length data - 4) n (length data - 4)).
    assert ((length data - 4) / n <= length data - 4)%nat; [|lia].
    apply Nat.Div0.div_le_upper_bound. nia.
  - rewrite Nat.mul_0_r, Nat.add_0_r in E.
    exists records. split; [done|]. split; [|done].
    apply Forall2_length in Hrec. by rewrite length_seq in Hrec.
Qed.

End RecordLoopFacts.

Section RecordLoops.
Context {K : Constants}.
Import Buffer Utils.

(** X8.  The loops of [getUsers] and [getAttendances] over the payload of
    a bulk read never throw, whatever the payload is.  They pass over
    its first four bytes and decode the records that follow, 72 and 40
    bytes each over TCP, 28 and 8 or 16 (small-data mode or not) over
    UDP, as many as fit whole; bytes left over are dropped.  The i-th
    result is what the decoder gives on the i-th slice, and each
    attendance record carries the ip of the device. *)
Theorem bulk_payload_records (Date_toString : DateArgs -> string)
    (isSmallDataMode : bool) (ip : string) (data : Buffer.t) :
  (exists users,
     ZKLibTCP.getUsers_records data = Ok users /\
     length users = record_count 72 data /\
     Forall2 (fun user i => decodeUserData72 (record_slice 72 data i) = Ok user)
       users (seq 0 (record_count 72 data))) /\
  (exists records,
     ZKLibTCP.getAttendances_records Date_toString ip data = Ok records /\
     length records = record_count 40 data /\
     Forall2 (fun record i =>
                exists r, decodeRecordData40 Date_toString (record_slice 40 data i) = Ok r /\
                          record = (r, ip))
       records (seq 0 (record_count 40 data))) /\
  (exists users,
     ZKLibUDP.getUsers_records data = Ok users /\
     length users = record_count 28 data /\
     Forall2 (fun user i => decodeUserData28 (record_slice 28 data i) = Ok user)
       users (seq 0 (record_count 28 data))) /\
  (let size := if isSmallDataMode then 8%nat else 16%nat in
   exists records,
     ZKLibUDP.getAttendances_records isSmallDataMode ip data = Ok records /\
     length records = record_count size data /\
     Forall2 (fun record i =>
                exists r, decodeRecordData16 (record_slice size data i) = Ok r /\
                          record = (r, ip))
       records (seq 0 (record_count size data))).
Proof.
  split; [|split; [|split]].
  - apply decodeRecords_run; [lia|]. intros i Hi.
    apply decodeUserData72_returns.
    rewrite length_record_slice by (done || lia). lia.
  - unfold ZKLibTCP.getAttendances_records.
    destruct (decodeRecords_run 40
                (fun recordData =>
                   record ← decodeRecordData40 Date_toString recordData; Ok (record, ip))
                ltac:(lia) data) as (records & E & Hlen & Hrec).
    + intros i Hi.
      destruct (decodeRecordData40_returns Date_toString (record_slice 40 data i))
        as [r ->]; [|by eexists].
      rewrite length_record_slice by (done || lia). lia.
    + exists records. split; [done|]. split; [done|].
      eapply Forall2_impl; [exact Hrec|]. cbn. intros record i.
      destruct (decodeRecordData40 _ _) as [r|]; cbn; [|done].
      intros [= <-]. by exists r.
  - apply decodeRecords_run; [lia|]. intros i Hi.
    apply decodeUserData28_returns.
    rewrite length_record_slice by (done || lia). lia.
  - intros size. unfold ZKLibUDP.getAttendances_records. fold size.
    assert (0 < size)%nat as Hsize by (subst size; destruct isSmallDataMode; lia).
    assert (8 <= size)%nat as Hsize' by (subst size; destruct isSmallDataMode; lia).
    destruct (decodeRecords_run size
                (fun recordData => record ← decodeRecordData16 recordData; Ok (record, ip))
                Hsize data) as (records & E & Hlen & Hrec).
    + intros i Hi.
      destruct (decodeRecordData16_returns (record_slice size data i))
        as [r ->]; [|by eexists].
      rewrite length_record_slice by done. lia.
    + exists records. split; [done|]. split; [done|].
      eapply Forall2_impl; [exact Hrec|]. cbn. intros record i.
      destruct (decodeRecordData16 _) as [r|]; cbn; [|done].
      intros [= <-]. by exists r.
Qed.

End RecordLoops.

(** ** The listeners of [getRealTimeLogs] *)

Section RealTimeFacts.
Context {K : Constants}.
Import Buffer Utils.

Lemma readUIntLE_byte buf i :
  (i < length buf)%nat -> readUIntLE buf i 1 = Ok (get buf i).
Proof.
  intros Hi. unfold readUIntLE, get. rewrite decide_True by lia. f_equal.
  destruct (lookup_lt_is_Some_2 buf i Hi) as [b Hb].
  rewrite (nth_lookup_Some _ _ _ _ Hb).
  rewrite (drop_S _ _ _ Hb). cbn [take le_value]. rewrite take_0. cbn. lia.
Qed.

Lemma get_subarray buf start stop i :
  (start + i < stop)%nat -> (stop <= length buf)%nat ->
  get (subarray buf start stop) i = get buf (start + i).
Proof.
  intros Hi Hstop. unfold get, subarray. rewrite !nth_lookup.
  rewrite lookup_take_lt by lia. by rewrite lookup_drop.
Qed.

Lemma parseHexToTime_at buf offset :
  (offset + 6 <= length buf)%nat ->
  parseHexToTime (subarray buf offset (offset + 6)) = Ok (hex_time_at buf offset).
Proof.
  intros Hlen. unfold parseHexToTime, hex_time_at.
  assert (length (subarray buf offset (offset + 6)) = 6%nat) as Hl.
  { unfold subarray. rewrite length_take, length_drop. lia. }
  rewrite !readUIntLE_byte by lia. cbn [mbind Res_bind].
  rewrite !get_subarray by lia. by rewrite Nat.add_0_r.
Qed.

Lemma parseHexToTime_short hex :
  (length hex < 6)%nat -> parseHexToTime hex = Throw RangeError.
Proof.
  intros Hlen. unfold parseHexToTime.
  repeat (lazymatch goal with
          | |- context [readUIntLE ?buf ?o ?n] =>
              destruct (decide (o + n <= length buf)%nat);
              [ rewrite (readUIntLE_byte buf o) by lia
              | rewrite (readUIntLE_outside buf o n) by lia ]
          end; cbn [mbind Res_bind]; try done).
  lia.
Qed.

(** X9.  The listener that [getRealTimeLogs] puts on the TCP socket
    does nothing on a chunk that is not an event frame, or that has 16
    bytes at most.  On an event frame of more than 16 bytes it decodes
    a real-time record: when the frame without its TCP prefix has fewer
    than 40 bytes the decoder throws a range error inside the listener;
    otherwise the callback gets the text of bytes 8..16 up to the first
    NUL as the user id, and the time of the six bytes at 34. *)
Theorem tcp_realtime_listener (data : Buffer.t) :
  let payload := removeTcpHeader data in
  (checkNotEventTCP data = false \/ (length data <= 16)%nat ->
   ZKLibTCP.getRealTimeLogs_onData data = Ok None) /\
  (checkNotEventTCP data = true -> (16 < length data)%nat ->
   (length payload < 40)%nat ->
   ZKLibTCP.getRealTimeLogs_onData data = Throw RangeError) /\
  (checkNotEventTCP data = true -> (16 < length data)%nat ->
   (40 <= length payload)%nat ->
   ZKLibTCP.getRealTimeLogs_onData data
   = Ok (Some (RealTimeLog52.mk
                 (before_nul (toString_ascii (subarray payload 8 17)))
                 (hex_time_at payload 34)))).
Proof.
  intros payload. unfold ZKLibTCP.getRealTimeLogs_onData.
  split; [|split].
  - intros [->|Hlen]; [done|].
    destruct (checkNotEventTCP data); [|done]. cbn [negb].
    by rewrite decide_False by lia.
  - intros -> Hlen Hp. cbn [negb]. rewrite decide_True by done.
    unfold decodeRecordRealTimeLog52. fold payload.
    rewrite parseHexToTime_short; [done|].
    unfold subarray, subarray_from. rewrite length_take, !length_drop. lia.
  - intros -> Hlen Hp. cbn [negb]. rewrite decide_True by done.
    unfold decodeRecordRealTimeLog52. fold payload.
    assert (subarray (subarray_from payload 8) 26 (26 + 6) = subarray payload 34 (34 + 6))
      as ->.
    { unfold subarray, subarray_from. rewrite drop_drop. done. }
    rewrite parseHexToTime_at by lia. cbn [mbind Res_bind].
    reflexivity.
Qed.

Lemma decodeUDPHeader_Throw header e :
  decodeUDPHeader header = Throw e -> e = RangeError.
Proof.
  unfold decodeUDPHeader, readUIntLE.
  repeat (case_decide; cbn [mbind Res_bind]; try congruence).
Qed.

Lemma checkNotEventUDP_short data :
  (length data < 8)%nat -> checkNotEventUDP data = Throw RangeError.
Proof.
  intros Hlen. unfold checkNotEventUDP.
  destruct (decodeUDPHeader (subarray data 0 8)) as [h|e] eqn:E; cbn [mbind Res_bind].
  - apply decodeUDPHeader_length in E.
    unfold subarray in E. rewrite length_take, length_drop in E. lia.
  - by apply decodeUDPHeader_Throw in E as ->.
Qed.

(** X10.  The listener that [getRealTimeLogs] puts on the UDP socket
    throws a range error on a datagram of fewer than 8 bytes, the event
    check decoding the header unguarded.  It does nothing on a datagram
    that is not an event frame, nor on an event frame whose length is
    not 18; on an event frame of 18 bytes the callback gets the byte at
    8 as the user id and the time of the six bytes at 12. *)
Theorem udp_realtime_listener (data : Buffer.t) :
  ((length data < 8)%nat ->
   ZKLibUDP.getRealTimeLogs_onData data = Throw RangeError) /\
  (checkNotEventUDP data = Ok false ->
   ZKLibUDP.getRealTimeLogs_onData data = Ok None) /\
  (checkNotEventUDP data = Ok true -> length data <> 18%nat ->
   ZKLibUDP.getRealTimeLogs_onData data = Ok None) /\
  (checkNotEventUDP data = Ok true -> length data = 18%nat ->
   ZKLibUDP.getRealTimeLogs_onData data
   = Ok (Some (RealTimeLog18.mk (get data 8) (hex_time_at data 12)))).
Proof.
  unfold ZKLibUDP.getRealTimeLogs_onData. split; [|split; [|split]].
  - intros Hlen. by rewrite checkNotEventUDP_short.
  - by intros ->.
  - intros -> Hlen. cbn. by rewrite decide_False.
  - intros -> Hlen. cbn [mbind Res_bind negb]. rewrite decide_True by done.
    unfold decodeRecordRealTimeLog18.
    rewrite readUIntLE_byte by lia. cbn [mbind Res_bind].
    change 18%nat with (12 + 6)%nat. rewrite parseHexToTime_at by lia. done.
Qed.

End RealTimeFacts.

(** X9, an instance: an event frame of 17 bytes. *)
Lemma tcp_realtime_listener_witness :
  ZKLibTCP.getRealTimeLogs_onData (K := zk_constants)
    [244; 1; 0; 0; 1; 0; 0; 0; 0; 0; 0; 0; 0; 0; 0; 0; 0]
  = Throw RangeError.
Proof.
  destruct (tcp_realtime_listener (K := zk_constants)
              [244; 1; 0; 0; 1; 0; 0; 0; 0; 0; 0; 0; 0; 0; 0; 0; 0]) as (_ & H & _).
  apply H; [reflexivity | vm_compute; lia | vm_compute; lia].
Defined.

(** X10, an instance: an event frame of 18 bytes, of user 9. *)
Lemma udp_realtime_listener_witness :
  ZKLibUDP.getRealTimeLogs_onData (K := zk_constants)
    [244; 1; 0; 0; 1; 0; 0; 0; 9; 0; 0; 0; 24; 11; 2; 8; 30; 15]
  = Ok (Some (Utils.RealTimeLog18.mk 9 (Utils.mkDate 2024 10 2 8 30 15))).
Proof.
  destruct (udp_realtime_listener (K := zk_constants)
              [244; 1; 0; 0; 1; 0; 0; 0; 9; 0; 0; 0; 24; 11; 2; 8; 30; 15])
    as (_ & _ & _ & H).
  apply H; reflexivity.
Defined.

(** ** What [setUser] sends, decoded again *)

Section UserRecordFacts.
Context {K : Constants}.
Variable Number_toString9 : string -> string.
Import Buffer Utils.

Lemma toString_ascii_codes s rest :
  is_ascii s -> toString_ascii (Js.codes s ++ rest) = (s +:+ toString_ascii rest)%string.
Proof.
  unfold is_ascii. induction s as [|c s IH]; intros Ha; cbn [Js.codes app toString_ascii].
  - done.
  - apply Forall_cons in Ha as [Hc Ha].
    change (String c s +:+ toString_ascii rest)%string
      with (String c (s +:+ toString_ascii rest)).
    rewrite IH by done.
    f_equal. pose proof (code_is_byte c) as Hb. unfold is_byte in Hb.
    rewrite Z.mod_small by lia. unfold Js.code.
    by rewrite N2Z.id, ascii_N_embedding.
Qed.

Lemma code_zero c : Js.code c = 0 <-> c = zero.
Proof.
  unfold Js.code. split.
  - intros H. assert (N_of_ascii c = 0%N) as H0 by lia.
    by rewrite <- (ascii_N_embedding c), H0.
  - by intros ->.
Qed.

Lemma before_nul_append s t :
  nul_free s -> before_nul (s +:+ t) = (s +:+ before_nul t)%string.
Proof.
  unfold nul_free. induction s as [|c s IH]; intros Hn; cbn [Js.codes String.append before_nul].
  - done.
  - apply Forall_cons in Hn as [Hc Hn].
    change (String c s +:+ t)%string with (String c (s +:+ t)).
    change (String c s +:+ before_nul t)%string with (String c (s +:+ before_nul t)).
    cbn [before_nul].
    rewrite decide_False by (by rewrite <- code_zero). by rewrite IH.
Qed.

Lemma append_empty (s : string) : (s +:+ "")%string = s.
Proof.
  induction s as [|c s IH]; [done|].
  change (String c s +:+ "")%string with (String c (s +:+ "")). by rewrite IH.
Qed.

(** A text written into zeroed bytes reads back as itself. *)
Lemma before_nul_padding s k :
  is_ascii s -> nul_free s ->
  before_nul (toString_ascii (Js.codes s ++ replicate k 0)) = s.
Proof.
  intros Ha Hn. rewrite toString_ascii_codes, before_nul_append by done.
  destruct k; cbn; apply append_empty.
Qed.

(** Reading on stops at a zero byte. *)
Lemma before_nul_cut l rest :
  before_nul (toString_ascii (l ++ 0 :: rest)) = before_nul (toString_ascii l).
Proof.
  induction l as [|b l IH]; cbn [app toString_ascii before_nul]; [done|].
  case_decide; [done | by rewrite IH].
Qed.

Lemma codes_substring s m : Js.codes (substring 0 m s) = take m (Js.codes s).
Proof.
  revert s. induction m as [|m IH]; intros [|c s]; cbn; try done.
  by rewrite IH.
Qed.

Lemma write_to_end_into_zeros pre s n offset :
  offset = length pre ->
  Js.write_to_end (pre ++ replicate n 0) s offset = pre ++ padded n (Js.utf8_fit n s).
Proof.
  intros ->. unfold Js.write_to_end, Js.write, padded.
  rewrite length_app, length_replicate.
  replace (length pre + n - length pre)%nat with n by lia.
  rewrite Nat.min_id.
  pose proof (length_utf8_fit n s) as Hfit.
  by rewrite copy_into_zeros by done.
Qed.

Ltac sizes :=
  rewrite ?length_app, ?length_le_bytes, ?length_replicate,
    ?length_padded by (rewrite length_codes; lia);
  cbn [length]; lia.

(** The whole payload built for an input that passes the checks. *)
Lemma setUser_command_string_bytes uid userid name password role cardno u c :
  Js.parseInt uid = Some u -> 1 <= u <= 3000 ->
  Js.parseInt cardno = Some c -> 0 <= c <= 65535 ->
  0 <= role <= 255 ->
  (String.length userid <= 9)%nat -> (String.length name <= 24)%nat ->
  (String.length password <= 8)%nat -> (String.length cardno <= 10)%nat ->
  is_ascii password -> is_ascii name ->
  ZKLibTCP.setUser_command_string Number_toString9 uid userid name password role cardno
  = Ok (user_record_head u role password name c
        ++ padded 24 (Js.utf8_fit 24
             (if decide (userid = EmptyString) then EmptyString
              else Number_toString9 userid))).
Proof.
  intros Hu Hur Hc Hcr Hrole Hlu Hln Hlp Hlc Hap Han.
  unfold ZKLibTCP.setUser_command_string.
  assert (ZKLibTCP.invalid_input uid userid name password cardno = false) as ->.
  { apply not_true_is_false. rewrite invalid_input_spec, Hu.
    intros [[= ->]|[(n & [= <-] & H)|[H|[H|[H|H]]]]]; lia. }
  rewrite Hu, Hc. cbn [Js.to_int default id].
  unfold writeUInt16LE, writeUInt32LE.
  change (alloc 72) with ([] ++ replicate 72 0).
  rewrite writeUIntLE_into_zeros by (first [done | lia | change (2 ^ _) with 65536; lia]).
  cbn [mbind Res_bind app].
  rewrite writeUIntLE_into_zeros by (first [sizes | change (2 ^ _) with 65536; lia]).
  cbn [mbind Res_bind].
  rewrite (le_bytes2_small role) by done.
  change ([role; 0] ++ replicate (72 - 2 - 2) 0) with ([role] ++ replicate 69 0).
  rewrite !app_assoc.
  rewrite write_ascii by (first [done | sizes]).
  rewrite !app_assoc.
  rewrite write_ascii by (first [done | sizes]).
  rewrite !app_assoc.
  rewrite writeUIntLE_into_zeros by (first [sizes | change (2 ^ _) with 65536; lia]).
  cbn [mbind Res_bind].
  change (69 - 8 - 24 - 2)%nat with (3 + 32)%nat. rewrite replicate_add, !app_assoc.
  rewrite writeUIntLE_into_zeros by (first [sizes | change (2 ^ _) with 4294967296; lia]).
  cbn [mbind Res_bind].
  change (32 - 4)%nat with (4 + 24)%nat. rewrite replicate_add, !app_assoc.
  rewrite write_to_end_into_zeros by sizes.
  do 2 f_equal. unfold user_record_head.
  rewrite (le_bytes4_small c) by done. rewrite <- !app_assoc. done.
Qed.

End UserRecordFacts.

Section UserRecordRoundTrip.
Context {K : Constants}.
Variable Number_toString9 : string -> string.
Import Buffer Utils.

Lemma before_nul_codes s : is_ascii s -> nul_free s ->
  before_nul (toString_ascii (Js.codes s)) = s.
Proof.
  intros Ha Hn. pose proof (before_nul_padding s 0 Ha Hn) as E.
  cbn [replicate] in E. by rewrite app_nil_r in E.
Qed.

(** The text that starts a field of [n] zero-padded bytes. *)
Lemma before_nul_field s n rest :
  is_ascii s -> nul_free s -> (String.length s < n)%nat ->
  before_nul (toString_ascii (padded n (Js.codes s) ++ rest)) = s.
Proof.
  intros Ha Hn Hlen. unfold padded. rewrite length_codes.
  destruct (n - String.length s)%nat as [|k] eqn:E; [lia|].
  cbn [replicate]. rewrite <- app_assoc. cbn [app].
  rewrite before_nul_cut. by apply before_nul_codes.
Qed.

(** X11.  What [setUser] sends reads back through [decodeUserData72].
    For an input that passes its checks, with a uid in 1..3000, a card
    number up to 65535, a role of one byte and a password, a name and a
    user-id text that are 7-bit and free of NUL, the payload decodes to
    the uid, the role, the password and the card number that were
    given.  The name comes back as given unless it has exactly 24
    characters: it then fills its field, no NUL ends it, and the
    decoder, which reads the name from offset 11 to the end of the
    record, runs on into the bytes of the card number.  The user id
    comes back as the first nine characters of
    [Number(userid).toString(9)], the text that [setUser] writes. *)
Theorem setUser_record_decodes (uid userid name password : string) (role : Z)
    (cardno : string) (u c : Z) :
  Js.parseInt uid = Some u -> 1 <= u <= 3000 ->
  Js.parseInt cardno = Some c -> 0 <= c <= 65535 ->
  0 <= role <= 255 ->
  (String.length userid <= 9)%nat -> (String.length name <= 24)%nat ->
  (String.length password <= 8)%nat -> (String.length cardno <= 10)%nat ->
  is_ascii password -> is_ascii name -> nul_free password -> nul_free name ->
  let text :=
    if decide (userid = EmptyString) then EmptyString else Number_toString9 userid in
  is_ascii text -> nul_free text -> (String.length text <= 24)%nat ->
  exists payload,
    ZKLibTCP.setUser_command_string Number_toString9 uid userid name password role cardno
    = Ok payload /\
    decodeUserData72 payload
    = Ok (mkUser72 u role password
            (if decide (String.length name = 24%nat)
             then (name +:+ before_nul (toString_ascii (le_bytes 2 c)))%string
             else name)
            c (substring 0 9 text)).
Proof.
  intros Hu Hur Hc Hcr Hrole Hlu Hln Hlp Hlc Hap Han Hnp Hnn text Hat Hnt Hlt.
  eexists. split.
  { by apply (setUser_command_string_bytes Number_toString9 uid userid name password
                role cardno u c). }
  fold text. unfold user_record_head.
  set (P := padded 8 (Js.codes password)).
  set (Nm := padded 24 (Js.codes name)).
  set (T := padded 24 (Js.utf8_fit 24 text)).
  assert (length P = 8%nat) as HP by (apply length_padded; rewrite length_codes; lia).
  assert (length Nm = 24%nat) as HN by (apply length_padded; rewrite length_codes; lia).
  rewrite <- !app_assoc. cbn [app].
  unfold decodeUserData72.
  (* uid *)
  assert (readUIntLE (le_bytes 2 u ++ role :: P ++ Nm ++ le_bytes 4 c ++ 0
                      :: replicate 8 0 ++ T) 0 2 = Ok u) as ->.
  { pose proof (readUIntLE_app [] (le_bytes 2 u)
                  ([role] ++ P ++ Nm ++ le_bytes 4 c ++ [0] ++ replicate 8 0 ++ T)) as E.
    rewrite length_le_bytes in E. cbn [length app] in E. rewrite E.
    rewrite le_value_le_bytes; [done|]. change (2 ^ _) with 65536. lia. }
  cbn [mbind Res_bind].
  (* role *)
  assert (readUIntLE (le_bytes 2 u ++ role :: P ++ Nm ++ le_bytes 4 c ++ 0
                      :: replicate 8 0 ++ T) 2 1 = Ok role) as ->.
  { pose proof (readUIntLE_app (le_bytes 2 u) [role]
                  (P ++ Nm ++ le_bytes 4 c ++ [0] ++ replicate 8 0 ++ T)) as E.
    rewrite length_le_bytes in E. cbn [length app] in E. rewrite E. cbn. f_equal. lia. }
  cbn [mbind Res_bind].
  (* card number *)
  assert (readUIntLE (le_bytes 2 u ++ role :: P ++ Nm ++ le_bytes 4 c ++ 0
                      :: replicate 8 0 ++ T) 35 4 = Ok c) as ->.
  { pose proof (readUIntLE_app (le_bytes 2 u ++ [role] ++ P ++ Nm) (le_bytes 4 c)
                  ([0] ++ replicate 8 0 ++ T)) as E.
    rewrite !length_app, !length_le_bytes, HP, HN in E. cbn [length Nat.add] in E.
    rewrite <- !app_assoc in E. cbn [app] in E. rewrite E.
    rewrite le_value_le_bytes; [done|]. change (2 ^ _) with 4294967296. lia. }
  cbn [mbind Res_bind].
  change (le_bytes 2 u) with [u `mod` 256; (u `div` 256) `mod` 256].
  do 2 f_equal.
  - (* password *)
    unfold subarray. cbn [app drop Nat.sub].
    rewrite drop_0, take_app_length' by done.
    subst P. unfold padded. by apply before_nul_padding.
  - (* name *)
    unfold subarray_from. cbn [app drop].
    rewrite drop_app_length' by done.
    case_decide as Hfull.
    + subst Nm. unfold padded. rewrite length_codes, Hfull.
      cbn [Nat.sub replicate]. rewrite app_nil_r.
      rewrite toString_ascii_codes, before_nul_append by done. f_equal.
      rewrite (le_bytes4_small c) by done. rewrite <- app_assoc.
      apply before_nul_cut.
    + subst Nm. apply before_nul_field; [done..|lia].
  - (* user id *)
    unfold subarray. cbn [app drop].
    rewrite drop_app_ge, HP by lia. cbn [Nat.sub].
    rewrite drop_app_ge, HN by lia. cbn [Nat.sub].
    rewrite drop_app_ge, length_le_bytes by (rewrite length_le_bytes; lia). cbn [Nat.sub drop].
    rewrite drop_app_ge, length_replicate by (rewrite length_replicate; lia).
    cbn [Nat.sub Nat.add]. rewrite drop_0.
    subst T. rewrite utf8_fit_ascii by done. unfold padded.
    rewrite take_app, take_replicate, <- codes_substring.
    apply before_nul_padding.
    + unfold is_ascii. rewrite codes_substring. by apply Forall_take.
    + unfold nul_free. rewrite codes_substring. by apply Forall_take.
Qed.

End UserRecordRoundTrip.

(** X11, an instance: a short name, which comes back as given, and a name of 24
    characters, which comes back with the byte of the card number 70, an F,
    behind it.  The user id 9 comes back as 10. *)
Lemma setUser_record_decodes_witness :
  (exists payload,
     ZKLibTCP.setUser_command_string Js.decimal_toString9 "12" "9" "Al" "pw" 14 "70"
     = Ok payload /\
     Utils.decodeUserData72 payload = Ok (Utils.mkUser72 12 14 "pw" "Al" 70 "10")) /\
  (exists payload,
     ZKLibTCP.setUser_command_string Js.decimal_toString9 "12" "9"
       "ABCDEFGHIJKLMNOPQRSTUVWX" "pw" 14 "70"
     = Ok payload /\
     Utils.decodeUserData72 payload
     = Ok (Utils.mkUser72 12 14 "pw" "ABCDEFGHIJKLMNOPQRSTUVWXF" 70 "10")).
Proof.
  split.
  - apply (setUser_record_decodes Js.decimal_toString9 "12" "9" "Al" "pw" 14 "70" 12 70);
      try reflexivity; try lia; cbn; try lia;
      repeat constructor; done.
  - apply (setUser_record_decodes Js.decimal_toString9 "12" "9"
             "ABCDEFGHIJKLMNOPQRSTUVWX" "pw" 14 "70" 12 70);
      try reflexivity; try lia; cbn; try lia;
      repeat constructor; done.
Defined.

(** ** Bulk reads over TCP: the reassembly *)

Section TcpReassemblyFacts.
Context {K : Constants}.
Import Buffer Utils.

Section Sound.
Variable N : Z.
Hypothesis chunk_positive : 0 < MAX_CHUNK.
Hypothesis size_nonneg : 0 <= N.

Lemma tcp_cut_up :
  0 <= ZKLibTCP.remain_of N < MAX_CHUNK /\
  0 <= ZKLibTCP.numberChunks_of N /\
  N = ZKLibTCP.numberChunks_of N * MAX_CHUNK + ZKLibTCP.remain_of N /\
  ZKLibTCP.totalPackets_of N
  = ZKLibTCP.numberChunks_of N + (if decide (ZKLibTCP.remain_of N > 0) then 1 else 0).
Proof.
  destruct (cut_up N chunk_positive size_nonneg) as (E1 & E2 & _).
  rewrite E1, E2. pose proof (Z.mod_pos_bound N MAX_CHUNK chunk_positive).
  pose proof (Z.div_mod N MAX_CHUNK). unfold ZKLibTCP.totalPackets_of. rewrite E1, E2.
  assert (0 <= N `div` MAX_CHUNK) by (apply Z.div_pos; lia).
  repeat split; lia.
Qed.

(** The gathered data never exceeds the announced size. *)
Lemma tcp_sound_length st :
  tcp_sound N st -> Z.of_nat (length (ZKLibTCP.replyData st)) <= N.
Proof.
  intros (_ & _ & Ht & Hl & _). rewrite Hl.
  destruct tcp_cut_up as (Hr & Hn & HN & Htot).
  repeat case_decide; nia.
Qed.

Ltac same_sound Hs :=
  destruct Hs as (? & ? & ? & ? & ?); unfold tcp_sound;
  do 4 (split; [done|]); done.

Lemma tcp_resolve_sound r st :
  tcp_sound N st ->
  Z.of_nat (length (ZKLibTCP.data r)) <= N ->
  (ZKLibTCP.err r = None ->
   ZKLibTCP.totalPackets_of N <> 0 /\
   Z.of_nat (length (ZKLibTCP.data r))
   = (ZKLibTCP.totalPackets_of N - 1) * MAX_CHUNK + ZKLibTCP.remain_of N) ->
  tcp_sound N (ZKLibTCP.resolve r st).
Proof.
  intros Hs Hle Hr. unfold ZKLibTCP.resolve.
  destruct (ZKLibTCP.settled st) eqn:E; [exact Hs|].
  destruct Hs as (H1 & H2 & H3 & H4 & _).
  unfold tcp_sound. cbn [ZKLibTCP.size ZKLibTCP.remain ZKLibTCP.totalPackets
    ZKLibTCP.replyData ZKLibTCP.settled].
  split; [done|]. split; [done|]. split; [done|]. split; [done|].
  intros r' [= <-]. by split.
Qed.

Lemma tcp_internalCallback_error e st :
  tcp_sound N st ->
  tcp_sound N (ZKLibTCP.internalCallback (ZKLibTCP.replyData st) (Some e) st).
Proof.
  intros Hs. unfold ZKLibTCP.internalCallback.
  apply tcp_resolve_sound; [| by apply tcp_sound_length | by intros [=]].
  same_sound Hs.
Qed.

Lemma tcp_packet_done_sound realTotalBuffer st :
  tcp_sound N st ->
  (ZKLibTCP.totalPackets st > 1 /\ Z.of_nat (length realTotalBuffer) = MAX_CHUNK + 8)
  \/ (ZKLibTCP.totalPackets st = 1
      /\ Z.of_nat (length realTotalBuffer) = ZKLibTCP.remain st + 8) ->
  tcp_sound N (ZKLibTCP.packet_done realTotalBuffer st).
Proof.
  intros Hs Hcond. pose proof Hs as (H1 & H2 & H3 & H4 & H5).
  destruct tcp_cut_up as (Hr & Hn & HN & Htot).
  unfold ZKLibTCP.packet_done.
  set (replyData := ZKLibTCP.replyData st ++ subarray_from realTotalBuffer 8).
  set (st1 := ZKLibTCP.mkReassembly _ _ _ _ _ _ _ _ _ _).
  assert (Z.of_nat (length replyData)
          = Z.of_nat (length (ZKLibTCP.replyData st)) + (Z.of_nat (length realTotalBuffer) - 8))
    as Hlen.
  { unfold replyData, subarray_from. rewrite length_app, length_drop.
    destruct Hcond as [[_ E]|[_ E]]; lia. }
  assert (tcp_sound N st1) as Hs1.
  { unfold tcp_sound, st1. cbn [ZKLibTCP.size ZKLibTCP.remain ZKLibTCP.totalPackets
      ZKLibTCP.replyData ZKLibTCP.settled].
    split; [done|]. split; [done|]. split; [destruct Hcond as [[? _]|[? _]]; lia|].
    split; [|exact H5].
    fold replyData. rewrite Hlen, H4. rewrite H2 in Hcond.
    destruct Hcond as [[Ht ->]|[Ht ->]]; repeat case_decide; lia. }
  lazymatch goal with
  | |- context [decide (?x <= 0)] => destruct (decide (x <= 0)) as [Hdone|Hdone]
  end; [|exact Hs1].
  unfold ZKLibTCP.internalCallback.
  apply tcp_resolve_sound.
  - same_sound Hs1.
  - apply (tcp_sound_length st1 Hs1).
  - intros _. cbn [ZKLibTCP.data].
    destruct Hs1 as (_ & _ & Ht1 & Hl1 & _).
    unfold st1 in Ht1, Hl1. cbn [ZKLibTCP.totalPackets ZKLibTCP.replyData] in Ht1, Hl1.
    fold replyData in Hl1.
    assert (ZKLibTCP.totalPackets st - 1 = 0) as E0 by lia.
    rewrite E0 in Hl1. rewrite decide_True in Hl1 by done.
    assert (ZKLibTCP.totalPackets_of N <> 0) as Hne by lia.
    rewrite decide_False in Hl1 by done. done.
Qed.

Lemma tcp_react_sound i st st' :
  tcp_sound N st -> ZKLibTCP.react i st = Ok st' -> tcp_sound N st'.
Proof.
  intros Hs. destruct i as [reply| |]; cbn [ZKLibTCP.react].
  - unfold ZKLibTCP.handleOnData.
    destruct (checkNotEventTCP reply); [by intros [= <-]|].
    assert (tcp_sound N (ZKLibTCP.set_timer (Some true) st)) as Hs'.
    { same_sound Hs. }
    destruct (readUIntLE _ 4 2) as [packetLength|]; cbn [mbind Res_bind]; [|done].
    assert (forall a b, tcp_sound N (ZKLibTCP.set_buffers a b (ZKLibTCP.set_timer (Some true) st)))
      as Hbuf.
    { intros a b. same_sound Hs. }
    case_decide; [|intros [= <-]; apply Hbuf].
    case_decide as Hcond; intros [= <-]; [|apply Hbuf].
    by apply tcp_packet_done_sound.
  - intros [= <-]. unfold ZKLibTCP.timer_expires.
    destruct (ZKLibTCP.timer st); [|done]. by apply tcp_internalCallback_error.
  - intros [= <-]. unfold ZKLibTCP.socket_closes.
    destruct (ZKLibTCP.closeListener st); [|done].
    set (st1 := ZKLibTCP.mkReassembly _ _ _ _ _ _ _ _ _ _).
    change (ZKLibTCP.replyData st) with (ZKLibTCP.replyData st1).
    apply tcp_internalCallback_error. same_sound Hs.
Qed.

Lemma tcp_reacts_sound inputs st st' :
  tcp_sound N st -> ZKLibTCP.reacts inputs st = Ok st' -> tcp_sound N st'.
Proof.
  revert st. induction inputs as [|i inputs IH]; intros st Hs; cbn.
  - by intros [= <-].
  - destruct (ZKLibTCP.react i st) as [st1|] eqn:E; cbn; [|done].
    apply IH. by eapply tcp_react_sound.
Qed.

Lemma tcp_reassembly_of_sound : tcp_sound N (ZKLibTCP.reassembly_of N).
Proof.
  destruct tcp_cut_up as (Hr & Hn & HN & Htot).
  unfold tcp_sound, ZKLibTCP.reassembly_of. cbn.
  repeat split; try done; try (case_decide; lia).
  repeat case_decide; lia.
Qed.

End Sound.

(** X12.  A bulk read over TCP of announced size [N] never delivers more
    than [N] bytes, whatever chunks arrive and whichever timer fires or
    the socket closes.  It is resolved without an error only for
    [N > 0], and then with exactly [N] bytes when [N] is not a multiple
    of [MAX_CHUNK]; when [N] is a multiple of [MAX_CHUNK] the last
    packet counted is one of [remain = 0] bytes, and what is delivered
    without an error has [N - MAX_CHUNK] bytes. *)
Theorem tcp_reassembly_delivers (N : Z) (inputs : list ZKLibTCP.input)
    (st : ZKLibTCP.Reassembly) (r : ZKLibTCP.BulkResult) :
  0 < MAX_CHUNK -> 0 <= N ->
  ZKLibTCP.reacts inputs (ZKLibTCP.reassembly_of N) = Ok st ->
  ZKLibTCP.settled st = Some r ->
  Z.of_nat (length (ZKLibTCP.data r)) <= N /\
  (ZKLibTCP.err r = None ->
   0 < N /\
   Z.of_nat (length (ZKLibTCP.data r))
   = if decide (N `mod` MAX_CHUNK = 0) then N - MAX_CHUNK else N).
Proof.
  intros HM HN Hrun Hr.
  pose proof (tcp_reacts_sound N HM HN inputs _ st (tcp_reassembly_of_sound N HM HN) Hrun)
    as (_ & _ & _ & _ & Hs).
  destruct (Hs r Hr) as [Hle Hok]. split; [done|].
  intros Herr. destruct (Hok Herr) as [Hne ->].
  destruct (tcp_cut_up N HM HN) as (Hrem & Hn & HNeq & Htot).
  destruct (cut_up N HM HN) as (E1 & _). rewrite <- E1.
  repeat case_decide; split; nia.
Qed.

End TcpReassemblyFacts.

(** X12, an instance: three bytes announced, and delivered by one frame. *)
Lemma tcp_reassembly_delivers_witness :
  let frame := [80; 80; 130; 125; 19; 0; 0; 0; 221; 5; 0; 0; 0; 0; 0; 0;
                3; 0; 0; 0; 0; 0; 0; 0; 7; 8; 9] in
  exists st r,
    ZKLibTCP.reacts (K := zk_constants) [ZKLibTCP.Chunk frame]
      (ZKLibTCP.reassembly_of (K := zk_constants) 3) = Ok st /\
    ZKLibTCP.settled st = Some r /\ ZKLibTCP.err r = None /\
    Z.of_nat (length (ZKLibTCP.data r)) = 3.
Proof.
  intros frame.
  exists (ZKLibTCP.mkReassembly 3 3 0 [7; 8; 9] [] []
            (Some (ZKLibTCP.mkResult [7; 8; 9] None)) None true [(3, 3)]),
         (ZKLibTCP.mkResult [7; 8; 9] None).
  split; [reflexivity|]. split; [reflexivity|]. split; [reflexivity|].
  destruct (tcp_reassembly_delivers (K := zk_constants) 3 [ZKLibTCP.Chunk frame]
              (ZKLibTCP.mkReassembly 3 3 0 [7; 8; 9] [] []
                 (Some (ZKLibTCP.mkResult [7; 8; 9] None)) None true [(3, 3)])
              (ZKLibTCP.mkResult [7; 8; 9] None)) as [_ H];
    [cbn; lia | lia | reflexivity | reflexivity |].
  destruct (H eq_refl) as [_ Hlen]. exact Hlen.
Defined.

Section TcpSinglePacket.
Context {K : Constants}.
Import Buffer Utils.

Variables lead tail header skipped body : list Z.
Hypothesis length_lead : length lead = 4%nat.
Hypothesis length_tail : length tail = 2%nat.
Hypothesis length_header : length header = 8%nat.
Hypothesis length_skipped : length skipped = 8%nat.
Hypothesis body_fits : Z.of_nat (length body) + 16 < 65536.

Let frame := tcp_data_frame lead tail header skipped body.

Lemma length_tcp_data_frame : length frame = (length body + 24)%nat.
Proof.
  unfold frame, tcp_data_frame. rewrite !length_app, length_le_bytes. lia.
Qed.

Lemma tcp_data_frame_length_field a :
  (6 <= length a)%nat -> a `prefix_of` frame ->
  readUIntLE a 4 2 = Ok (Z.of_nat (length body) + 16).
Proof.
  intros Ha [b Hb].
  assert (a = take (length a) frame) as ->.
  { rewrite Hb. by rewrite take_app_length. }
  assert (length a <= length frame)%nat.
  { rewrite Hb, length_app. lia. }
  rewrite readUIntLE_take by lia.
  unfold frame, tcp_data_frame.
  pose proof (readUIntLE_app lead (le_bytes 2 (Z.of_nat (length body) + 16))
                (tail ++ header ++ skipped ++ body)) as E.
  rewrite length_lead, length_le_bytes in E. rewrite E.
  rewrite le_value_le_bytes; [done|]. change (2 ^ _) with 65536. lia.
Qed.

Lemma tcp_data_frame_payload :
  subarray frame 16 (Z.to_nat (8 + (Z.of_nat (length body) + 16))) = skipped ++ body.
Proof.
  unfold subarray, frame, tcp_data_frame.
  rewrite !app_assoc.
  rewrite <- (app_assoc _ skipped body).
  rewrite drop_app_length'
    by (rewrite !length_app, length_le_bytes; lia).
  apply take_ge. rewrite length_app. lia.
Qed.

(** A first part of the frame is kept for later. *)
Lemma tcp_handleOnData_part st a :
  checkNotEventTCP a = false ->
  (6 <= length (ZKLibTCP.totalBuffer st ++ a))%nat ->
  ZKLibTCP.totalBuffer st ++ a `prefix_of` frame ->
  (length (ZKLibTCP.totalBuffer st ++ a) < length frame)%nat ->
  ZKLibTCP.handleOnData a st
  = Ok (ZKLibTCP.set_buffers (ZKLibTCP.totalBuffer st ++ a) (ZKLibTCP.realTotalBuffer st)
          (ZKLibTCP.set_timer (Some true) st)).
Proof.
  intros Hev Hlen Hpre Hshort. unfold ZKLibTCP.handleOnData. rewrite Hev.
  cbn [ZKLibTCP.set_timer ZKLibTCP.totalBuffer ZKLibTCP.realTotalBuffer
    ZKLibTCP.totalPackets ZKLibTCP.remain].
  rewrite (tcp_data_frame_length_field _ Hlen Hpre). cbn [mbind Res_bind].
  rewrite length_tcp_data_frame in Hshort.
  by rewrite decide_False by lia.
Qed.

(** The part that completes the frame completes the packet. *)
Lemma tcp_handleOnData_last st b :
  checkNotEventTCP b = false ->
  ZKLibTCP.totalBuffer st ++ b = frame ->
  ZKLibTCP.totalPackets st = 1 -> ZKLibTCP.remain st = Z.of_nat (length body) ->
  ZKLibTCP.realTotalBuffer st = [] -> ZKLibTCP.replyData st = [] ->
  ZKLibTCP.settled st = None -> ZKLibTCP.progress st = [] ->
  exists st',
    ZKLibTCP.handleOnData b st = Ok st' /\
    ZKLibTCP.settled st' = Some (ZKLibTCP.mkResult body None) /\
    ZKLibTCP.progress st' = [(Z.of_nat (length body), ZKLibTCP.size st)].
Proof.
  intros Hev Hall Htp Hrem Hreal Hreply Hsettled Hprogress.
  unfold ZKLibTCP.handleOnData. rewrite Hev.
  cbn [ZKLibTCP.set_timer ZKLibTCP.totalBuffer ZKLibTCP.realTotalBuffer
    ZKLibTCP.totalPackets ZKLibTCP.remain].
  rewrite Hall, Hreal, Htp, Hrem.
  rewrite (tcp_data_frame_length_field frame)
    by (rewrite ?length_tcp_data_frame; done || lia).
  cbn [mbind Res_bind].
  rewrite decide_True by (rewrite length_tcp_data_frame; lia).
  rewrite tcp_data_frame_payload. cbn [app].
  rewrite decide_True by (right; split; [done|]; rewrite length_app; lia).
  unfold ZKLibTCP.packet_done.
  cbn [ZKLibTCP.set_timer ZKLibTCP.totalBuffer ZKLibTCP.realTotalBuffer
    ZKLibTCP.totalPackets ZKLibTCP.remain ZKLibTCP.replyData ZKLibTCP.size
    ZKLibTCP.settled ZKLibTCP.timer ZKLibTCP.closeListener ZKLibTCP.progress].
  rewrite Hreply, Hsettled, Hprogress, Htp.
  unfold subarray_from. rewrite drop_app_length' by done. cbn [app].
  rewrite decide_True by lia.
  eexists. split; [done|].
  unfold ZKLibTCP.internalCallback, ZKLibTCP.resolve. cbn. done.
Qed.

End TcpSinglePacket.

Section TcpSinglePacketTheorem.
Context {K : Constants}.
Import Buffer Utils.

Lemma reassembly_of_small N :
  0 < N < MAX_CHUNK ->
  ZKLibTCP.reassembly_of N
  = ZKLibTCP.mkReassembly N N 1 [] [] [] None (Some false) true [].
Proof.
  intros HN. unfold ZKLibTCP.reassembly_of, ZKLibTCP.totalPackets_of,
    ZKLibTCP.numberChunks_of, ZKLibTCP.remain_of.
  rewrite Z.rem_small by lia. rewrite Z.sub_diag, Z.div_0_l by lia.
  by rewrite decide_True by lia.
Qed.

(** X13.  A bulk read over TCP of [N] bytes, [0 < N < MAX_CHUNK], that
    receives its one data frame (four bytes, the 16-bit length of what
    follows the first eight, two bytes, an 8-byte header, eight bytes
    that are skipped, [N] bytes of data) is resolved with exactly those
    [N] bytes, without an error, and reports the progress [(N, N)]
    once.  The same holds when the frame arrives cut in two chunks, the
    first of at least six bytes, neither of them read as an event
    frame. *)
Theorem tcp_reassembly_joins_parts (lead tail header skipped body : list Z) :
  let N := Z.of_nat (length body) in
  let frame := tcp_data_frame lead tail header skipped body in
  0 < N < MAX_CHUNK -> N + 16 < 65536 ->
  length lead = 4%nat -> length tail = 2%nat ->
  length header = 8%nat -> length skipped = 8%nat ->
  (checkNotEventTCP frame = false ->
   exists st,
     ZKLibTCP.reacts [ZKLibTCP.Chunk frame] (ZKLibTCP.reassembly_of N) = Ok st /\
     ZKLibTCP.settled st = Some (ZKLibTCP.mkResult body None) /\
     ZKLibTCP.progress st = [(N, N)]) /\
  (forall a b,
     a ++ b = frame -> (6 <= length a)%nat -> b <> [] ->
     checkNotEventTCP a = false -> checkNotEventTCP b = false ->
     exists st,
       ZKLibTCP.reacts [ZKLibTCP.Chunk a; ZKLibTCP.Chunk b] (ZKLibTCP.reassembly_of N)
       = Ok st /\
       ZKLibTCP.settled st = Some (ZKLibTCP.mkResult body None) /\
       ZKLibTCP.progress st = [(N, N)]).
Proof.
  intros N frame HN Hfit Hlead Htail Hheader Hskipped.
  rewrite reassembly_of_small by done. split.
  - intros Hev. cbn [ZKLibTCP.reacts ZKLibTCP.react].
    destruct (tcp_handleOnData_last lead tail header skipped body Hlead Htail Hheader
                Hskipped Hfit
                (ZKLibTCP.mkReassembly N N 1 [] [] [] None (Some false) true []) frame)
      as (st & E & Hs & Hp); try done.
    fold frame in E. rewrite E. cbn [mbind Res_bind]. by exists st.
  - intros a b Hab Ha Hb Heva Hevb. cbn [ZKLibTCP.reacts ZKLibTCP.react].
    rewrite (tcp_handleOnData_part lead tail header skipped body Hlead Htail Hheader
               Hskipped Hfit);
      cbn [ZKLibTCP.totalBuffer app]; try done.
    + cbn [mbind Res_bind].
      destruct (tcp_handleOnData_last lead tail header skipped body Hlead Htail Hheader
                  Hskipped Hfit
                  (ZKLibTCP.set_buffers a []
                     (ZKLibTCP.set_timer (Some true)
                        (ZKLibTCP.mkReassembly N N 1 [] [] [] None (Some false) true [])))
                  b)
        as (st & E & Hs & Hp); try done.
      cbn [ZKLibTCP.realTotalBuffer] in *. rewrite E. cbn [mbind Res_bind]. by exists st.
    + by exists b.
    + fold frame. rewrite <- Hab, length_app. destruct b; [done | cbn; lia].
Qed.

End TcpSinglePacketTheorem.

(** X13, an instance: a frame that carries three bytes, cut after its seventh byte. *)
Lemma tcp_reassembly_joins_parts_witness :
  exists st,
    ZKLibTCP.reacts (K := zk_constants)
      [ZKLibTCP.Chunk [80; 80; 130; 125; 19; 0; 0];
       ZKLibTCP.Chunk [0; 221; 5; 0; 0; 0; 0; 0; 0; 3; 0; 0; 0; 0; 0; 0; 0; 7; 8; 9]]
      (ZKLibTCP.reassembly_of (K := zk_constants) 3) = Ok st /\
    ZKLibTCP.settled st = Some (ZKLibTCP.mkResult [7; 8; 9] None) /\
    ZKLibTCP.progress st = [(3, 3)].
Proof.
  destruct (tcp_reassembly_joins_parts (K := zk_constants)
              [80; 80; 130; 125] [0; 0] [221; 5; 0; 0; 0; 0; 0; 0]
              [3; 0; 0; 0; 0; 0; 0; 0] [7; 8; 9]) as [_ H];
    [cbn; lia | cbn; lia | reflexivity..|].
  apply (H [80; 80; 130; 125; 19; 0; 0]
           [0; 221; 5; 0; 0; 0; 0; 0; 0; 3; 0; 0; 0; 0; 0; 0; 0; 7; 8; 9]);
    [reflexivity | cbn; lia | done | reflexivity | reflexivity].
Defined.

(** ** [requestData] over UDP *)

Section RequestDataFacts.
Context {K : Constants}.
Import Buffer Utils.

Lemma settle_Resolved o rq d :
  ZKLibUDP.outcome (ZKLibUDP.settle o rq) = Resolved d ->
  ZKLibUDP.outcome rq = Resolved d \/ (ZKLibUDP.outcome rq = Pending /\ o = Resolved d).
Proof.
  unfold ZKLibUDP.settle. destruct (ZKLibUDP.outcome rq) eqn:E; cbn; rewrite ?E; auto.
Qed.

(** Only [handleOnData] resolves the promise, and only with a datagram
    it takes as the reply. *)
Lemma request_react_Resolved i rq rq' d :
  ZKLibUDP.request_react i rq = Ok rq' ->
  ZKLibUDP.outcome rq' = Resolved d ->
  ZKLibUDP.outcome rq = Resolved d \/ (i = ZKLibUDP.Datagram d /\ taken_as_reply d).
Proof.
  destruct i as [[code|]|data|id]; cbn [ZKLibUDP.request_react].
  - intros [= <-] [?|[_ [=]]]%settle_Resolved. by left.
  - intros [= <-]. by left.
  - destruct (ZKLibUDP.listening rq); [|intros [= <-]; by left].
    unfold ZKLibUDP.requestData_handleOnData.
    destruct (checkNotEventUDP data) as [[|]|] eqn:Ev; cbn [mbind Res_bind];
      [intros [= <-]; by left| |done].
    case_decide as Hlen; intros [= <-].
    + unfold ZKLibUDP.requestData_internalCallback.
      intros [?|[_ [= <-]]]%settle_Resolved; [by left|]. right. by repeat split.
    + by left.
  - destruct (list_find _ _) as [[? [? message]]|]; intros [= <-]; [|by left].
    intros [?|[_ [=]]]%settle_Resolved. by left.
Qed.

Lemma request_reacts_Resolved inputs rq rq' d :
  ZKLibUDP.request_reacts inputs rq = Ok rq' ->
  ZKLibUDP.outcome rq' = Resolved d ->
  ZKLibUDP.outcome rq = Resolved d \/ (ZKLibUDP.Datagram d ∈ inputs /\ taken_as_reply d).
Proof.
  revert rq. induction inputs as [|i inputs IH]; intros rq; cbn.
  - intros [= <-]. by left.
  - destruct (ZKLibUDP.request_react i rq) as [rq1|] eqn:E; cbn; [|done].
    intros Hrun Hd. destruct (IH _ Hrun Hd) as [H1|[Hin Ht]].
    + destruct (request_react_Resolved _ _ _ _ E H1) as [?|[-> Ht]]; [by left|].
      right. split; [apply elem_of_cons; by left | done].
    + right. split; [apply elem_of_cons; by right | done].
Qed.

(** What the callers of [requestData] read from the reply is there. *)
Lemma taken_as_reply_readable d :
  taken_as_reply d ->
  (exists h, decodeUDPHeader (subarray d 0 8) = Ok h /\ commandId h <> CMD_REG_EVENT) /\
  returns (readUIntLE (subarray_from d 8) 1 4).
Proof.
  intros [Hev Hlen]. split.
  - unfold checkNotEventUDP in Hev.
    destruct (decodeUDPHeader (subarray d 0 8)) as [h|]; cbn in Hev; [|done].
    exists h. split; [done|]. injection Hev as Hev. by apply bool_decide_eq_false in Hev.
  - apply readUIntLE_inside. unfold subarray_from. rewrite length_drop. lia.
Qed.

(** While the promise is pending and the listener is on, a datagram
    that is passed over changes neither. *)
Lemma clearTimeout_one_timer rq :
  one_timer rq -> ZKLibUDP.timers (ZKLibUDP.clearTimeout rq) = [].
Proof.
  unfold one_timer. cbn. induction 1 as [|timer timers Ht _ IH]; [done|].
  rewrite filter_cons. by rewrite decide_False by (by intros []).
Qed.

Lemma request_passed_over rq data :
  passed_over data ->
  ZKLibUDP.outcome rq = Pending -> ZKLibUDP.listening rq = true -> one_timer rq ->
  exists rq',
    ZKLibUDP.request_react (ZKLibUDP.Datagram data) rq = Ok rq' /\
    ZKLibUDP.outcome rq' = Pending /\ ZKLibUDP.listening rq' = true /\ one_timer rq'.
Proof.
  intros Hp Ho Hl Ht. cbn [ZKLibUDP.request_react]. rewrite Hl.
  unfold ZKLibUDP.requestData_handleOnData.
  destruct Hp as [->|[-> Hlen]]; cbn [mbind Res_bind].
  - by exists rq.
  - rewrite decide_False by lia. eexists. split; [done|]. split; [done|]. split; [done|].
    unfold one_timer, ZKLibUDP.setTimeout.
    cbn [ZKLibUDP.timers ZKLibUDP.sendTimeoutId ZKLibUDP.nextTimer].
    rewrite (clearTimeout_one_timer rq Ht). by repeat constructor.
Qed.

Lemma request_taken rq data :
  taken_as_reply data ->
  ZKLibUDP.outcome rq = Pending -> ZKLibUDP.listening rq = true -> one_timer rq ->
  exists rq',
    ZKLibUDP.request_react (ZKLibUDP.Datagram data) rq = Ok rq' /\
    ZKLibUDP.outcome rq' = Resolved data /\ ZKLibUDP.listening rq' = false /\
    ZKLibUDP.timers rq' = [].
Proof.
  intros [Hev Hlen] Ho Hl Ht. cbn [ZKLibUDP.request_react]. rewrite Hl.
  unfold ZKLibUDP.requestData_handleOnData. rewrite Hev. cbn [mbind Res_bind].
  rewrite decide_True by done. eexists. split; [done|].
  unfold ZKLibUDP.requestData_internalCallback, ZKLibUDP.settle, ZKLibUDP.off.
  cbn [ZKLibUDP.outcome ZKLibUDP.clearTimeout]. rewrite Ho.
  cbn [ZKLibUDP.outcome ZKLibUDP.listening ZKLibUDP.timers ZKLibUDP.sendTimeoutId].
  split; [done|]. split; [done|].
  pose proof (clearTimeout_one_timer rq Ht) as E.
  unfold ZKLibUDP.clearTimeout in *.
  cbn [ZKLibUDP.timers ZKLibUDP.sendTimeoutId] in *. by rewrite E.
Qed.

(** With the listener off, datagrams change nothing. *)
Lemma request_not_listening later rq :
  ZKLibUDP.listening rq = false ->
  ZKLibUDP.request_reacts (ZKLibUDP.Datagram <$> later) rq = Ok rq.
Proof.
  intros Hl. induction later as [|data later IH]; [done|].
  cbn [fmap list_fmap ZKLibUDP.request_reacts ZKLibUDP.request_react]. by rewrite Hl.
Qed.

Lemma request_run_passed_over passed rest rq :
  Forall passed_over passed ->
  ZKLibUDP.outcome rq = Pending -> ZKLibUDP.listening rq = true -> one_timer rq ->
  exists rq',
    ZKLibUDP.request_reacts ((ZKLibUDP.Datagram <$> passed) ++ rest) rq
    = ZKLibUDP.request_reacts rest rq' /\
    ZKLibUDP.outcome rq' = Pending /\ ZKLibUDP.listening rq' = true /\ one_timer rq'.
Proof.
  intros Hp. revert rq. induction Hp as [|data passed Hd _ IH]; intros rq Ho Hl Ht.
  - by exists rq.
  - cbn [fmap list_fmap app ZKLibUDP.request_reacts].
    destruct (request_passed_over rq data Hd Ho Hl Ht) as (rq1 & -> & Ho1 & Hl1 & Ht1).
    cbn [mbind Res_bind]. by apply IH.
Qed.

(** X14.  [requestData] of the UDP transport is resolved only with a
    datagram it received, one that is not an event frame and has at
    least 13 bytes; the header of such a datagram and the size field
    behind it, which [readWithBuffer] reads next, are readable.  With a
    socket, once the send went through, event frames and shorter
    datagrams are passed over, the first other datagram is the reply,
    no timer is left running, and nothing that follows changes the
    outcome.  Without a socket the request is rejected at once with
    "Socket is not initialized" and nothing is sent. *)
Theorem udp_requestData_reply (msg : Buffer.t) (this : ZKLibUDP.t) :
  (forall inputs rq d,
     ZKLibUDP.request_reacts inputs (snd (ZKLibUDP.requestData msg this)) = Ok rq ->
     ZKLibUDP.outcome rq = Resolved d ->
     ZKLibUDP.Datagram d ∈ inputs /\ taken_as_reply d /\
     (exists h, decodeUDPHeader (subarray d 0 8) = Ok h /\ commandId h <> CMD_REG_EVENT) /\
     returns (readUIntLE (subarray_from d 8) 1 4)) /\
  (is_Some (ZKLibUDP.socket this) ->
   forall passed d later,
     Forall passed_over passed -> taken_as_reply d ->
     exists rq,
       ZKLibUDP.request_reacts
         (ZKLibUDP.Sent None :: (ZKLibUDP.Datagram <$> passed)
          ++ ZKLibUDP.Datagram d :: (ZKLibUDP.Datagram <$> later))
         (snd (ZKLibUDP.requestData msg this)) = Ok rq /\
       ZKLibUDP.outcome rq = Resolved d /\ ZKLibUDP.timers rq = []) /\
  (ZKLibUDP.socket this = None ->
   ZKLibUDP.requestData msg this
   = (this, ZKLibUDP.mkRequest (Rejected (Raised (Error "Socket is not initialized")))
              false None [] 0)).
Proof.
  split; [|split].
  - intros inputs rq d Hrun Hd.
    destruct (request_reacts_Resolved _ _ _ _ Hrun Hd) as [H0|[Hin Ht]].
    + unfold ZKLibUDP.requestData in H0. by destruct (ZKLibUDP.socket this).
    + split; [done|]. split; [done|]. by apply taken_as_reply_readable.
  - intros [s Hs] passed d later Hp Hd.
    unfold ZKLibUDP.requestData. rewrite Hs. cbn [snd].
    cbn [ZKLibUDP.request_reacts ZKLibUDP.request_react mbind Res_bind].
    set (rq0 := ZKLibUDP.setTimeout _ _).
    destruct (request_run_passed_over passed
                (ZKLibUDP.Datagram d :: (ZKLibUDP.Datagram <$> later)) rq0 Hp)
      as (rq1 & -> & Ho1 & Hl1 & Ht1); [done | done | by repeat constructor |].
    cbn [ZKLibUDP.request_reacts].
    destruct (request_taken rq1 d Hd Ho1 Hl1 Ht1) as (rq2 & -> & Ho2 & Hl2 & Ht2).
    cbn [mbind Res_bind]. rewrite request_not_listening by done. by exists rq2.
  - intros Hs. unfold ZKLibUDP.requestData. by rewrite Hs.
Qed.

End RequestDataFacts.

(** X14, an instance: an event frame, the reply, and an event frame behind it. *)
Lemma udp_requestData_reply_witness :
  let this := ZKLibUDP.set_socket (Some (ZKLibUDP.mkSock None)) (ZKLibUDP.new 5000) in
  let event := [244; 1; 0; 0; 1; 0; 0; 0] in
  let reply := [220; 5; 0; 0; 0; 0; 0; 0; 0; 3; 0; 0; 0] in
  exists rq,
    ZKLibUDP.request_reacts (K := zk_constants)
      (ZKLibUDP.Sent None :: (ZKLibUDP.Datagram <$> [event])
       ++ ZKLibUDP.Datagram reply :: (ZKLibUDP.Datagram <$> [event]))
      (snd (ZKLibUDP.requestData [1; 2; 3] this)) = Ok rq /\
    ZKLibUDP.outcome rq = Resolved reply /\ ZKLibUDP.timers rq = [].
Proof.
  intros this event reply.
  destruct (udp_requestData_reply (K := zk_constants) [1; 2; 3] this) as (_ & H & _).
  apply H.
  - by eexists.
  - repeat constructor.
  - split; [reflexivity | cbn; lia].
Defined.

(** ** [disconnect], the dispatch of the facade, the socket's life, error names *)

Section DisconnectFacts.
Context {K : Constants}.
Import Buffer Utils.

(** X15.  [disconnect()] drops whatever the EXIT command is rejected
    with and closes the socket.  Over TCP it is never rejected; over
    UDP it is not either, as long as the socket was not closed before:
    on a socket closed already, [close] throws and [disconnect()] is
    rejected with ERR_SOCKET_DGRAM_NOT_RUNNING.  Without a socket the
    UDP transport resolves to [true] having sent nothing; the TCP
    transport sends nothing either, and its promise never settles if
    the EXIT frame can be built (the write is skipped and no timer is
    set).  With a socket, [disconnect()] resolves to [true] as soon as
    the peer answers, the write fails or the timer fires. *)
Theorem disconnect_outcomes (tcp : ZKLibTCP.t) (udp : ZKLibUDP.t) (net : NetReply) :
  (forall r, snd (ZKLibTCP.disconnect tcp net) <> Rejected r) /\
  (forall r, snd (ZKLibUDP.disconnect true udp net) <> Rejected r) /\
  (forall running,
     ZKLibUDP.socket udp = None ->
     snd (ZKLibUDP.disconnect running udp net) = Resolved true /\
     ZKLibUDP.wire (fst (ZKLibUDP.disconnect running udp net)) = ZKLibUDP.wire udp) /\
  (ZKLibTCP.socket tcp = None ->
   (snd (ZKLibTCP.disconnect tcp net) = Pending <->
    exists frame,
      createTCPHeader CMD_EXIT (ZKLibTCP.sessionId_number (tcp_stepped tcp CMD_EXIT))
        (ZKLibTCP.replyId (tcp_stepped tcp CMD_EXIT)) [] = Ok frame) /\
   ZKLibTCP.wire (fst (ZKLibTCP.disconnect tcp net)) = ZKLibTCP.wire tcp) /\
  (net <> Silence \/ ZKLibTCP.timeout tcp <> 0 -> is_Some (ZKLibTCP.socket tcp) ->
   snd (ZKLibTCP.disconnect tcp net) = Resolved true) /\
  (net <> Silence \/ ZKLibUDP.timeout udp <> 0 ->
   snd (ZKLibUDP.disconnect true udp net) = Resolved true) /\
  (net <> Silence \/ ZKLibUDP.timeout udp <> 0 -> is_Some (ZKLibUDP.socket udp) ->
   snd (ZKLibUDP.disconnect false udp net)
   = Rejected (Raised (SocketError "ERR_SOCKET_DGRAM_NOT_RUNNING"))).
Proof.
  unfold ZKLibTCP.disconnect, ZKLibUDP.disconnect, ZKLibTCP.closeSocket,
    ZKLibUDP.closeSocket, ZKLibTCP.executeCmd, ZKLibUDP.executeCmd,
    ZKLibTCP.writeMessage, ZKLibUDP.writeMessage, tcp_stepped,
    ZKLibTCP.socket_write, ZKLibUDP.socket_send.
  destruct tcp as [ttimeout tsid trid tsock tstatus twire].
  destruct udp as [utimeout usid urid usock uwire].
  cbn [ZKLibTCP.socket ZKLibUDP.socket ZKLibTCP.timeout ZKLibUDP.timeout
    ZKLibTCP.wire ZKLibUDP.wire].
  split; [|split; [|split; [|split; [|split; [|split]]]]].
  - intros r. repeat (first [case_decide | case_match]; simplify_eq; cbn in *; try done).
  - intros r. repeat (first [case_decide | case_match]; simplify_eq; cbn in *; try done).
  - intros running Hs.
    repeat (first [case_decide | case_match]; simplify_eq; cbn in *; try done).
  - intros Hs. split; [split|].
    + repeat (first [case_decide | case_match]; simplify_eq; cbn in *; try done); eauto.
    + intros [frame E].
      repeat (first [case_decide | case_match]; simplify_eq; cbn in *; try done).
    + repeat (first [case_decide | case_match]; simplify_eq; cbn in *; try done).
  - intros Hnet [s Hs].
    repeat (first [case_decide | case_match]; simplify_eq; cbn in *; try done);
      by destruct Hnet.
  - intros Hnet.
    repeat (first [case_decide | case_match]; simplify_eq; cbn in *; try done);
      by destruct Hnet.
  - intros Hnet [s Hs].
    repeat (first [case_decide | case_match]; simplify_eq; cbn in *; try done);
      by destruct Hnet.
Qed.

End DisconnectFacts.

Section FacadeDispatch.
Context {A : Type}.
Variable tcp_method : ZKLib.operation -> ZKLib.callback A.
Variable udp_method : ZKLib.operation -> ZKLib.callback A.

(** X16.  How the facade runs an operation once a connection type is set.
    Over TCP, without a TCP socket it throws ECONNREFUSED "Socket isn't
    connected !" for "[TCP]"; with one it runs the TCP method and hands
    on its result, a rejection wrapped in a [ZKError] whose command
    reads "[TCP] undefined".  Over UDP it does the same with the UDP
    socket and method, except for the twelve operations that are given
    no UDP callback: these throw EINVALID "UDP callback not provided"
    and touch no transport. *)
Theorem facade_dispatch (op : ZKLib.operation) (this : ZKLib.t) :
  let refused (connectionTypeMsg : string) : ZKLib.t * ZKLib.Result A :=
    (this, ZKLib.Throws
             (ZKLib.mkZKError (ZKLib.IError ZKLib.ECONNREFUSED "Socket isn't connected !")
                connectionTypeMsg (ZKLib.ip this))) in
  (ZKLib.connectionType this = Some ZKLib.tcp ->
   (ZKLibTCP.socket (ZKLib.zklibTcp this) = None ->
    ZKLib.call tcp_method udp_method op this = refused "[TCP]") /\
   (is_Some (ZKLibTCP.socket (ZKLib.zklibTcp this)) ->
    ZKLib.call tcp_method udp_method op this = wrapped "[TCP]" (tcp_method op this))) /\
  (ZKLib.connectionType this = Some ZKLib.udp ->
   (ZKLibUDP.socket (ZKLib.zklibUdp this) = None ->
    ZKLib.call tcp_method udp_method op this = refused "[UDP]") /\
   (is_Some (ZKLibUDP.socket (ZKLib.zklibUdp this)) -> op ∈ tcp_only ->
    ZKLib.call tcp_method udp_method op this
    = (this, ZKLib.Throws
               (ZKLib.mkZKError (ZKLib.IError ZKLib.EINVALID "UDP callback not provided")
                  "[UDP]" (ZKLib.ip this)))) /\
   (is_Some (ZKLibUDP.socket (ZKLib.zklibUdp this)) -> op ∉ tcp_only ->
    ZKLib.call tcp_method udp_method op this = wrapped "[UDP]" (udp_method op this))).
Proof.
  intros refused. subst refused.
  unfold ZKLib.call, ZKLib.functionWrapper, ZKLib.createConnectionError, wrapped.
  split; intros ->.
  - split; [by intros ->|]. intros [s ->].
    by destruct (tcp_method op this) as [this' [a|e|]].
  - split; [by intros ->|]. split; intros [s ->] Hop.
    + unfold tcp_only in Hop.
      destruct op; cbn; try done;
        repeat (apply elem_of_cons in Hop as [Hop|Hop]; [discriminate|]);
        by apply elem_of_nil in Hop.
    + destruct op; cbn;
        try (by destruct (udp_method _ this) as [this' [a|e|]]);
        destruct Hop; unfold tcp_only; repeat (apply elem_of_cons; first [by left | right]).
Qed.

End FacadeDispatch.

Section LifecycleFacts.
Context {K : Constants}.

(** X17.  The status of the TCP transport around [createSocket].  Right
    after [createSocket] the status reported is the one the transport
    had before, left by an earlier socket or "Closed" on a new object.
    After the socket's [connect] event it is "Open".  After its [error]
    event the field holds "Error" but "Closed" is reported, the socket
    being destroyed; after its [close] event, following an error or
    not, "No socket instance" is reported. *)
Theorem tcp_socket_lifecycle (w : ZKLibTCP.World) :
  let fresh := length (ZKLibTCP.sockets w) in
  let w1 := ZKLibTCP.createSocket w in
  ZKLibTCP.getSocketStatus w1 = ZKLibTCP.socketStatus (ZKLibTCP.this w) /\
  ZKLibTCP.getSocketStatus (ZKLibTCP.emit fresh ZKLibTCP.EvConnect w1) = "Open" /\
  ZKLibTCP.getSocketStatus (ZKLibTCP.emit fresh ZKLibTCP.EvError w1) = "Closed" /\
  ZKLibTCP.socketStatus (ZKLibTCP.this (ZKLibTCP.emit fresh ZKLibTCP.EvError w1)) = "Error" /\
  ZKLibTCP.getSocketStatus (ZKLibTCP.emit fresh ZKLibTCP.EvClose w1) = "No socket instance" /\
  ZKLibTCP.getSocketStatus
    (ZKLibTCP.emit fresh ZKLibTCP.EvClose (ZKLibTCP.emit fresh ZKLibTCP.EvError w1))
  = "No socket instance".
Proof.
  intros fresh w1. subst fresh w1. destruct w as [this sockets].
  unfold ZKLibTCP.getSocketStatus, ZKLibTCP.emit, ZKLibTCP.createSocket.
  cbn [ZKLibTCP.this ZKLibTCP.sockets].
  assert (forall s : ZKLibTCP.NetSocket, (sockets ++ [s]) !! length sockets = Some s) as E.
  { intros s. rewrite lookup_app_r by lia. by rewrite Nat.sub_diag. }
  assert (forall s s' : ZKLibTCP.NetSocket,
            <[length sockets := s']> (sockets ++ [s]) !! length sockets = Some s') as E'.
  { intros s s'. rewrite list_lookup_insert.
    rewrite decide_True; [done|]. split; [done|]. rewrite length_app. cbn. lia. }
  rewrite !E. cbn [ZKLibTCP.onceError ZKLibTCP.onceConnect ZKLibTCP.onceClose
    ZKLibTCP.destroyed ZKLibTCP.this ZKLibTCP.sockets].
  rewrite !E'. cbn [ZKLibTCP.onceError ZKLibTCP.onceConnect ZKLibTCP.onceClose
    ZKLibTCP.destroyed ZKLibTCP.this ZKLibTCP.sockets].
  cbn. rewrite ?E'. cbn. rewrite ?E. by cbn.
Qed.

End LifecycleFacts.

Section ErrorMessageFacts.
Import Utils.

(** X18.  [exportErrorMessage] answers with the first key of [COMMANDS],
    in the order of its keys, whose value is the command, and with
    "AN UNKNOWN ERROR" when no key has that value. *)
Theorem exportErrorMessage_names_first (COMMANDS : list (string * Z)) (commandValue : Z) :
  (forall before key after,
     COMMANDS = before ++ (key, commandValue) :: after ->
     Forall (fun entry => snd entry <> commandValue) before ->
     exportErrorMessage COMMANDS commandValue = key) /\
  (Forall (fun entry => snd entry <> commandValue) COMMANDS ->
   exportErrorMessage COMMANDS commandValue = "AN UNKNOWN ERROR").
Proof.
  split.
  - intros before key after -> Hb.
    induction Hb as [|[k v] before Hv _ IH]; cbn.
    + by rewrite decide_True.
    + by rewrite decide_False.
  - induction 1 as [|[k v] rest Hv _ IH]; cbn; [done|].
    by rewrite decide_False.
Qed.

End ErrorMessageFacts.

(** ** [createSocket] of the facade *)

Section CreateSocketFacts.
Variable tcp_createSocket : ZKLibTCP.t -> ZKLibTCP.t * Outcome unit.
Variable tcp_connect : ZKLibTCP.t -> ZKLibTCP.t * Outcome bool.
Variable udp_createSocket : ZKLibUDP.t -> ZKLibUDP.t * Outcome unit.
Variable udp_connect : ZKLibUDP.t -> ZKLibUDP.t * Outcome bool.
Variable udp_disconnect : ZKLibUDP.t -> ZKLibUDP.t * Outcome bool.

(** X19.  [createSocket] of the facade.  With a TCP socket in place it
    returns at once and changes nothing.  Otherwise, when it returns
    the connection type is set, to tcp or udp; when it throws, it
    throws either "TCP CONNECT", for a TCP failure whose code is not
    ECONNREFUSED, leaving the UDP transport and the connection type as
    they were, or "UDP CONNECT", for a UDP failure whose code is not
    EADDRINUSE, with the connection type reset.  UDP is tried only
    after ECONNREFUSED; and a UDP failure with EADDRINUSE is not
    reported: the call returns with the connection type udp. *)
Theorem createSocket_falls_back (this : ZKLib.t) :
  (is_Some (ZKLibTCP.socket (ZKLib.zklibTcp this)) ->
   ZKLib.createSocket tcp_createSocket tcp_connect udp_createSocket udp_connect
     udp_disconnect this = (this, ZKLib.Returns tt)) /\
  (ZKLibTCP.socket (ZKLib.zklibTcp this) = None ->
   ZKLibUDP.socket (ZKLib.zklibUdp this) = None ->
   match ZKLib.createSocket tcp_createSocket tcp_connect udp_createSocket udp_connect
           udp_disconnect this with
   | (this', ZKLib.Returns _) =>
       ZKLib.connectionType this' = Some ZKLib.tcp
       \/ ZKLib.connectionType this' = Some ZKLib.udp
   | (this', ZKLib.Throws e) =>
       (ZKLib.command e = "TCP CONNECT" /\
        ZKLib.zklibUdp this' = ZKLib.zklibUdp this /\
        ZKLib.connectionType this' = ZKLib.connectionType this /\
        exists err, ZKLib.err e = ZKLib.Caught err /\
                    ZKLib.has_code "ECONNREFUSED" err = false)
       \/ (ZKLib.command e = "UDP CONNECT" /\
           ZKLib.connectionType this' = None /\
           exists err, ZKLib.err e = ZKLib.Caught err /\
                       ZKLib.has_code "EADDRINUSE" err = false)
   | (this', ZKLib.Waits) => True
   end) /\
  (ZKLibTCP.socket (ZKLib.zklibTcp this) = None ->
   forall transport transport' err,
     tcp_createSocket (ZKLib.zklibTcp this) = (transport, Resolved tt) ->
     tcp_connect transport = (transport', Rejected err) ->
     ZKLib.has_code "ECONNREFUSED" err = false ->
     ZKLib.createSocket tcp_createSocket tcp_connect udp_createSocket udp_connect
       udp_disconnect this
     = (ZKLib.set_zklibTcp transport' this,
        ZKLib.Throws (ZKLib.mkZKError (ZKLib.Caught err) "TCP CONNECT" (ZKLib.ip this)))) /\
  (ZKLibTCP.socket (ZKLib.zklibTcp this) = None ->
   ZKLibUDP.socket (ZKLib.zklibUdp this) = None ->
   forall transport refused datagram inUse,
     tcp_createSocket (ZKLib.zklibTcp this) = (transport, Rejected refused) ->
     ZKLib.has_code "ECONNREFUSED" refused = true ->
     udp_createSocket (ZKLib.zklibUdp this) = (datagram, Rejected inUse) ->
     ZKLib.has_code "EADDRINUSE" inUse = true ->
     ZKLib.createSocket tcp_createSocket tcp_connect udp_createSocket udp_connect
       udp_disconnect this
     = (ZKLib.mk transport datagram (Some ZKLib.udp) (ZKLib.ip this), ZKLib.Returns tt)).
Proof.
  unfold ZKLib.createSocket, ZKLib.tryTcpConnection, ZKLib.tryUdpConnection,
    ZKLib.cleanupSockets, ZKLib.on_tcp, ZKLib.on_udp.
  destruct this as [tcp0 udp0 ct ip0].
  cbn [ZKLib.zklibTcp ZKLib.zklibUdp ZKLib.connectionType ZKLib.ip].
  split; [|split; [|split]].
  - intros [s ->]. done.
  - intros -> Hu.
    destruct (tcp_createSocket tcp0) as [t1 [[]|e1|]];
      cbn [ZKLib.set_zklibTcp ZKLib.zklibTcp ZKLib.zklibUdp ZKLib.connectionType ZKLib.ip];
      [| |done].
    + destruct (tcp_connect t1) as [t2 [b|e2|]]; cbn; [by left| |done].
      destruct (ZKLib.has_code "ECONNREFUSED" e2) eqn:Ec; cbn; [|left; eauto 10].
      rewrite Hu.
      destruct (udp_createSocket udp0) as [u1 [[]|e3|]]; cbn; [| |done].
      * destruct (udp_connect u1) as [u2 [b|e4|]]; cbn; [by right| |done].
        destruct (ZKLib.has_code "EADDRINUSE" e4) eqn:Ea; cbn; [by right|].
        destruct (udp_disconnect u2) as [u3 [b|e5|]]; cbn; [right; eauto 10..|done].
      * destruct (ZKLib.has_code "EADDRINUSE" e3) eqn:Ea; cbn; [by right|].
        destruct (udp_disconnect u1) as [u3 [b|e5|]]; cbn; [right; eauto 10..|done].
    + destruct (ZKLib.has_code "ECONNREFUSED" e1) eqn:Ec; cbn; [|left; eauto 10].
      rewrite Hu.
      destruct (udp_createSocket udp0) as [u1 [[]|e3|]]; cbn; [| |done].
      * destruct (udp_connect u1) as [u2 [b|e4|]]; cbn; [by right| |done].
        destruct (ZKLib.has_code "EADDRINUSE" e4) eqn:Ea; cbn; [by right|].
        destruct (udp_disconnect u2) as [u3 [b|e5|]]; cbn; [right; eauto 10..|done].
      * destruct (ZKLib.has_code "EADDRINUSE" e3) eqn:Ea; cbn; [by right|].
        destruct (udp_disconnect u1) as [u3 [b|e5|]]; cbn; [right; eauto 10..|done].
  - intros -> transport transport' err -> . cbn. intros -> ->. done.
  - intros -> Hu transport refused datagram inUse -> Hr. cbn. rewrite Hr. cbn.
    rewrite Hu. intros -> ->. done.
Qed.

End CreateSocketFacts.

(** ** The chunk requests on the wire *)

Section WireFacts.
Context {K : Constants}.
Import Buffer Utils.

Lemma stamped_fields offset pre command c sessionId replyId data :
  length pre = offset ->
  0 <= command < 65536 -> 0 <= sessionId < 65536 ->
  readUInt16LE (pre ++ stamped command c sessionId replyId data) offset = Ok command /\
  readUInt16LE (pre ++ stamped command c sessionId replyId data) (offset + 4)
  = Ok sessionId /\
  readUIntLE (pre ++ stamped command c sessionId replyId data) (offset + 8) 4
  = readUIntLE data 0 4 /\
  readUIntLE (pre ++ stamped command c sessionId replyId data) (offset + 12) 4
  = readUIntLE data 4 4.
Proof.
  intros <- Hc Hs. unfold readUInt16LE.
  replace (length pre) with (length pre + 0)%nat at 1 by lia.
  rewrite !readUIntLE_behind. unfold stamped.
  split; [|split; [|split]].
  - etrans; [apply (read16_cells [])|]. by rewrite split16.
  - etrans; [apply (read16_cells [_; _; _; _])|]. by rewrite split16.
  - apply (readUIntLE_behind [_; _; _; _; _; _; _; _] data 0 4).
  - apply (readUIntLE_behind [_; _; _; _; _; _; _; _] data 4 4).
Qed.

Lemma request_body_reads request :
  fits_u32 request ->
  readUIntLE (request_body request) 0 4 = Ok (fst request) /\
  readUIntLE (request_body request) 4 4 = Ok (snd request).
Proof.
  intros [Hstart Hsize]. unfold request_body. split.
  - pose proof (readUIntLE_app [] (le_bytes 4 (fst request)) (le_bytes 4 (snd request))) as E.
    rewrite length_le_bytes in E. cbn [length app] in E. rewrite E.
    rewrite le_value_le_bytes; [done|]. change (2 ^ _) with 4294967296. lia.
  - pose proof (readUIntLE_app (le_bytes 4 (fst request)) (le_bytes 4 (snd request)) []) as E.
    rewrite !length_le_bytes, app_nil_r in E. rewrite E.
    rewrite le_value_le_bytes; [done|]. change (2 ^ _) with 4294967296. lia.
Qed.

Lemma udp_request_frame_on_wire sessionId request frame :
  0 < USHRT_MAX <= 65536 ->
  fits_u32 request -> udp_request_frame sessionId request frame ->
  request_on_wire 0 sessionId request frame.
Proof.
  intros HU Hfit [replyId E].
  destruct (createUDPHeader_frame _ _ _ _ _ HU (request_body_bytes request) E)
    as (c & _ & -> & Hc & _ & Hs & _).
  destruct (stamped_fields 0 [] CMD_DATA_RDY c sessionId
              ((replyId + 1) `rem` USHRT_MAX) (request_body request))
    as (F1 & F2 & F3 & F4); try done.
  destruct (request_body_reads request Hfit) as [R1 R2].
  unfold request_on_wire, readUInt32LE. cbn [app Nat.add] in *.
  rewrite F1, F2, F3, F4, R1, R2, length_stamped, length_request_body. done.
Qed.

Lemma tcp_request_frame_on_wire sessionId request frame :
  0 < USHRT_MAX <= 65536 ->
  fits_u32 request -> tcp_request_frame sessionId request frame ->
  request_on_wire 8 sessionId request frame.
Proof.
  intros HU Hfit [replyId E].
  destruct (createTCPHeader_frame _ _ _ _ _ HU (request_body_bytes request) E)
    as (inner & Ei & Hlen & ->).
  destruct (createUDPHeader_frame _ _ _ _ _ HU (request_body_bytes request) Ei)
    as (c & _ & -> & Hc & _ & Hs & _).
  set (len := Z.of_nat (length (stamped CMD_DATA_RDY c sessionId
                                   ((replyId + 1) `rem` USHRT_MAX) (request_body request)))).
  set (pre := [80; 80; 130; 125] ++ le_bytes 2 len ++ [0; 0]).
  replace ([80; 80; 130; 125] ++ le_bytes 2 len ++ [0; 0]
           ++ stamped CMD_DATA_RDY c sessionId ((replyId + 1) `rem` USHRT_MAX)
                (request_body request))
    with (pre ++ stamped CMD_DATA_RDY c sessionId ((replyId + 1) `rem` USHRT_MAX)
                   (request_body request))
    by (unfold pre; by rewrite <- !app_assoc).
  assert (length pre = 8%nat) as Hpre by done.
  destruct (stamped_fields 8 pre CMD_DATA_RDY c sessionId
              ((replyId + 1) `rem` USHRT_MAX) (request_body request))
    as (F1 & F2 & F3 & F4); try done.
  destruct (request_body_reads request Hfit) as [R1 R2].
  unfold request_on_wire, readUInt32LE. cbn [Nat.add] in *.
  rewrite F1, F2, F3, F4, R1, R2, length_app, Hpre, length_stamped, length_request_body.
  done.
Qed.

Lemma Forall2_on_wire {A B} (P Q : A -> B -> Prop) (R : A -> Prop) xs ys :
  (forall x y, R x -> P x y -> Q x y) ->
  Forall R xs -> Forall2 P xs ys -> Forall2 Q xs ys.
Proof.
  intros H HR HP. induction HP as [|x y xs ys Hxy _ IH]; [constructor|].
  apply Forall_cons in HR as [Hx HR]. constructor; [by apply H | by apply IH].
Qed.

(** X20.  The chunk requests of a bulk read, read back from the wire.
    For an announced size [N] below 2^32 and ids that fit 16 bits, the
    frames that [readWithBuffer] writes are, in order, one per request
    of the schedule [(0, MAX_CHUNK), (MAX_CHUNK, MAX_CHUNK), ...,
    (start, remain)]: each is a frame of 16 bytes behind the TCP
    prefix, none over UDP, that carries CMD_DATA_RDY, the session id,
    and the start and the size of its request as 32-bit little-endian
    words.  The UDP transport without a socket sends none of them and
    does not fail. *)
Theorem chunk_requests_read_back (N : Z) (tcp : ZKLibTCP.t) (udp : ZKLibUDP.t) :
  0 < MAX_CHUNK -> 0 <= N < 4294967296 ->
  0 < USHRT_MAX <= 65536 -> 0 <= CMD_DATA_RDY < 65536 ->
  (is_Some (ZKLibTCP.socket tcp) ->
   0 <= ZKLibTCP.sessionId_number tcp < 65536 ->
   0 <= ZKLibTCP.replyId tcp -> ZKLibTCP.replyId tcp + N `div` MAX_CHUNK + 1 < 65536 ->
   exists frames,
     ZKLibTCP.wire (fst (ZKLibTCP.readWithBuffer_requests N tcp))
     = ZKLibTCP.wire tcp ++ frames /\
     Forall2 (request_on_wire 8 (ZKLibTCP.sessionId_number tcp)) (chunk_schedule N) frames) /\
  (is_Some (ZKLibUDP.socket udp) ->
   0 <= ZKLibUDP.sessionId_number udp < 65536 ->
   0 <= ZKLibUDP.replyId udp -> ZKLibUDP.replyId udp + N `div` MAX_CHUNK + 1 < 65536 ->
   exists frames,
     ZKLibUDP.wire
       (fst (requestChunks ZKLibUDP.sendChunkRequest (ZKLibUDP.numberChunks_of N)
               (ZKLibUDP.remain_of N) udp))
     = ZKLibUDP.wire udp ++ frames /\
     Forall2 (request_on_wire 0 (ZKLibUDP.sessionId_number udp)) (chunk_schedule N) frames) /\
  (ZKLibUDP.socket udp = None ->
   requestChunks ZKLibUDP.sendChunkRequest (ZKLibUDP.numberChunks_of N)
     (ZKLibUDP.remain_of N) udp = (udp, Ok tt)).
Proof.
  intros HM HN HU Hcmd. split; [|split].
  - intros Hsock Hsid Hrid Hmax.
    destruct (tcp_chunk_requests_on_wire N tcp) as (frames & -> & Hf); try done.
    exists frames. split; [done|].
    eapply Forall2_on_wire; [|by apply chunk_schedule_fits|exact Hf].
    intros request frame Hfit. by apply tcp_request_frame_on_wire.
  - intros Hsock Hsid Hrid Hmax.
    destruct (udp_chunk_requests_on_wire N udp) as (frames & -> & Hf); try done.
    exists frames. split; [done|].
    eapply Forall2_on_wire; [|by apply chunk_schedule_fits|exact Hf].
    intros request frame Hfit. by apply udp_request_frame_on_wire.
  - intros Hs.
    destruct (cut_up N HM) as (_ & _ & -> & ->); [lia|].
    rewrite requestChunks_calls by lia.
    induction (chunk_schedule N) as [|[start size] requests IH]; [done|].
    cbn [sendAll]. unfold mbind, M_bind, ZKLibUDP.sendChunkRequest at 1. by rewrite Hs.
Qed.

End WireFacts.

(** X20, an instance: 70000 bytes announced, asked for in two requests. *)
Lemma chunk_requests_read_back_witness :
  let tcp := ZKLibTCP.mk 5000 (Some 4660) 7 (Some 0%nat) "Open" [] in
  let udp := ZKLibUDP.mk 5000 (Some 4660) 7 (Some (ZKLibUDP.mkSock None)) [] in
  (exists frames,
     ZKLibTCP.wire (fst (ZKLibTCP.readWithBuffer_requests (K := zk_constants) 70000 tcp))
     = ZKLibTCP.wire tcp ++ frames /\
     Forall2 (request_on_wire (K := zk_constants) 8 4660)
       (chunk_schedule (K := zk_constants) 70000) frames) /\
  (exists frames,
     ZKLibUDP.wire
       (fst (requestChunks (K := zk_constants) (ZKLibUDP.sendChunkRequest (K := zk_constants))
               (ZKLibUDP.numberChunks_of (K := zk_constants) 70000)
               (ZKLibUDP.remain_of (K := zk_constants) 70000) udp))
     = ZKLibUDP.wire udp ++ frames /\
     Forall2 (request_on_wire (K := zk_constants) 0 4660)
       (chunk_schedule (K := zk_constants) 70000) frames).
Proof.
  intros tcp udp.
  destruct (chunk_requests_read_back (K := zk_constants) 70000 tcp udp) as (Ht & Hu & _);
    [cbn; lia | lia | cbn; lia | cbn; lia |].
  split.
  - apply Ht; [by eexists | by vm_compute..].
  - apply Hu; [by eexists | by vm_compute..].
Defined.

(** ** Sessions *)

Section SessionFacts.
Context {K : Constants}.
Import Buffer Utils.

Lemma udp_connect_frame :
  0 < USHRT_MAX <= 65536 -> 0 <= CMD_CONNECT < 65536 ->
  exists frame, createUDPHeader CMD_CONNECT 0 0 [] = Ok frame.
Proof.
  intros HU Hc.
  destruct (createUDPHeader_Ok CMD_CONNECT 0 0 [] HU Hc) as (c & _ & _ & E);
    [lia | lia | constructor |]. eauto.
Qed.

(** X21.  [connect()] of the UDP transport.  Without a socket it is
    rejected with "Socket is not initialized" and nothing is sent.
    With a socket it resolves to [true] on any reply whose bytes 4..5
    can be read, which become the session id, and on an empty datagram,
    the session id staying 0; a reply of 1 to 5 bytes rejects it with a
    range error, a failed send with the socket's error, and silence
    with "TIMEOUT_ON_WRITING_MESSAGE" unless the timeout is 0, in which
    case it never settles. *)
Theorem udp_connect_outcomes (this : ZKLibUDP.t) (net : NetReply) :
  0 < USHRT_MAX <= 65536 -> 0 <= CMD_CONNECT < 65536 ->
  let this' := fst (ZKLibUDP.connect this net) in
  let outcome := snd (ZKLibUDP.connect this net) in
  (ZKLibUDP.socket this = None ->
   outcome = Rejected (Raised (Error "Socket is not initialized")) /\
   ZKLibUDP.wire this' = ZKLibUDP.wire this) /\
  (is_Some (ZKLibUDP.socket this) ->
   (net = Data [] -> outcome = Resolved true /\ ZKLibUDP.sessionId this' = Some 0) /\
   (forall reply sid, net = Data reply -> readUInt16LE reply 4 = Ok sid ->
      outcome = Resolved true /\ ZKLibUDP.sessionId this' = Some sid) /\
   (forall reply, net = Data reply -> (0 < length reply < 6)%nat ->
      outcome = Rejected (Raised RangeError)) /\
   (forall code, net = WriteFails code ->
      outcome = Rejected (Raised (SocketError code))) /\
   (net = Silence -> ZKLibUDP.timeout this <> 0 ->
      outcome = Rejected (Raised (Error "TIMEOUT_ON_WRITING_MESSAGE"))) /\
   (net = Silence -> ZKLibUDP.timeout this = 0 -> outcome = Pending)).
Proof.
  intros HU Hc this' outcome. subst this' outcome.
  destruct (udp_connect_frame HU Hc) as [frame Ef].
  destruct this as [timeout sid rid sock wire]. cbn [ZKLibUDP.socket ZKLibUDP.timeout].
  unfold ZKLibUDP.connect, ZKLibUDP.executeCmd, ZKLibUDP.writeMessage.
  rewrite decide_True by done.
  cbn -[createUDPHeader readUInt16LE]. rewrite Ef.
  split.
  - by intros ->.
  - intros [s ->]. cbn -[createUDPHeader readUInt16LE].
    split; [|split; [|split; [|split; [|split]]]].
    + by intros ->.
    + intros reply sid' -> Hr.
      assert (0 < length reply)%nat as Hlen.
      { unfold readUInt16LE, readUIntLE in Hr. case_decide; [lia | done]. }
      rewrite decide_True by done. rewrite decide_True by done. by rewrite Hr.
    + intros reply -> Hlen.
      rewrite decide_True by lia. rewrite decide_True by done.
      unfold readUInt16LE, readUIntLE. by rewrite decide_False by lia.
    + by intros code ->.
    + intros -> Ht. by rewrite decide_False.
    + intros -> Ht. by rewrite decide_True.
Qed.

Lemma le_value_bound bs :
  Forall is_byte bs -> 0 <= le_value bs < 2 ^ (8 * Z.of_nat (length bs)).
Proof.
  induction 1 as [|b bs Hb _ IH]; cbn [le_value length].
  - cbn. lia.
  - replace (8 * Z.of_nat (S (length bs))) with (8 + 8 * Z.of_nat (length bs)) by lia.
    rewrite Z.pow_add_r by lia. change (2 ^ 8) with 256. unfold is_byte in Hb. nia.
Qed.

Lemma readUInt16LE_range buf offset v :
  Forall is_byte buf -> readUInt16LE buf offset = Ok v -> 0 <= v < 65536.
Proof.
  intros Hb. unfold readUInt16LE, readUIntLE. case_decide as Hin; [|done].
  intros [= <-].
  pose proof (le_value_bound (take 2 (drop offset buf))) as H.
  rewrite length_take, length_drop in H.
  replace (Nat.min 2 (length buf - offset)) with 2%nat in H by lia.
  apply H. by apply Forall_take, Forall_drop.
Qed.

Lemma removeTcpHeader_bytes buf : Forall is_byte buf -> Forall is_byte (removeTcpHeader buf).
Proof.
  intros Hb. unfold removeTcpHeader, subarray_from.
  repeat case_decide; try done. by apply Forall_drop.
Qed.

(** The state [connect] leaves when the reply carries a session id. *)
Lemma tcp_connect_session this reply sid :
  0 < USHRT_MAX <= 65536 -> 0 <= CMD_CONNECT < 65536 ->
  is_Some (ZKLibTCP.socket this) ->
  readUInt16LE (removeTcpHeader reply) 4 = Ok sid ->
  exists frame,
    ZKLibTCP.connect this (Data reply)
    = (ZKLibTCP.mk (ZKLibTCP.timeout this) (Some sid) 0 (ZKLibTCP.socket this)
         (ZKLibTCP.socketStatus this) (ZKLibTCP.wire this ++ [frame]), Resolved true).
Proof.
  intros HU Hc [s Hs] Hr.
  destruct (connect_frame HU Hc) as [frame Ef]. exists frame.
  destruct this as [timeout sid0 rid sock status wire]. cbn in Hs. subst sock.
  unfold ZKLibTCP.connect, ZKLibTCP.executeCmd, ZKLibTCP.writeMessage.
  rewrite decide_True by done.
  cbn -[createTCPHeader removeTcpHeader readUInt16LE]. rewrite Ef.
  cbn -[createTCPHeader removeTcpHeader readUInt16LE].
  assert (length (removeTcpHeader reply) <> 0%nat) as Hlen.
  { unfold readUInt16LE, readUIntLE in Hr. case_decide; [lia | done]. }
  rewrite decide_True by done. rewrite decide_True by done. by rewrite Hr.
Qed.

Lemma udp_connect_session this reply sid :
  0 < USHRT_MAX <= 65536 -> 0 <= CMD_CONNECT < 65536 ->
  is_Some (ZKLibUDP.socket this) ->
  readUInt16LE reply 4 = Ok sid ->
  exists frame,
    ZKLibUDP.connect this (Data reply)
    = (ZKLibUDP.mk (ZKLibUDP.timeout this) (Some sid) 0 (ZKLibUDP.socket this)
         (ZKLibUDP.wire this ++ [frame]), Resolved true).
Proof.
  intros HU Hc [s Hs] Hr.
  destruct (udp_connect_frame HU Hc) as [frame Ef]. exists frame.
  destruct this as [timeout sid0 rid sock wire]. cbn in Hs. subst sock.
  unfold ZKLibUDP.connect, ZKLibUDP.executeCmd, ZKLibUDP.writeMessage.
  rewrite decide_True by done.
  cbn -[createUDPHeader readUInt16LE]. rewrite Ef.
  cbn -[createUDPHeader readUInt16LE].
  assert (0 < length reply)%nat as Hlen.
  { unfold readUInt16LE, readUIntLE in Hr. case_decide; [lia | done]. }
  rewrite decide_True by done. rewrite decide_True by done. by rewrite Hr.
Qed.

(** X22.  The session id that the reply to CONNECT carries is the one the
    next command is sent with.  After [connect()] on a reply whose
    bytes 4..5 hold [sid] (behind the TCP prefix, for TCP), the frame
    that [executeCmd] writes for another command decodes to that
    command, the session id [sid], the reply id [(1 + 1) % USHRT_MAX]
    and the body given. *)
Theorem session_id_is_carried (tcp : ZKLibTCP.t) (udp : ZKLibUDP.t)
    (reply : Buffer.t) (command : Z) (data : Buffer.t) (net : NetReply) :
  0 < USHRT_MAX <= 65536 -> 0 <= CMD_CONNECT < 65536 ->
  0 <= command < 65536 -> command <> CMD_CONNECT ->
  Forall is_byte reply -> Forall is_byte data -> Z.of_nat (length data) + 8 <= 65535 ->
  (is_Some (ZKLibTCP.socket tcp) ->
   forall sid, readUInt16LE (removeTcpHeader reply) 4 = Ok sid ->
     let connected := fst (ZKLibTCP.connect tcp (Data reply)) in
     exists frame c,
       ZKLibTCP.wire (fst (ZKLibTCP.executeCmd connected command data net))
       = ZKLibTCP.wire connected ++ [frame] /\
       decodeTCPHeader frame
       = Ok (mkTCPHeader command c sid ((1 + 1) `rem` USHRT_MAX)
               (8 + Z.of_nat (length data))) /\
       subarray_from frame 16 = data) /\
  (is_Some (ZKLibUDP.socket udp) ->
   forall sid, readUInt16LE reply 4 = Ok sid ->
     let connected := fst (ZKLibUDP.connect udp (Data reply)) in
     exists frame c,
       ZKLibUDP.wire (fst (ZKLibUDP.executeCmd connected command data net))
       = ZKLibUDP.wire connected ++ [frame] /\
       decodeUDPHeader frame
       = Ok (mkUDPHeader command c sid ((1 + 1) `rem` USHRT_MAX)) /\
       subarray_from frame 8 = data).
Proof.
  intros HU Hcc Hc Hne Hrb Hd Hlen. split.
  - intros Hsock sid Hsid connected. subst connected.
    destruct (tcp_connect_session tcp reply sid HU Hcc Hsock Hsid) as [f0 ->].
    cbn [fst]. rewrite tcp_executeCmd_wire.
    unfold tcp_stepped. rewrite decide_False by done.
    cbn [ZKLibTCP.set_replyId ZKLibTCP.sessionId_number ZKLibTCP.sessionId
      ZKLibTCP.replyId ZKLibTCP.socket ZKLibTCP.wire default id].
    destruct Hsock as [s ->].
    pose proof (readUInt16LE_range _ _ _ (removeTcpHeader_bytes _ Hrb) Hsid) as Hsr.
    destruct (createUDPHeader_Ok command sid (0 + 1) data) as (c & _ & Hcs & Ei);
      [done | done | done | lia | done |].
    rewrite (createTCPHeader_Ok _ _ _ _ _ Ei) by (rewrite length_stamped; lia).
    eexists _, c. split; [done|]. rewrite length_stamped.
    assert (0 <= (0 + 1 + 1) `rem` USHRT_MAX < 65536) as Hr.
    { pose proof (Z.rem_bound_pos (0 + 1 + 1) USHRT_MAX). lia. }
    split; [|done].
    rewrite decodeTCPHeader_stamped by lia. do 2 f_equal. lia.
  - intros Hsock sid Hsid connected. subst connected.
    destruct (udp_connect_session udp reply sid HU Hcc Hsock Hsid) as [f0 ->].
    cbn [fst]. rewrite udp_executeCmd_wire.
    unfold udp_stepped. rewrite decide_False by done.
    cbn [ZKLibUDP.set_replyId ZKLibUDP.sessionId_number ZKLibUDP.sessionId
      ZKLibUDP.replyId ZKLibUDP.socket ZKLibUDP.wire default id].
    destruct Hsock as [s ->].
    pose proof (readUInt16LE_range _ _ _ Hrb Hsid) as Hsr.
    destruct (createUDPHeader_Ok command sid (0 + 1) data) as (c & _ & Hcs & Ei);
      [done | done | done | lia | done |].
    rewrite Ei. eexists _, c. split; [done|].
    assert (0 <= (0 + 1 + 1) `rem` USHRT_MAX < 65536) as Hr.
    { pose proof (Z.rem_bound_pos (0 + 1 + 1) USHRT_MAX). lia. }
    split; [|done].
    by rewrite decodeUDPHeader_stamped by lia.
Qed.

End SessionFacts.

(** X21, an instance: a reply that carries the session id 4660, a reply of four
    bytes, and a transport without a socket. *)
Lemma udp_connect_outcomes_witness :
  let this := ZKLibUDP.set_socket (Some (ZKLibUDP.mkSock None)) (ZKLibUDP.new 5000) in
  let reply := [208; 7; 0; 0; 52; 18; 0; 0] in
  (snd (ZKLibUDP.connect (K := zk_constants) this (Data reply)) = Resolved true /\
   ZKLibUDP.sessionId (fst (ZKLibUDP.connect (K := zk_constants) this (Data reply)))
   = Some 4660) /\
  snd (ZKLibUDP.connect (K := zk_constants) this (Data [208; 7; 0; 0]))
  = Rejected (Raised RangeError) /\
  snd (ZKLibUDP.connect (K := zk_constants) (ZKLibUDP.new 5000) (Data reply))
  = Rejected (Raised (Error "Socket is not initialized")).
Proof.
  intros this reply. split; [|split].
  - destruct (udp_connect_outcomes (K := zk_constants) this (Data reply)) as (_ & H);
      [cbn; lia | cbn; lia |].
    destruct H as (_ & H & _); [by eexists|].
    by apply (H reply 4660).
  - destruct (udp_connect_outcomes (K := zk_constants) this (Data [208; 7; 0; 0]))
      as (_ & H); [cbn; lia | cbn; lia |].
    destruct H as (_ & _ & H & _); [by eexists|].
    apply (H [208; 7; 0; 0]); [done | cbn; lia].
  - destruct (udp_connect_outcomes (K := zk_constants) (ZKLibUDP.new 5000) (Data reply))
      as (H & _); [cbn; lia | cbn; lia |].
    by destruct H.
Defined.

(** X22, an instance: the session id 4660, on both transports. *)
Lemma session_id_is_carried_witness :
  let tcp := ZKLibTCP.set_socket (Some 0%nat) (ZKLibTCP.new 5000) in
  let udp := ZKLibUDP.set_socket (Some (ZKLibUDP.mkSock None)) (ZKLibUDP.new 5000) in
  let reply := [208; 7; 0; 0; 52; 18; 0; 0] in
  (exists frame c,
     ZKLibTCP.wire
       (fst (ZKLibTCP.executeCmd (K := zk_constants)
               (fst (ZKLibTCP.connect (K := zk_constants) tcp
                       (Data ([80; 80; 130; 125; 8; 0; 0; 0] ++ reply))))
               11 [1; 2] Silence))
     = ZKLibTCP.wire (fst (ZKLibTCP.connect (K := zk_constants) tcp
                             (Data ([80; 80; 130; 125; 8; 0; 0; 0] ++ reply))))
       ++ [frame] /\
     Utils.decodeTCPHeader frame
     = Ok (Utils.mkTCPHeader 11 c 4660 ((1 + 1) `rem` 65535) (8 + Z.of_nat (length [1; 2]))) /\
     Buffer.subarray_from frame 16 = [1; 2]) /\
  (exists frame c,
     ZKLibUDP.wire
       (fst (ZKLibUDP.executeCmd (K := zk_constants)
               (fst (ZKLibUDP.connect (K := zk_constants) udp (Data reply)))
               11 [1; 2] Silence))
     = ZKLibUDP.wire (fst (ZKLibUDP.connect (K := zk_constants) udp (Data reply))) ++ [frame] /\
     Utils.decodeUDPHeader frame = Ok (Utils.mkUDPHeader 11 c 4660 ((1 + 1) `rem` 65535)) /\
     Buffer.subarray_from frame 8 = [1; 2]).
Proof.
  intros tcp udp reply. split.
  - destruct (session_id_is_carried (K := zk_constants) tcp udp
                ([80; 80; 130; 125; 8; 0; 0; 0] ++ reply) 11 [1; 2] Silence) as (H & _);
      [cbn; lia | cbn; lia | lia | done | repeat constructor; lia
      | repeat constructor; lia | cbn; lia |].
    apply H; [by eexists | reflexivity].
  - destruct (session_id_is_carried (K := zk_constants) tcp udp reply 11 [1; 2] Silence)
      as (_ & H);
      [cbn; lia | cbn; lia | lia | done | repeat constructor; lia
      | repeat constructor; lia | cbn; lia |].
    apply H; [by eexists | reflexivity].
Defined.

(** ** The counters of the device *)

Section CounterFacts.
Context {K : Constants}.
Import Buffer Utils.

Lemma readUIntLE_value buf offset n :
  (offset + n <= length buf)%nat ->
  readUIntLE buf offset n = Ok (le_value (take n (drop offset buf))).
Proof. intros H. unfold readUIntLE. by rewrite decide_True. Qed.

(** X23.  [getInfo] reads three 32-bit counters at the offsets 24, 40 and
    72 of the frame that [executeCmd] resolves with: it resolves when
    that frame has at least 76 bytes and is rejected with a range error
    when it has fewer.  [getAttendanceSize] of the TCP transport reads
    the counter at 40 only: it resolves from 44 bytes on, with the
    [logCounts] of [getInfo], and below that is rejected with the text
    "Failed to get attendance size: " and the message of the range
    error.  A rejection of the command is handed on, as it is by
    [getInfo], behind that text by [getAttendanceSize]; the transport
    is left as [executeCmd] leaves it. *)
Theorem device_counters_need (command : Z) (tcp : ZKLibTCP.t) (udp : ZKLibUDP.t)
    (net : NetReply) :
  let counter (data : Buffer.t) (offset : nat) := le_value (take 4 (drop offset data)) in
  (forall data,
     snd (ZKLibTCP.executeCmd tcp command [] net) = Resolved data ->
     snd (ZKLibTCP.getInfo command tcp net)
     = (if decide (76 <= length data)%nat
        then Resolved (mkInfo (counter data 24%nat) (counter data 40%nat) (counter data 72%nat))
        else Rejected (Raised RangeError)) /\
     snd (ZKLibTCP.getAttendanceSize command tcp net)
     = (if decide (44 <= length data)%nat then Resolved (counter data 40%nat)
        else Rejected (Text "Failed to get attendance size: " (Raised RangeError)))) /\
  (forall data,
     snd (ZKLibUDP.executeCmd udp command [] net) = Resolved data ->
     snd (ZKLibUDP.getInfo command udp net)
     = (if decide (76 <= length data)%nat
        then Resolved (mkInfo (counter data 24%nat) (counter data 40%nat) (counter data 72%nat))
        else Rejected (Raised RangeError))) /\
  (forall r,
     snd (ZKLibTCP.executeCmd tcp command [] net) = Rejected r ->
     snd (ZKLibTCP.getInfo command tcp net) = Rejected r /\
     snd (ZKLibTCP.getAttendanceSize command tcp net)
     = Rejected (Text "Failed to get attendance size: " r)) /\
  fst (ZKLibTCP.getInfo command tcp net) = fst (ZKLibTCP.executeCmd tcp command [] net) /\
  fst (ZKLibTCP.getAttendanceSize command tcp net)
  = fst (ZKLibTCP.executeCmd tcp command [] net) /\
  fst (ZKLibUDP.getInfo command udp net) = fst (ZKLibUDP.executeCmd udp command [] net).
Proof.
  intros counter. unfold ZKLibTCP.getInfo, ZKLibTCP.getAttendanceSize, ZKLibUDP.getInfo.
  assert (forall data,
            (userCounts ← readUIntLE data 24 4;
             logCounts ← readUIntLE data 40 4;
             logCapacity ← readUIntLE data 72 4;
             Ok (mkInfo userCounts logCounts logCapacity))
            = if decide (76 <= length data)%nat
              then Ok (mkInfo (counter data 24%nat) (counter data 40%nat) (counter data 72%nat))
              else Throw RangeError) as Hinfo.
  { intros data. case_decide.
    - by rewrite !readUIntLE_value by lia.
    - destruct (decide (28 <= length data)%nat);
        [rewrite (readUIntLE_value data 24) by lia
        | by rewrite (readUIntLE_outside data 24) by lia].
      destruct (decide (44 <= length data)%nat);
        [rewrite (readUIntLE_value data 40) by lia
        | by rewrite (readUIntLE_outside data 40) by lia].
      by rewrite (readUIntLE_outside data 72) by lia. }
  assert (forall data,
            readUIntLE data 40 4
            = if decide (44 <= length data)%nat then Ok (counter data 40%nat)
              else Throw RangeError) as Hsize.
  { intros data. case_decide; [by rewrite readUIntLE_value by lia|].
    by rewrite readUIntLE_outside by lia. }
  destruct (ZKLibTCP.executeCmd tcp command [] net) as [tcp' [data|r|]];
    destruct (ZKLibUDP.executeCmd udp command [] net) as [udp' [data'|r'|]];
    cbn [fst snd]; rewrite ?Hinfo, ?Hsize.
  all: split; [intros ? [= <-]; split; by case_decide|].
  all: split; [intros ? [= <-]; by case_decide|].
  all: split; [by intros ? [= <-]|].
  all: repeat split; by repeat case_decide.
Qed.

End CounterFacts.

(** X23, an instance: a reply of 44 bytes behind its prefix, which [getInfo] refuses
    and [getAttendanceSize] reads. *)
Lemma device_counters_need_witness :
  let this := ZKLibTCP.set_socket (Some 0%nat) (ZKLibTCP.new 5000) in
  let reply := [80; 80; 130; 125; 52; 0; 0; 0] ++ replicate 40 0 ++ [44; 1; 0; 0] in
  snd (ZKLibTCP.getInfo (K := zk_constants) 50 this (Data reply))
  = Rejected (Raised RangeError) /\
  snd (ZKLibTCP.getAttendanceSize (K := zk_constants) 50 this (Data reply)) = Resolved 300.
Proof.
  intros this reply.
  destruct (device_counters_need (K := zk_constants) 50 this (ZKLibUDP.new 5000)
              (Data reply)) as (H & _).
  destruct (H (replicate 40 0 ++ [44; 1; 0; 0])) as [Hinfo Hsize]; [reflexivity|].
  split; [exact Hinfo | exact Hsize].
Defined.

(** ** [requestData] over TCP *)

Section TcpRequestFacts.
Context {K : Constants}.
Import Buffer Utils.

Lemma decodeTCPHeader_length header h :
  decodeTCPHeader header = Ok h -> (16 <= length header)%nat.
Proof.
  unfold decodeTCPHeader, readUIntLE.
  repeat (case_decide; cbn [mbind Res_bind]; try done).
Qed.

Lemma decodeTCPHeader_Throw header e :
  decodeTCPHeader header = Throw e -> e = RangeError.
Proof.
  unfold decodeTCPHeader, readUIntLE.
  repeat (case_decide; cbn [mbind Res_bind]; try congruence).
Qed.

Lemma heads_data_length buf : heads_data buf -> (16 <= length buf)%nat.
Proof.
  intros (h & E & _). apply decodeTCPHeader_length in E.
  unfold subarray in E. rewrite length_take, length_drop in E. lia.
Qed.

Lemma heads_data_app buf more : heads_data buf -> heads_data (buf ++ more).
Proof.
  intros H. pose proof (heads_data_length _ H) as Hlen.
  destruct H as (h & E & Hc). exists h. split; [|done].
  unfold subarray in *. rewrite !drop_0 in *. cbn [Nat.sub] in *.
  by rewrite take_app_le by lia.
Qed.

Lemma received_app a b : received (a ++ b) = received a ++ received b.
Proof. unfold received. by rewrite omap_app. Qed.

Lemma tcp_reply_of_app seen more d : tcp_reply_of seen d -> tcp_reply_of (seen ++ more) d.
Proof.
  intros [[Hin Hw]|(got & rest & E & -> & Hh)].
  - left. split; [|done]. apply elem_of_app. by left.
  - right. exists got, (rest ++ received more). split; [|done].
    by rewrite received_app, E, app_assoc.
Qed.

Lemma tcp_settle_Resolved o rq d :
  ZKLibTCP.outcome (ZKLibTCP.settle o rq) = Resolved d ->
  ZKLibTCP.outcome rq = Resolved d \/ (ZKLibTCP.outcome rq = Pending /\ o = Resolved d).
Proof.
  unfold ZKLibTCP.settle. destruct (ZKLibTCP.outcome rq) eqn:E; cbn; rewrite ?E; auto.
Qed.

Lemma tcp_settle_fields o rq :
  ZKLibTCP.listening (ZKLibTCP.settle o rq) = ZKLibTCP.listening rq /\
  ZKLibTCP.replyBuffer (ZKLibTCP.settle o rq) = ZKLibTCP.replyBuffer rq /\
  ZKLibTCP.timers (ZKLibTCP.settle o rq) = ZKLibTCP.timers rq /\
  ZKLibTCP.request_timer (ZKLibTCP.settle o rq) = ZKLibTCP.request_timer rq /\
  ZKLibTCP.nextTimer (ZKLibTCP.settle o rq) = ZKLibTCP.nextTimer rq.
Proof. unfold ZKLibTCP.settle. by destruct (ZKLibTCP.outcome rq). Qed.

Lemma tcp_clearTimeout_timers rq timer :
  timer ∈ ZKLibTCP.timers (ZKLibTCP.clearTimeout rq) -> timer ∈ ZKLibTCP.timers rq.
Proof. unfold ZKLibTCP.clearTimeout. cbn. by intros [_ ?]%list_elem_of_filter. Qed.

(** The step of the request keeps [tcp_request_sound]. *)
Lemma tcp_request_react_sound seen i rq rq' :
  ZKLibTCP.request_react i rq = Ok rq' ->
  tcp_request_sound seen rq -> tcp_request_sound (seen ++ [i]) rq'.
Proof.
  intros Hstep ((got & rest & Egot & Hbuf & Hrest) & Htimers & Hout).
  destruct i as [err|data|id]; cbn [ZKLibTCP.request_react] in Hstep.
  - injection Hstep as <-.
    set (rq1 := match err with
                | Some code => ZKLibTCP.settle (Rejected (Raised (SocketError code))) rq
                | None => rq
                end).
    assert (ZKLibTCP.listening rq1 = ZKLibTCP.listening rq /\
            ZKLibTCP.replyBuffer rq1 = ZKLibTCP.replyBuffer rq /\
            ZKLibTCP.timers rq1 = ZKLibTCP.timers rq /\
            forall d, ZKLibTCP.outcome rq1 = Resolved d -> ZKLibTCP.outcome rq = Resolved d)
      as (El & Eb & Et & Eo).
    { subst rq1. destruct err as [code|]; [|done].
      destruct (tcp_settle_fields (Rejected (Raised (SocketError code))) rq)
        as (-> & -> & -> & _).
      repeat split. by intros d [?|[_ [=]]]%tcp_settle_Resolved. }
    unfold ZKLibTCP.setTimeout. split; [|split]; cbn.
    + exists got, rest. rewrite received_app, Egot. cbn. rewrite app_nil_r.
      split; [done|]. rewrite Eb, El. done.
    + intros id [Hin|Hin%list_elem_of_singleton]%elem_of_app; [|done].
      rewrite Eb. apply (Htimers id). by rewrite <- Et.
    + intros d Hd. apply tcp_reply_of_app, Hout, Eo, Hd.
  - destruct (ZKLibTCP.listening rq) eqn:El.
    2:{ injection Hstep as <-. split; [|split].
        - exists got, (rest ++ [data]). rewrite received_app, Egot. cbn.
          rewrite <- app_assoc. split; [done|]. split; [done|]. by rewrite El.
        - done.
        - intros d Hd. by apply tcp_reply_of_app, Hout. }
    rewrite (Hrest eq_refl), app_nil_r in Egot.
    unfold ZKLibTCP.requestData_handleOnData in Hstep.
    set (rq1 := ZKLibTCP.set_replyBuffer (ZKLibTCP.replyBuffer rq ++ data) rq) in Hstep.
    assert (received (seen ++ [ZKLibTCP.Received data]) = (got ++ [data]) ++ []) as Egot'.
    { rewrite received_app, Egot. cbn. by rewrite app_nil_r. }
    assert (ZKLibTCP.replyBuffer rq1 = concat (got ++ [data])) as Hbuf'.
    { cbn. rewrite Hbuf, concat_app. cbn. by rewrite app_nil_r. }
    assert (forall id, (id, ZKLibTCP.DeliverReplyBuffer) ∈ ZKLibTCP.timers rq ->
                       heads_data (ZKLibTCP.replyBuffer rq1)) as Htimers'.
    { intros id Hin. cbn. apply heads_data_app. by apply (Htimers id). }
    destruct (checkNotEventTCP data) eqn:Ev.
    + injection Hstep as <-. split; [|split].
      * by exists (got ++ [data]), [].
      * exact Htimers'.
      * intros d Hd. apply tcp_reply_of_app, Hout. exact Hd.
    + destruct (decodeTCPHeader (subarray (ZKLibTCP.replyBuffer (ZKLibTCP.clearTimeout rq1)) 0 16))
        as [h|] eqn:Eh; cbn [mbind Res_bind] in Hstep; [|done].
      case_decide as Hc.
      * injection Hstep as <-. split; [|split].
        -- by exists (got ++ [data]), [].
        -- intros id Hin. exists h. by split.
        -- intros d Hd. apply tcp_reply_of_app, Hout. exact Hd.
      * destruct (readUIntLE data 4 2) as [n|] eqn:En; cbn [mbind Res_bind] in Hstep; [|done].
        set (rq2 := ZKLibTCP.setTimeout _ _) in Hstep.
        assert (forall id, (id, ZKLibTCP.DeliverReplyBuffer) ∈ ZKLibTCP.timers rq2 ->
                           heads_data (ZKLibTCP.replyBuffer rq1)) as Htimers2.
        { intros id [Hin|Hin%list_elem_of_singleton]%elem_of_app; [|done].
          apply tcp_clearTimeout_timers in Hin. by apply (Htimers' id). }
        case_decide as Hn; injection Hstep as <-.
        -- unfold ZKLibTCP.requestData_internalCallback.
           destruct (tcp_settle_fields (Resolved data)
                       (ZKLibTCP.clearTimeout (ZKLibTCP.removeListener rq2)))
             as (El' & Eb' & Et' & _).
           split; [|split].
           ++ exists (got ++ [data]), []. split; [done|]. by rewrite Eb'.
           ++ intros id Hin. rewrite Eb'. rewrite Et' in Hin.
              apply tcp_clearTimeout_timers in Hin. by apply (Htimers2 id).
           ++ intros d [Hd|[_ [= <-]]]%tcp_settle_Resolved.
              ** apply tcp_reply_of_app, Hout. exact Hd.
              ** left. split; [apply elem_of_app; right; by apply list_elem_of_singleton|].
                 split; [done|]. exists n. split; [done | lia].
        -- split; [|split].
           ++ by exists (got ++ [data]), [].
           ++ exact Htimers2.
           ++ intros d Hd. apply tcp_reply_of_app, Hout. exact Hd.
  - assert (received (seen ++ [ZKLibTCP.TimerFires id]) = got ++ rest) as Egot'.
    { rewrite received_app, Egot. cbn. by rewrite app_nil_r. }
    destruct (list_find _ _) as [[k [id' action]]|] eqn:Ef.
    2:{ injection Hstep as <-. split; [|split].
        - by exists got, rest.
        - done.
        - intros d Hd. by apply tcp_reply_of_app, Hout. }
    apply list_find_Some in Ef as (Hlook & Hid & _). cbn in Hid. subst id'.
    assert ((id, action) ∈ ZKLibTCP.timers rq) as Hlive
      by (by eapply list_elem_of_lookup_2).
    set (rq1 := ZKLibTCP.mkRequest _ _ _ _ _ _) in Hstep.
    assert (forall id, (id, ZKLibTCP.DeliverReplyBuffer) ∈ ZKLibTCP.timers rq1 ->
                       heads_data (ZKLibTCP.replyBuffer rq)) as Htimers1.
    { intros id0 [_ Hin]%list_elem_of_filter. by apply (Htimers id0). }
    destruct action as [|message]; injection Hstep as <-.
    + unfold ZKLibTCP.requestData_internalCallback.
      lazymatch goal with
      | |- context [ZKLibTCP.settle ?o ?r] =>
          destruct (tcp_settle_fields o r) as (El' & Eb' & Et' & _)
      end.
      split; [|split].
      * exists got, rest. split; [done|]. split; [by rewrite Eb'|]. by rewrite El'.
      * intros id0 Hin. rewrite Eb'. rewrite Et' in Hin.
        apply tcp_clearTimeout_timers in Hin. by apply (Htimers1 id0).
      * intros d [Hd|[_ [= <-]]]%tcp_settle_Resolved.
        -- apply tcp_reply_of_app, Hout. exact Hd.
        -- right. exists got, rest. split; [done|]. split; [done|].
           cbn. by apply (Htimers id).
    + destruct (tcp_settle_fields (Rejected (Raised (Error message))) rq1)
        as (El' & Eb' & Et' & _).
      split; [|split].
      * exists got, rest. split; [done|]. split; [by rewrite Eb'|]. by rewrite El'.
      * intros id0 Hin. rewrite Eb'. rewrite Et' in Hin. by apply (Htimers1 id0).
      * intros d [Hd|[_ [=]]]%tcp_settle_Resolved.
        apply tcp_reply_of_app, Hout. exact Hd.
Qed.


Lemma tcp_request_reacts_sound inputs seen rq rq' :
  ZKLibTCP.request_reacts inputs rq = Ok rq' ->
  tcp_request_sound seen rq -> tcp_request_sound (seen ++ inputs) rq'.
Proof.
  revert seen rq. induction inputs as [|i inputs IH]; intros seen rq; cbn.
  - intros [= <-]. by rewrite app_nil_r.
  - destruct (ZKLibTCP.request_react i rq) as [rq1|] eqn:E; cbn; [|done].
    intros Hrun Hs.
    replace (seen ++ i :: inputs) with ((seen ++ [i]) ++ inputs)
      by (by rewrite <- app_assoc).
    eapply IH; [exact Hrun|]. by eapply tcp_request_react_sound.
Qed.

Lemma tcp_requestData_sound msg this :
  tcp_request_sound [] (snd (ZKLibTCP.requestData msg this)).
Proof.
  unfold ZKLibTCP.requestData. destruct (ZKLibTCP.socket this); cbn.
  all: split; [by exists [], [] | split; [by intros id Hin%elem_of_nil | done]].
Qed.

Lemma tcp_reply_of_length seen d : tcp_reply_of seen d -> (6 <= length d)%nat.
Proof.
  intros [[_ (_ & n & En & _)]|(_ & _ & _ & _ & Hh)].
  - unfold readUIntLE in En. case_decide; [lia | done].
  - apply heads_data_length in Hh. lia.
Qed.

Lemma decodeTCPHeader_Ok header :
  (16 <= length header)%nat -> returns (decodeTCPHeader header).
Proof.
  intros H. unfold decodeTCPHeader, readUIntLE.
  repeat (rewrite decide_True by lia; cbn [mbind Res_bind]). by eexists.
Qed.

Lemma tcp_clearTimeout_one rq id action :
  ZKLibTCP.request_timer rq = Some id -> ZKLibTCP.timers rq = [(id, action)] ->
  ZKLibTCP.timers (ZKLibTCP.clearTimeout rq) = [].
Proof.
  intros Et El. unfold ZKLibTCP.clearTimeout. cbn. rewrite El, Et.
  rewrite filter_cons. by rewrite decide_False by (by intros []).
Qed.

Lemma gathering_Received rq buf data :
  gathering rq buf ->
  exists rq', ZKLibTCP.request_react (ZKLibTCP.Received data) rq = Ok rq' /\
              gathering rq' (buf ++ data).
Proof.
  intros (Ho & Hl & Hb & Hh & id & Ht & Hts).
  cbn [ZKLibTCP.request_react]. rewrite Hl.
  unfold ZKLibTCP.requestData_handleOnData. rewrite Hb.
  pose proof (heads_data_app buf data Hh) as Hh'.
  destruct (checkNotEventTCP data).
  - eexists. split; [done|]. repeat split; try done. exists id. by split.
  - cbn [ZKLibTCP.clearTimeout ZKLibTCP.set_replyBuffer ZKLibTCP.replyBuffer].
    pose proof Hh' as (h & Eh & Hc). rewrite Eh.
    cbn [mbind Res_bind]. rewrite decide_True by done.
    eexists. split; [done|]. unfold ZKLibTCP.setTimeout. cbn.
    split; [done|]. split; [done|]. split; [done|]. split; [done|].
    eexists. split; [done|]. rewrite Hts, Ht.
    rewrite filter_cons. by rewrite decide_False by (by intros []).
Qed.

Lemma gathering_run more rq buf :
  gathering rq buf ->
  exists rq', ZKLibTCP.request_reacts (ZKLibTCP.Received <$> more) rq = Ok rq' /\
              gathering rq' (buf ++ concat more).
Proof.
  revert rq buf. induction more as [|data more IH]; intros rq buf Hg.
  - exists rq. cbn. by rewrite app_nil_r.
  - destruct (gathering_Received rq buf data Hg) as (rq1 & E & Hg1).
    destruct (IH rq1 _ Hg1) as (rq' & Hrun & Hg').
    exists rq'. cbn [fmap list_fmap ZKLibTCP.request_reacts].
    rewrite E. cbn [mbind Res_bind]. split; [exact Hrun|].
    cbn [concat]. by rewrite app_assoc.
Qed.

Lemma request_reacts_app inputs inputs' rq rq1 :
  ZKLibTCP.request_reacts inputs rq = Ok rq1 ->
  ZKLibTCP.request_reacts (inputs ++ inputs') rq = ZKLibTCP.request_reacts inputs' rq1.
Proof.
  revert rq. induction inputs as [|i inputs IH]; intros rq; cbn.
  - by intros [= <-].
  - destruct (ZKLibTCP.request_react i rq) as [rq2|]; cbn; [|done]. apply IH.
Qed.

Lemma gathering_delivers rq buf :
  gathering rq buf ->
  exists id rq',
    ZKLibTCP.request_react (ZKLibTCP.TimerFires id) rq = Ok rq' /\
    ZKLibTCP.outcome rq' = Resolved buf /\ ZKLibTCP.timers rq' = [] /\
    ZKLibTCP.listening rq' = false.
Proof.
  intros (Ho & Hl & Hb & Hh & id & Ht & Hts).
  exists id. cbn [ZKLibTCP.request_react]. rewrite Hts.
  cbn [list_find]. rewrite decide_True by done. cbn.
  eexists. split; [done|].
  unfold ZKLibTCP.requestData_internalCallback, ZKLibTCP.settle. cbn.
  rewrite Ho. cbn. rewrite Hb. repeat split.
  by rewrite decide_False by (by intros []).
Qed.

(** The first chunk of a request whose write went through. *)
Lemma tcp_request_first_chunk d :
  let waiting := "TIMEOUT_ON_RECEIVING_REQUEST_DATA" in
  ZKLibTCP.request_reacts [ZKLibTCP.Written None; ZKLibTCP.Received d]
    (ZKLibTCP.mkRequest Pending true None [] [] 0)
  = if checkNotEventTCP d
    then Ok (ZKLibTCP.mkRequest Pending true (Some 0%nat) d
               [(0%nat, ZKLibTCP.RejectWith
                          "TIMEOUT_IN_RECEIVING_RESPONSE_AFTER_REQUESTING_DATA")] 1)
    else
      header ← decodeTCPHeader (subarray d 0 16);
      if decide (tcp_commandId header = CMD_DATA)
      then Ok (ZKLibTCP.mkRequest Pending true (Some 1%nat) d
                 [(1%nat, ZKLibTCP.DeliverReplyBuffer)] 2)
      else
        packetLength ← readUIntLE d 4 2;
        if decide (packetLength > 8)
        then Ok (ZKLibTCP.mkRequest (Resolved d) false (Some 1%nat) d [] 2)
        else Ok (ZKLibTCP.mkRequest Pending true (Some 1%nat) d
                   [(1%nat, ZKLibTCP.RejectWith waiting)] 2).
Proof.
  intros waiting. cbn [ZKLibTCP.request_reacts ZKLibTCP.request_react mbind Res_bind].
  unfold ZKLibTCP.requestData_handleOnData, ZKLibTCP.requestData_internalCallback,
    ZKLibTCP.setTimeout, ZKLibTCP.set_replyBuffer, ZKLibTCP.clearTimeout,
    ZKLibTCP.removeListener, ZKLibTCP.settle.
  cbn [ZKLibTCP.listening ZKLibTCP.outcome ZKLibTCP.request_timer ZKLibTCP.replyBuffer
         ZKLibTCP.timers ZKLibTCP.nextTimer app].
  destruct (checkNotEventTCP d); [done|].
  destruct (decodeTCPHeader (subarray d 0 16)) as [h|]; cbn [mbind Res_bind]; [|done].
  case_decide; [reflexivity|].
  destruct (readUIntLE d 4 2) as [n|]; cbn [mbind Res_bind]; [|done].
  case_decide; reflexivity.
Qed.

(** X24.  [requestData] of the TCP transport is resolved only in two
    ways: with one chunk it received, not an event frame, whose length
    field (bytes 4..5) is above 8; or with everything it received up to
    some point, event frames included, the first 16 bytes of which
    read as a CMD_DATA header.  Either way the reply has at least six
    bytes.  With a socket, once the write went through: a first chunk
    of at least 16 bytes that is no event frame, has no CMD_DATA header
    and a length field above 8 is the reply at once, with no timer left
    running; after a first chunk with a CMD_DATA header the request
    gathers every chunk that follows and delivers them all when its
    timer of one second fires; and a first chunk of fewer than 16 bytes
    that is no event frame makes the listener throw a range error.
    Without a socket nothing is written, and the request stays pending
    whatever arrives. *)
Theorem tcp_requestData_reply (msg : Buffer.t) (this : ZKLibTCP.t) :
  let rq0 := snd (ZKLibTCP.requestData msg this) in
  (forall inputs rq d,
     ZKLibTCP.request_reacts inputs rq0 = Ok rq -> ZKLibTCP.outcome rq = Resolved d ->
     tcp_reply_of inputs d /\ (6 <= length d)%nat) /\
  (is_Some (ZKLibTCP.socket this) ->
   (forall d,
      whole_reply d -> (16 <= length d)%nat -> ~ heads_data d ->
      exists rq,
        ZKLibTCP.request_reacts [ZKLibTCP.Written None; ZKLibTCP.Received d] rq0 = Ok rq /\
        ZKLibTCP.outcome rq = Resolved d /\ ZKLibTCP.timers rq = [] /\
        ZKLibTCP.listening rq = false) /\
   (forall first more,
      checkNotEventTCP first = false -> heads_data first ->
      exists id rq,
        ZKLibTCP.request_reacts
          (ZKLibTCP.Written None :: ZKLibTCP.Received first
           :: (ZKLibTCP.Received <$> more) ++ [ZKLibTCP.TimerFires id]) rq0 = Ok rq /\
        ZKLibTCP.outcome rq = Resolved (first ++ concat more) /\
        ZKLibTCP.timers rq = [] /\ ZKLibTCP.listening rq = false) /\
   (forall d,
      checkNotEventTCP d = false -> (length d < 16)%nat ->
      ZKLibTCP.request_reacts [ZKLibTCP.Written None; ZKLibTCP.Received d] rq0
      = Throw RangeError)) /\
  (ZKLibTCP.socket this = None ->
   ZKLibTCP.requestData msg this
   = (this, ZKLibTCP.mkRequest Pending false None [] [] 0) /\
   forall inputs,
     Forall (fun i => forall err, i <> ZKLibTCP.Written err) inputs ->
     ZKLibTCP.request_reacts inputs rq0 = Ok rq0).
Proof.
  intros rq0. split; [|split].
  - intros inputs rq d Hrun Hd.
    pose proof (tcp_request_reacts_sound inputs [] rq0 rq Hrun
                  (tcp_requestData_sound msg this)) as (_ & _ & Hout).
    cbn [app] in Hout. split; [by apply Hout|].
    eapply tcp_reply_of_length. by apply Hout.
  - intros [sock Hsock]. subst rq0. unfold ZKLibTCP.requestData. rewrite Hsock.
    cbn [snd]. split; [|split].
    + intros d (Hev & n & En & Hn) Hlen Hnot.
      rewrite tcp_request_first_chunk, Hev.
      destruct (decodeTCPHeader_Ok (subarray d 0 16)) as [h Eh].
      { unfold subarray. rewrite length_take, length_drop. lia. }
      rewrite Eh. cbn [mbind Res_bind].
      rewrite decide_False by (intros Hc; apply Hnot; by exists h).
      rewrite En. cbn [mbind Res_bind]. rewrite decide_True by lia.
      by eexists.
    + intros first more Hev Hh.
      set (rq1 := ZKLibTCP.mkRequest Pending true (Some 1%nat) first
                    [(1%nat, ZKLibTCP.DeliverReplyBuffer)] 2).
      assert (ZKLibTCP.request_reacts [ZKLibTCP.Written None; ZKLibTCP.Received first]
                (ZKLibTCP.mkRequest Pending true None [] [] 0) = Ok rq1) as Estart.
      { rewrite tcp_request_first_chunk, Hev.
        destruct Hh as (h & -> & Hc). cbn [mbind Res_bind].
        by rewrite decide_True by done. }
      assert (gathering rq1 first) as Hg.
      { repeat split; try done. by exists 1%nat. }
      destruct (gathering_run more rq1 first Hg) as (rq2 & Hrun & Hg2).
      destruct (gathering_delivers rq2 _ Hg2) as (id & rq3 & Efire & Hout & Hts & Hl).
      exists id, rq3. split; [|done].
      change (ZKLibTCP.Written None :: ZKLibTCP.Received first
              :: (ZKLibTCP.Received <$> more) ++ [ZKLibTCP.TimerFires id])
        with ([ZKLibTCP.Written None; ZKLibTCP.Received first]
              ++ ((ZKLibTCP.Received <$> more) ++ [ZKLibTCP.TimerFires id])).
      rewrite (request_reacts_app _ _ _ _ Estart).
      rewrite (request_reacts_app _ _ _ _ Hrun). cbn [ZKLibTCP.request_reacts].
      by rewrite Efire.
    + intros d Hev Hlen.
      rewrite tcp_request_first_chunk, Hev.
      destruct (decodeTCPHeader (subarray d 0 16)) as [h|e] eqn:Eh; cbn [mbind Res_bind].
      * apply decodeTCPHeader_length in Eh.
        unfold subarray in Eh. rewrite length_take, length_drop in Eh. lia.
      * by apply decodeTCPHeader_Throw in Eh as ->.
  - intros Hsock. subst rq0. unfold ZKLibTCP.requestData. rewrite Hsock.
    split; [done|]. cbn [snd].
    intros inputs Hin. induction Hin as [|i inputs Hi _ IH]; [done|].
    cbn [ZKLibTCP.request_reacts]. destruct i as [err|data|id]; [by destruct (Hi err)|..].
    + cbn. exact IH.
    + cbn. exact IH.
Qed.

End TcpRequestFacts.

(** X24, an instance: a first chunk with a CMD_DATA header, two more chunks, and
    the timer. *)
Lemma tcp_requestData_reply_witness :
  let this := ZKLibTCP.set_socket (Some 0%nat) (ZKLibTCP.new 5000) in
  let first := [80; 80; 130; 125; 11; 0; 0; 0; 221; 5; 0; 0; 0; 0; 0; 0; 7; 8; 9] in
  exists id rq,
    ZKLibTCP.request_reacts (K := zk_constants)
      (ZKLibTCP.Written None :: ZKLibTCP.Received first
       :: (ZKLibTCP.Received <$> [[10; 11]; [12]]) ++ [ZKLibTCP.TimerFires id])
      (snd (ZKLibTCP.requestData [1; 2; 3] this)) = Ok rq /\
    ZKLibTCP.outcome rq = Resolved (first ++ concat [[10; 11]; [12]]) /\
    ZKLibTCP.timers rq = [] /\ ZKLibTCP.listening rq = false.
Proof.
  intros this first.
  destruct (tcp_requestData_reply (K := zk_constants) [1; 2; 3] this) as (_ & H & _).
  destruct H as (_ & H & _); [by eexists|].
  apply H; [reflexivity|]. eexists. split; reflexivity.
Defined.
